(** * Creative engine: divergence-convergence generation and creativity evaluation

    A shallow embedding of the [creative_engine] package
    (core/config.py, generation/generator.py, generation/registry.py,
    generation/models.py, evaluation/evaluator.py, evaluation/models.py,
    engine.py) and the properties its specification states about it.

    Conventions of the embedding.
    - A Python [float] is an exact rational ([Q]): every finite double is a
      rational, and the arithmetic is taken without rounding error.  NaN and
      infinities are not represented.  A Python [int] is a [Z].
    - A Python call that may raise returns a [PyResult]: [Ok v] or
      [Raise e].
    - The language model behind [LLMProvider.generate] is an oracle with a
      state of its own; every call to it is recorded in a call log, so that
      "this call was never made" is a statement about the log.
    - A prompt is the template it is formatted from (by the name of the
      constant that holds the text) with the keyword arguments of the
      formatting; the text is determined by the two.
    - What pydantic and the [statistics] module do is written out from
      their documented behaviour: validation at construction, [model_dump],
      [model_validate], [mean], [variance], [stdev].  The square root of
      [stdev] is a parameter ([MathSqrt]) of which only non-negativity is
      used. *)

From Stdlib Require Import QArith Qround ZArith Lia Lqa List.
From stdpp Require Import gmap strings.
Import ListNotations.

Unset Default Proof Using.
Set Warnings "-register-all".

(* ================================================================== *)
(** ** Python values and exceptions *)
(* ================================================================== *)

Module Py.

(** The exceptions the modelled code raises or catches.  All of them are
    subclasses of Python's [Exception]. *)
Inductive Exc : Type :=
| ValueError (msg : string)
| KeyError (key : string)
| AttributeError (name : string)
| StatisticsError (msg : string)
| ValidationError (msg : string)
| ProviderError (msg : string).

Inductive PyResult (A : Type) : Type :=
| Ok (a : A)
| Raise (e : Exc).

Arguments Ok {A} a.
Arguments Raise {A} e.

Definition bind {A B} (r : PyResult A) (k : A -> PyResult B) : PyResult B :=
  match r with
  | Ok a => k a
  | Raise e => Raise e
  end.

(** [x < y] on floats. *)
Definition Qltb (x y : Q) : bool := negb (Qle_bool y x).

(** Python's two-argument [min(a, b)]: [b] when [b < a], otherwise [a]. *)
Definition min (a b : Q) : Q := if Qltb b a then b else a.

(** Python's two-argument [max(a, b)]: [b] when [b > a], otherwise [a]. *)
Definition max (a b : Q) : Q := if Qltb a b then b else a.

(** Rounding of a rational to the nearest integer, ties to even. *)
Definition round_half_even (q : Q) : Z :=
  let f := Qfloor q in
  let r := (q - inject_Z f)%Q in
  if Qltb r (1 # 2) then f
  else if Qltb (1 # 2) r then (f + 1)%Z
  else if Z.even f then f else (f + 1)%Z.

(** Python's [round(x, ndigits)] for a positive number of digits: the
    nearest multiple of [10 ^ -ndigits], ties to even. *)
Definition round (x : Q) (ndigits : positive) : Q :=
  let scale := (10 ^ ndigits)%positive in
  round_half_even (x * inject_Z (Zpos scale)) # scale.

(** Python's [int(x)] on a float: truncation toward zero. *)
Definition int (x : Q) : Z := Z.quot (Qnum x) (Zpos (Qden x)).

(** [sum(xs)] and [len(xs)] as floats. *)
Definition sum (xs : list Q) : Q := fold_left Qplus xs 0%Q.

Definition len {A} (xs : list A) : Q := inject_Z (Z.of_nat (length xs)).

End Py.

Import Py.

Notation "'do' x <- c1 ; c2" := (Py.bind c1 (fun x => c2))
  (at level 10, x name, c1 at level 100, c2 at level 200).

(* ================================================================== *)
(** ** core/config.py *)
(* ================================================================== *)

Module CreativityConfig.

(** [@dataclass class CreativityConfig]. *)
Record t : Type := mk {
  creativity_level : Q;
  quality_threshold : Q
}.

(** [__post_init__]: both fields must lie in [0.0, 1.0]. *)
Definition post_init (self : t) : PyResult unit :=
  if negb (Qle_bool 0 (creativity_level self) && Qle_bool (creativity_level self) 1)
  then Raise (ValueError "creativity_level must be between 0.0 and 1.0")
  else if negb (Qle_bool 0 (quality_threshold self) && Qle_bool (quality_threshold self) 1)
  then Raise (ValueError "quality_threshold must be between 0.0 and 1.0")
  else Ok tt.

(** The dataclass constructor: build the object, then run [__post_init__]. *)
Definition new (creativity_level quality_threshold : Q) : PyResult t :=
  let self := mk creativity_level quality_threshold in
  do _u <- post_init self; Ok self.

End CreativityConfig.

Module EngineParameters.

(** [@dataclass class EngineParameters]. *)
Record t : Type := mk {
  temperature : Q;
  top_p : Q;
  num_branches : Z;
  quality_threshold : Q
}.

(** [__post_init__]: range checks on temperature, top_p and num_branches;
    [quality_threshold] is not checked here. *)
Definition post_init (self : t) : PyResult unit :=
  if negb (Qle_bool 0 (temperature self) && Qle_bool (temperature self) 2)
  then Raise (ValueError "temperature should be between 0.0 and 2.0")
  else if negb (Qle_bool 0 (top_p self) && Qle_bool (top_p self) 1)
  then Raise (ValueError "top_p must be between 0.0 and 1.0")
  else if (num_branches self <? 1)%Z
  then Raise (ValueError "num_branches must be at least 1")
  else Ok tt.

Definition new (temperature top_p : Q) (num_branches : Z) (quality_threshold : Q)
  : PyResult t :=
  let self := mk temperature top_p num_branches quality_threshold in
  do _u <- post_init self; Ok self.

End EngineParameters.

Module Config.

(** The local [level] of [map_creativity]:
    [max(0.0, min(1.0, creativity_level))]. *)
Definition level (creativity_level : Q) : Q :=
  Py.max 0 (Py.min 1 creativity_level).

(** [map_creativity(creativity_level, quality_threshold)]. *)
Definition map_creativity (creativity_level quality_threshold : Q)
  : PyResult EngineParameters.t :=
  let level := level creativity_level in
  EngineParameters.new
    (Py.round (0.4 + 0.8 * level) 2)
    (Py.round (0.6 + 0.4 * level) 2)
    (Z.max 2 (Py.int (2 + 6 * level)))
    quality_threshold.

End Config.

(* ================================================================== *)
(** ** Plain Python data: what [model_dump] produces *)
(* ================================================================== *)

Module PyVal.

(** [None], numbers, strings, lists and string-keyed dicts.  A dict keeps
    its keys in insertion order. *)
Inductive t : Type :=
| VNone
| VInt (n : Z)
| VFloat (x : Q)
| VStr (s : string)
| VList (items : list t)
| VDict (entries : list (string * t)).

(** [d.get(key)], [None] of [option] standing for a missing key. *)
Fixpoint lookup (key : string) (entries : list (string * t)) : option t :=
  match entries with
  | [] => None
  | (k, v) :: rest => if String.eqb k key then Some v else lookup key rest
  end.

(** [d.get(key, default)] on a dict. *)
Definition get (d : list (string * t)) (key : string) (default : t) : t :=
  match lookup key d with
  | Some v => v
  | None => default
  end.

(** [d[key]], raising [KeyError] on a missing key. *)
Definition getitem (d : list (string * t)) (key : string) : PyResult t :=
  match lookup key d with
  | Some v => Ok v
  | None => Raise (KeyError key)
  end.

Definition of_option_str (o : option string) : t :=
  match o with
  | Some s => VStr s
  | None => VNone
  end.

End PyVal.

Import PyVal.

(** A product context is a plain dict: name, target_audience, pain_point,
    key_benefit, and optionally offer and platform. *)
Abbreviation ProductContext := (list (string * PyVal.t)) (only parsing).

(* ================================================================== *)
(** ** generation/models.py *)
(* ================================================================== *)

Module Concept.
Record t : Type := mk {
  title : string;
  description : string;
  hook_idea : string
}.
End Concept.

Module IdeationOutput.
Record t : Type := mk {
  concepts : list Concept.t
}.
End IdeationOutput.

Module ConceptScore.
(** [quality_score] carries the field constraint [ge=0.0, le=1.0]. *)
Record t : Type := mk {
  quality_score : Q;
  reason : string
}.
End ConceptScore.

Module ScoredConcept.
Record t : Type := mk {
  concept : Concept.t;
  score : ConceptScore.t
}.

(** The [quality_score] property. *)
Definition quality_score (self : t) : Q :=
  ConceptScore.quality_score (score self).
End ScoredConcept.

(** [Literal["tiktok", "instagram", "youtube_shorts", "linkedin"]]. *)
Inductive Platform : Type :=
| tiktok | instagram | youtube_shorts | linkedin.

(** [Literal["hook", "problem", "solution", "cta", "other"]]. *)
Inductive Role : Type :=
| hook | problem | solution | cta | other.

Module VideoMeta.
Record t : Type := mk {
  duration_seconds : Z;
  platform : Platform
}.
End VideoMeta.

Module Audio.
Record t : Type := mk {
  music : option string;
  sfx : option string
}.
End Audio.

Module Scene.
(** [start_sec] and [end_sec] carry the field constraint [ge=0.0]. *)
Record t : Type := mk {
  id : Z;
  start_sec : Q;
  end_sec : Q;
  role : Role;
  visual : string;
  camera : string;
  action : string;
  dialogue : string;
  on_screen_text : option string;
  audio : Audio.t;
  notes_for_model : option string
}.
End Scene.

Module VideoScript.
Record t : Type := mk {
  video_meta : VideoMeta.t;
  scenes : list Scene.t
}.
End VideoScript.


(* ================================================================== *)
(** ** Dumping and validating the generation models *)
(* ================================================================== *)

(** [BaseModel.model_dump()] turns a model into nested dicts and lists, and
    [Model.model_validate(data)] builds a model from such data, checking
    required fields, field types, literals and field constraints.  Both are
    pydantic's; they are written out here per model class, for the value
    forms of [PyVal.t].  An [int] is accepted where a [float] is expected;
    an optional field may be missing or [None]; unknown keys are ignored.
    The other coercions of pydantic's lax mode (a numeric string for a
    number, an integral float for an int) are not written out: such input
    is rejected here. *)
Module Validate.

Definition required (d : list (string * PyVal.t)) (key : string) : PyResult PyVal.t :=
  match PyVal.lookup key d with
  | Some v => Ok v
  | None => Raise (ValidationError ("Field required: " ++ key))
  end.

Definition as_dict (v : PyVal.t) : PyResult (list (string * PyVal.t)) :=
  match v with
  | VDict entries => Ok entries
  | _ => Raise (ValidationError "Input should be a valid dictionary")
  end.

Definition as_int (v : PyVal.t) : PyResult Z :=
  match v with
  | VInt n => Ok n
  | _ => Raise (ValidationError "Input should be a valid integer")
  end.

Definition as_float (v : PyVal.t) : PyResult Q :=
  match v with
  | VFloat x => Ok x
  | VInt n => Ok (inject_Z n)
  | _ => Raise (ValidationError "Input should be a valid number")
  end.

Definition as_str (v : PyVal.t) : PyResult string :=
  match v with
  | VStr s => Ok s
  | _ => Raise (ValidationError "Input should be a valid string")
  end.

(** [Optional[str] = None]. *)
Definition optional_str (d : list (string * PyVal.t)) (key : string)
  : PyResult (option string) :=
  match PyVal.lookup key d with
  | None | Some VNone => Ok None
  | Some (VStr s) => Ok (Some s)
  | Some _ => Raise (ValidationError "Input should be a valid string")
  end.

(** The constraint [ge=0.0]. *)
Definition ge0 (x : Q) : PyResult Q :=
  if Qle_bool 0 x then Ok x
  else Raise (ValidationError "Input should be greater than or equal to 0").

(** Validation of every item of a list, stopping at the first error. *)
Fixpoint each {A} (f : PyVal.t -> PyResult A) (items : list PyVal.t)
  : PyResult (list A) :=
  match items with
  | [] => Ok []
  | v :: rest =>
      do x <- f v;
      do xs <- each f rest;
      Ok (x :: xs)
  end.

Definition as_list {A} (f : PyVal.t -> PyResult A) (v : PyVal.t)
  : PyResult (list A) :=
  match v with
  | VList items => each f items
  | _ => Raise (ValidationError "Input should be a valid list")
  end.

End Validate.

Module Dump.

Definition platform_name (p : Platform) : string :=
  match p with
  | tiktok => "tiktok"
  | instagram => "instagram"
  | youtube_shorts => "youtube_shorts"
  | linkedin => "linkedin"
  end.

Definition role_name (r : Role) : string :=
  match r with
  | hook => "hook"
  | problem => "problem"
  | solution => "solution"
  | cta => "cta"
  | other => "other"
  end.

Definition Concept_model_dump (c : Concept.t) : PyVal.t :=
  VDict [ ("title", VStr (Concept.title c));
          ("description", VStr (Concept.description c));
          ("hook_idea", VStr (Concept.hook_idea c)) ].

Definition IdeationOutput_model_dump (o : IdeationOutput.t) : PyVal.t :=
  VDict [ ("concepts", VList (map Concept_model_dump (IdeationOutput.concepts o))) ].

Definition ConceptScore_model_dump (s : ConceptScore.t) : PyVal.t :=
  VDict [ ("quality_score", VFloat (ConceptScore.quality_score s));
          ("reason", VStr (ConceptScore.reason s)) ].

Definition VideoMeta_model_dump (m : VideoMeta.t) : PyVal.t :=
  VDict [ ("duration_seconds", VInt (VideoMeta.duration_seconds m));
          ("platform", VStr (platform_name (VideoMeta.platform m))) ].

Definition Audio_model_dump (a : Audio.t) : PyVal.t :=
  VDict [ ("music", PyVal.of_option_str (Audio.music a));
          ("sfx", PyVal.of_option_str (Audio.sfx a)) ].

Definition Scene_model_dump (s : Scene.t) : PyVal.t :=
  VDict [ ("id", VInt (Scene.id s));
          ("start_sec", VFloat (Scene.start_sec s));
          ("end_sec", VFloat (Scene.end_sec s));
          ("role", VStr (role_name (Scene.role s)));
          ("visual", VStr (Scene.visual s));
          ("camera", VStr (Scene.camera s));
          ("action", VStr (Scene.action s));
          ("dialogue", VStr (Scene.dialogue s));
          ("on_screen_text", PyVal.of_option_str (Scene.on_screen_text s));
          ("audio", Audio_model_dump (Scene.audio s));
          ("notes_for_model", PyVal.of_option_str (Scene.notes_for_model s)) ].

Definition VideoScript_model_dump (v : VideoScript.t) : PyVal.t :=
  VDict [ ("video_meta", VideoMeta_model_dump (VideoScript.video_meta v));
          ("scenes", VList (map Scene_model_dump (VideoScript.scenes v))) ].

End Dump.


Module Hydrate.

Import Validate.

Definition platform_of (s : string) : PyResult Platform :=
  if String.eqb s "tiktok" then Ok tiktok
  else if String.eqb s "instagram" then Ok instagram
  else if String.eqb s "youtube_shorts" then Ok youtube_shorts
  else if String.eqb s "linkedin" then Ok linkedin
  else Raise (ValidationError
    "Input should be 'tiktok', 'instagram', 'youtube_shorts' or 'linkedin'").

Definition role_of (s : string) : PyResult Role :=
  if String.eqb s "hook" then Ok hook
  else if String.eqb s "problem" then Ok problem
  else if String.eqb s "solution" then Ok solution
  else if String.eqb s "cta" then Ok cta
  else if String.eqb s "other" then Ok other
  else Raise (ValidationError
    "Input should be 'hook', 'problem', 'solution', 'cta' or 'other'").

Definition VideoMeta_model_validate (v : PyVal.t) : PyResult VideoMeta.t :=
  do d <- as_dict v;
  do duration_seconds <- (do x <- required d "duration_seconds"; as_int x);
  do platform <- (do x <- required d "platform"; do s <- as_str x; platform_of s);
  Ok (VideoMeta.mk duration_seconds platform).

Definition Audio_model_validate (v : PyVal.t) : PyResult Audio.t :=
  do d <- as_dict v;
  do music <- optional_str d "music";
  do sfx <- optional_str d "sfx";
  Ok (Audio.mk music sfx).

Definition Scene_model_validate (v : PyVal.t) : PyResult Scene.t :=
  do d <- as_dict v;
  do id <- (do x <- required d "id"; as_int x);
  do start_sec <- (do x <- required d "start_sec"; do f <- as_float x; ge0 f);
  do end_sec <- (do x <- required d "end_sec"; do f <- as_float x; ge0 f);
  do role <- (do x <- required d "role"; do s <- as_str x; role_of s);
  do visual <- (do x <- required d "visual"; as_str x);
  do camera <- (do x <- required d "camera"; as_str x);
  do action <- (do x <- required d "action"; as_str x);
  do dialogue <- (do x <- required d "dialogue"; as_str x);
  do on_screen_text <- optional_str d "on_screen_text";
  do audio <- (do x <- required d "audio"; Audio_model_validate x);
  do notes_for_model <- optional_str d "notes_for_model";
  Ok (Scene.mk id start_sec end_sec role visual camera action dialogue
        on_screen_text audio notes_for_model).

Definition VideoScript_model_validate (v : PyVal.t) : PyResult VideoScript.t :=
  do d <- as_dict v;
  do video_meta <- (do x <- required d "video_meta"; VideoMeta_model_validate x);
  do scenes <- (do x <- required d "scenes"; as_list Scene_model_validate x);
  Ok (VideoScript.mk video_meta scenes).

(** The field constraints of a scene and of a script: what holds of every
    instance that pydantic has built. *)
Definition Scene_constraints (s : Scene.t) : bool :=
  Qle_bool 0 (Scene.start_sec s) && Qle_bool 0 (Scene.end_sec s).

Definition VideoScript_constraints (v : VideoScript.t) : bool :=
  forallb Scene_constraints (VideoScript.scenes v).

End Hydrate.

(* ================================================================== *)
(** ** evaluation/models.py *)
(* ================================================================== *)

Module CriterionScore.
(** [score] carries the field constraint [ge=1.0, le=3.0]. *)
Record t : Type := mk {
  score : Q;
  reason : string
}.

Definition model_dump (self : t) : PyVal.t :=
  VDict [ ("score", VFloat (score self)); ("reason", VStr (reason self)) ].
End CriterionScore.

Module GenericJudgeOutput.
Record t : Type := mk {
  hook_originality : CriterionScore.t;
  visual_creativity : CriterionScore.t;
  narrative_originality : CriterionScore.t;
  entertainment_value : CriterionScore.t;
  brand_integration : CriterionScore.t;
  platform_fit : CriterionScore.t;
  overall_creativity : CriterionScore.t
}.

(** [getattr(self, name)] on the criterion fields. *)
Definition getattr (self : t) (name : string) : PyResult CriterionScore.t :=
  if String.eqb name "hook_originality" then Ok (hook_originality self)
  else if String.eqb name "visual_creativity" then Ok (visual_creativity self)
  else if String.eqb name "narrative_originality" then Ok (narrative_originality self)
  else if String.eqb name "entertainment_value" then Ok (entertainment_value self)
  else if String.eqb name "brand_integration" then Ok (brand_integration self)
  else if String.eqb name "platform_fit" then Ok (platform_fit self)
  else if String.eqb name "overall_creativity" then Ok (overall_creativity self)
  else Raise (AttributeError name).

Definition model_dump (self : t) : PyVal.t :=
  VDict [ ("hook_originality", CriterionScore.model_dump (hook_originality self));
          ("visual_creativity", CriterionScore.model_dump (visual_creativity self));
          ("narrative_originality", CriterionScore.model_dump (narrative_originality self));
          ("entertainment_value", CriterionScore.model_dump (entertainment_value self));
          ("brand_integration", CriterionScore.model_dump (brand_integration self));
          ("platform_fit", CriterionScore.model_dump (platform_fit self));
          ("overall_creativity", CriterionScore.model_dump (overall_creativity self)) ].
End GenericJudgeOutput.

Module PersonaJudgeOutput.
Record t : Type := mk {
  persona : string;
  hook_originality : CriterionScore.t;
  visual_creativity : CriterionScore.t;
  narrative_originality : CriterionScore.t;
  entertainment_value : CriterionScore.t;
  brand_integration : CriterionScore.t;
  platform_fit : CriterionScore.t;
  overall_creativity : CriterionScore.t
}.

(** [getattr(self, name)] on the criterion fields. *)
Definition getattr (self : t) (name : string) : PyResult CriterionScore.t :=
  if String.eqb name "hook_originality" then Ok (hook_originality self)
  else if String.eqb name "visual_creativity" then Ok (visual_creativity self)
  else if String.eqb name "narrative_originality" then Ok (narrative_originality self)
  else if String.eqb name "entertainment_value" then Ok (entertainment_value self)
  else if String.eqb name "brand_integration" then Ok (brand_integration self)
  else if String.eqb name "platform_fit" then Ok (platform_fit self)
  else if String.eqb name "overall_creativity" then Ok (overall_creativity self)
  else Raise (AttributeError name).

Definition model_dump (self : t) : PyVal.t :=
  VDict [ ("persona", VStr (persona self));
          ("hook_originality", CriterionScore.model_dump (hook_originality self));
          ("visual_creativity", CriterionScore.model_dump (visual_creativity self));
          ("narrative_originality", CriterionScore.model_dump (narrative_originality self));
          ("entertainment_value", CriterionScore.model_dump (entertainment_value self));
          ("brand_integration", CriterionScore.model_dump (brand_integration self));
          ("platform_fit", CriterionScore.model_dump (platform_fit self));
          ("overall_creativity", CriterionScore.model_dump (overall_creativity self)) ].
End PersonaJudgeOutput.

(** The constraint [ge=0.0] on a [std] field, checked when the model is
    constructed. *)
Definition validate_std (std : Q) : PyResult unit :=
  if Qle_bool 0 std then Ok tt
  else Raise (ValidationError "std: Input should be greater than or equal to 0").

Module EvaluationStats.
Record t : Type := mk {
  mean : Q;
  std : Q
}.

Definition new (mean std : Q) : PyResult t :=
  do _u <- validate_std std; Ok (mk mean std).
End EvaluationStats.

Module CriterionStats.
Record t : Type := mk {
  mean : Q;
  std : Q
}.

Definition new (mean std : Q) : PyResult t :=
  do _u <- validate_std std; Ok (mk mean std).
End CriterionStats.

Module TemperatureBlock.
Record t : Type := mk {
  overall : EvaluationStats.t;
  criteria : gmap string CriterionStats.t;
  by_temperature : list PyVal.t
}.
End TemperatureBlock.

Module PersonaBlock.
Record t : Type := mk {
  overall : EvaluationStats.t;
  criteria : gmap string CriterionStats.t;
  by_persona : list PyVal.t
}.
End PersonaBlock.

Module AggregateResults.
Record t : Type := mk {
  overall : EvaluationStats.t;
  criteria : gmap string CriterionStats.t
}.
End AggregateResults.

Module CreativityAssessmentResult.
Record t : Type := mk {
  temperature_block : option TemperatureBlock.t;
  persona_block : option PersonaBlock.t;
  aggregate : AggregateResults.t;
  raw_judge_outputs : option (list (string * PyVal.t))
}.
End CreativityAssessmentResult.

(* ================================================================== *)
(** ** core/enums.py and core/llm.py: the provider interface *)
(* ================================================================== *)

Inductive ContentType : Type :=
| VIDEO_SCRIPT
| LINKEDIN_POST
| TWITTER_THREAD
| EMAIL_COPY
| REDDIT_POST
| AD_COPY.

Definition ContentType_eqb (a b : ContentType) : bool :=
  match a, b with
  | VIDEO_SCRIPT, VIDEO_SCRIPT | LINKEDIN_POST, LINKEDIN_POST
  | TWITTER_THREAD, TWITTER_THREAD | EMAIL_COPY, EMAIL_COPY
  | REDDIT_POST, REDDIT_POST | AD_COPY, AD_COPY => true
  | _, _ => false
  end.

(** [ContentType.value]. *)
Definition ContentType_value (c : ContentType) : string :=
  match c with
  | VIDEO_SCRIPT => "video_script"
  | LINKEDIN_POST => "linkedin_post"
  | TWITTER_THREAD => "twitter_thread"
  | EMAIL_COPY => "email_copy"
  | REDDIT_POST => "reddit_post"
  | AD_COPY => "ad_copy"
  end.

Module LLM.

(** The model classes passed as [output_schema]. *)
Inductive Schema : Type :=
| IdeationOutputSchema
| ConceptScoreSchema
| VideoScriptSchema
| GenericJudgeOutputSchema
| PersonaJudgeOutputSchema.

(** The instances of a schema. *)
Definition instance_of (s : Schema) : Type :=
  match s with
  | IdeationOutputSchema => IdeationOutput.t
  | ConceptScoreSchema => ConceptScore.t
  | VideoScriptSchema => VideoScript.t
  | GenericJudgeOutputSchema => GenericJudgeOutput.t
  | PersonaJudgeOutputSchema => PersonaJudgeOutput.t
  end.

(** [instance.model_dump()], dispatched on the instance's class. *)
Definition model_dump (s : Schema) : instance_of s -> PyVal.t :=
  match s with
  | IdeationOutputSchema => Dump.IdeationOutput_model_dump
  | ConceptScoreSchema => Dump.ConceptScore_model_dump
  | VideoScriptSchema => Dump.VideoScript_model_dump
  | GenericJudgeOutputSchema => GenericJudgeOutput.model_dump
  | PersonaJudgeOutputSchema => PersonaJudgeOutput.model_dump
  end.

(** The prompt templates of generation/registry.py and
    evaluation/evaluator.py, by the name of the constant that holds the
    text. *)
Inductive Template : Type :=
| VIDEO_IDEATION_SYSTEM
| VIDEO_IDEATION_USER_TEMPLATE
| VIDEO_JUDGE_SYSTEM
| VIDEO_JUDGE_USER_TEMPLATE
| VIDEO_WRITING_SYSTEM
| VIDEO_WRITING_USER_TEMPLATE
| GENERIC_SYSTEM_PROMPT
| GENERIC_USER_PROMPT_TEMPLATE
| PERSONA_SYSTEM_PROMPT_TEMPLATE
| PERSONA_USER_PROMPT_TEMPLATE.

(** A prompt is a template, the keyword arguments [template.format] is
    called with, and the lines appended to the result.
    The text itself is a function of these three. *)
Record Prompt : Type := mkPrompt {
  template : Template;
  kwargs : list (string * PyVal.t);
  appended : list string
}.

(** [template.format] with the given keyword arguments. *)
Definition format (t : Template) (kwargs : list (string * PyVal.t)) : Prompt :=
  mkPrompt t kwargs [].

(** The template used as it is. *)
Definition verbatim (t : Template) : Prompt := mkPrompt t [] [].

(** [prompt += line]. *)
Definition append (p : Prompt) (line : string) : Prompt :=
  mkPrompt (template p) (kwargs p) (appended p ++ [line]).

(** The arguments of one [provider.generate(...)] call. *)
Record Call : Type := mkCall {
  system_prompt : Prompt;
  user_prompt : Prompt;
  output_schema : Schema;
  temperature : Q;
  top_p : Q
}.

(** [class LLMProvider(Protocol)]: [generate] returns an instance of the
    requested schema or raises.  The provider has a state of its own
    (the remote model, its sampling), threaded through the calls. *)
Record LLMProvider (St : Type) : Type := mkProvider {
  generate : forall c : Call, St -> PyResult (instance_of (output_schema c)) * St
}.

Arguments generate {St} _ c _.

(** The world a request runs in: the provider's state and the log of the
    calls made to it, oldest first. *)
Record World (St : Type) : Type := mkWorld {
  oracle : St;
  log : list Call
}.

Arguments mkWorld {St} oracle log.
Arguments oracle {St} _.
Arguments log {St} _.

(** Computations that call the provider and may raise. *)
Definition M (St A : Type) : Type := World St -> PyResult A * World St.

Definition ret {St A} (a : A) : M St A := fun w => (Ok a, w).

Definition throw {St A} (e : Exc) : M St A := fun w => (Raise e, w).

Definition lift {St A} (r : PyResult A) : M St A := fun w => (r, w).

Definition bind {St A B} (m : M St A) (k : A -> M St B) : M St B :=
  fun w =>
    match m w with
    | (Ok a, w') => k a w'
    | (Raise e, w') => (Raise e, w')
    end.

(** [try: m  except Exception as e: ...]: the outcome of [m] as a value. *)
Definition try {St A} (m : M St A) : M St (PyResult A) :=
  fun w => let (r, w') := m w in (Ok r, w').

(** One call to the provider, recorded in the log. *)
Definition call {St} (provider : LLMProvider St) (c : Call)
  : M St (instance_of (output_schema c)) :=
  fun w =>
    let (r, s') := generate provider c (oracle w) in
    (r, mkWorld s' (log w ++ [c])).

End LLM.

Notation "'run' x <- c1 ; c2" := (LLM.bind c1 (fun x => c2))
  (at level 10, x name, c1 at level 100, c2 at level 200).


(* ================================================================== *)
(** ** generation/registry.py *)
(* ================================================================== *)

Module Registry.

Import LLM.

Record ContentDefinition : Type := mkDefinition {
  ideation_system_prompt : Template;
  ideation_user_prompt_template : Template;
  judge_system_prompt : Template;
  judge_user_prompt_template : Template;
  writing_system_prompt : Template;
  writing_user_prompt_template : Template;
  output_schema : Schema
}.

(** The registry as shipped: the video script is its only entry. *)
Definition CONTENT_REGISTRY : list (ContentType * ContentDefinition) :=
  [ (VIDEO_SCRIPT,
     mkDefinition VIDEO_IDEATION_SYSTEM VIDEO_IDEATION_USER_TEMPLATE
                  VIDEO_JUDGE_SYSTEM VIDEO_JUDGE_USER_TEMPLATE
                  VIDEO_WRITING_SYSTEM VIDEO_WRITING_USER_TEMPLATE
                  VideoScriptSchema) ].

Fixpoint registry_get (registry : list (ContentType * ContentDefinition))
  (content_type : ContentType) : option ContentDefinition :=
  match registry with
  | [] => None
  | (k, d) :: rest =>
      if ContentType_eqb k content_type then Some d
      else registry_get rest content_type
  end.

(** [get_content_definition(content_type)]. *)
Definition get_content_definition (content_type : ContentType)
  : PyResult ContentDefinition :=
  match registry_get CONTENT_REGISTRY content_type with
  | None => Raise (ValueError ("Content type " ++ ContentType_value content_type
                               ++ " is not registered."))
  | Some d => Ok d
  end.

End Registry.

(* ================================================================== *)
(** ** generation/generator.py *)
(* ================================================================== *)

Module PyList.

(** [max(xs, key=key)] on a non-empty list [x :: xs]: the first element
    whose key no other element exceeds. *)
Definition max_key {A} (key : A -> Q) (x : A) (xs : list A) : A :=
  fold_left (fun best y => if Py.Qltb (key best) (key y) then y else best) xs x.

(** [min(xs)] and [max(xs)] on a non-empty list of floats. *)
Definition min_of (x : Q) (xs : list Q) : Q := fold_left Py.min xs x.

Definition max_of (x : Q) (xs : list Q) : Q := fold_left Py.max xs x.

(** Truth value of a list: non-empty. *)
Definition truthy {A} (xs : list A) : bool :=
  match xs with [] => false | _ :: _ => true end.

End PyList.

Module GenerationResult.

(** The drafted content: an instance of some model class. *)
Definition Content : Type := { s : LLM.Schema & LLM.instance_of s }.

Definition content_model_dump (c : Content) : PyVal.t :=
  LLM.model_dump (projT1 c) (projT2 c).

Record t : Type := mk {
  content : Content;
  selected_concept : Concept.t;
  concept_score : Q;
  content_type : ContentType;
  concepts : list Concept.t;
  scored_concepts : list ScoredConcept.t;
  product_context : list (string * PyVal.t);
  reference_examples : option (list string);
  generation_uuid : string
}.

(** The [quality_score] property. *)
Definition quality_score (self : t) : Q := concept_score self.

Definition concept_dict (c : Concept.t) : PyVal.t :=
  VDict [ ("title", VStr (Concept.title c));
          ("description", VStr (Concept.description c));
          ("hook_idea", VStr (Concept.hook_idea c)) ].

Definition scored_dict (sc : ScoredConcept.t) : PyVal.t :=
  VDict [ ("concept", concept_dict (ScoredConcept.concept sc));
          ("score", VFloat (ConceptScore.quality_score (ScoredConcept.score sc)));
          ("reason", VStr (ConceptScore.reason (ScoredConcept.score sc))) ].

Definition score_distribution (scored : list ScoredConcept.t) : PyVal.t :=
  let scores := map ScoredConcept.quality_score scored in
  match scores with
  | [] => VDict [ ("min", VFloat 0); ("max", VFloat 0); ("avg", VFloat 0) ]
  | x :: xs =>
      VDict [ ("min", VFloat (PyList.min_of x xs));
              ("max", VFloat (PyList.max_of x xs));
              ("avg", VFloat (Py.sum scores / Py.len scores)) ]
  end.

(** [to_dict()]; [timestamp] and [iso_timestamp] are the clock's readings
    ([time.time()], [time.strftime(...)]) at the call. *)
Definition to_dict (self : t) (timestamp : Q) (iso_timestamp : string)
  : list (string * PyVal.t) :=
  [ ("timestamp", VFloat timestamp);
    ("iso_timestamp", VStr iso_timestamp);
    ("generation_uuid", VStr (generation_uuid self));
    ("content_type", VStr (ContentType_value (content_type self)));
    ("product_context", VDict (product_context self));
    ("reference_examples",
       match reference_examples self with
       | Some l => VList (map VStr l)
       | None => VNone
       end);
    ("selected_concept", concept_dict (selected_concept self));
    ("concept_score", VFloat (concept_score self));
    ("generated_content", content_model_dump (content self));
    ("all_concepts", VList (map scored_dict (scored_concepts self)));
    ("total_concepts_generated", VInt (Z.of_nat (length (concepts self))));
    ("total_concepts_scored", VInt (Z.of_nat (length (scored_concepts self))));
    ("score_distribution", score_distribution (scored_concepts self)) ].

End GenerationResult.


Module ContentGenerator.

Import LLM Registry.

Section WithProvider.

Context {St : Type}.

(** [self.provider] and [self.config]. *)
Variable provider : LLMProvider St.
Variable config : CreativityConfig.t.

(** [_get_params()]: the parameters mapped from the configuration.  The
    source computes them at the first use and caches them; the mapping is
    a pure function, so every use sees the same value. *)
Definition _get_params : PyResult EngineParameters.t :=
  Config.map_creativity (CreativityConfig.creativity_level config)
                        (CreativityConfig.quality_threshold config).

(** The two prompts of the ideation call.  The reference examples, when
    there are some, are appended to the user prompt under a heading, one
    line each (their numbering is left out). *)
Definition ideation_system (params : EngineParameters.t)
  (definition : ContentDefinition) : Prompt :=
  format (ideation_system_prompt definition)
    [ ("num_branches", VInt (EngineParameters.num_branches params)) ].

Definition ideation_user (params : EngineParameters.t)
  (definition : ContentDefinition) (product_context : list (string * PyVal.t))
  (reference_examples : option (list string)) : Prompt :=
  let user_prompt :=
    format (ideation_user_prompt_template definition)
      [ ("num_branches", VInt (EngineParameters.num_branches params));
        ("product_name", PyVal.get product_context "name" (VStr ""));
        ("target_audience", PyVal.get product_context "target_audience" (VStr ""));
        ("pain_point", PyVal.get product_context "pain_point" (VStr ""));
        ("key_benefit", PyVal.get product_context "key_benefit" (VStr ""));
        ("offer", PyVal.get product_context "offer" (VStr "")) ] in
  match reference_examples with
  | Some (e :: es) =>
      fold_left append (e :: es)
        (append user_prompt "Reference Examples (transcend these, don't remix):")
  | _ => user_prompt
  end.

Definition ideation_call (params : EngineParameters.t)
  (definition : ContentDefinition) (product_context : list (string * PyVal.t))
  (reference_examples : option (list string)) : Call :=
  mkCall (ideation_system params definition)
         (ideation_user params definition product_context reference_examples)
         IdeationOutputSchema
         (EngineParameters.temperature params)
         (EngineParameters.top_p params).

(** [_ideate(product_context, content_type, reference_examples)]. *)
Definition _ideate (product_context : list (string * PyVal.t))
  (content_type : ContentType) (reference_examples : option (list string))
  : M St (list Concept.t) :=
  run params <- lift _get_params;
  run definition <- lift (get_content_definition content_type);
  run ideation_output <-
    call provider (ideation_call params definition product_context reference_examples);
  ret (IdeationOutput.concepts ideation_output).

Definition judge_call (definition : ContentDefinition) (concept : Concept.t)
  (product_context : list (string * PyVal.t)) : Call :=
  mkCall (verbatim (judge_system_prompt definition))
         (format (judge_user_prompt_template definition)
            [ ("product_name", PyVal.get product_context "name" (VStr ""));
              ("target_audience", PyVal.get product_context "target_audience" (VStr ""));
              ("pain_point", PyVal.get product_context "pain_point" (VStr ""));
              ("key_benefit", PyVal.get product_context "key_benefit" (VStr ""));
              ("concept_title", VStr (Concept.title concept));
              ("concept_description", VStr (Concept.description concept));
              ("concept_hook", VStr (Concept.hook_idea concept)) ])
         ConceptScoreSchema 0.3 0.9.

(** [_judge_concept(concept, product_context, content_type)]. *)
Definition _judge_concept (concept : Concept.t)
  (product_context : list (string * PyVal.t)) (content_type : ContentType)
  : M St ConceptScore.t :=
  run definition <- lift (get_content_definition content_type);
  run score <- call provider (judge_call definition concept product_context);
  ret score.

(** [_judge_all_concepts(concepts, product_context, content_type)]: one
    judge call per concept, in order; a failing call ends the loop and
    propagates. *)
Fixpoint judge_loop (concepts : list Concept.t)
  (product_context : list (string * PyVal.t)) (content_type : ContentType)
  (scored : list ScoredConcept.t) : M St (list ScoredConcept.t) :=
  match concepts with
  | [] => ret scored
  | concept :: rest =>
      run score <- _judge_concept concept product_context content_type;
      judge_loop rest product_context content_type
                 (scored ++ [ScoredConcept.mk concept score])
  end.

Definition _judge_all_concepts (concepts : list Concept.t)
  (product_context : list (string * PyVal.t)) (content_type : ContentType)
  : M St (list ScoredConcept.t) :=
  judge_loop concepts product_context content_type [].

(** [_select_best_concept(scored_concepts)]. *)
Definition _select_best_concept (scored_concepts : list ScoredConcept.t)
  : PyResult ScoredConcept.t :=
  do params <- _get_params;
  let valid_concepts :=
    List.filter (fun sc => Qle_bool (EngineParameters.quality_threshold params)
                               (ScoredConcept.quality_score sc))
           scored_concepts in
  let valid_concepts :=
    if negb (PyList.truthy valid_concepts) then scored_concepts
    else valid_concepts in
  match valid_concepts with
  | [] => Raise (ValueError "No scored concepts available for selection.")
  | sc :: rest => Ok (PyList.max_key ScoredConcept.quality_score sc rest)
  end.

Definition draft_call (params : EngineParameters.t)
  (definition : ContentDefinition) (selected_concept : ScoredConcept.t)
  (product_context : list (string * PyVal.t)) : Call :=
  let concept := ScoredConcept.concept selected_concept in
  mkCall (verbatim (writing_system_prompt definition))
         (format (writing_user_prompt_template definition)
            [ ("product_name", PyVal.get product_context "name" (VStr ""));
              ("target_audience", PyVal.get product_context "target_audience" (VStr ""));
              ("pain_point", PyVal.get product_context "pain_point" (VStr ""));
              ("key_benefit", PyVal.get product_context "key_benefit" (VStr ""));
              ("offer", PyVal.get product_context "offer" (VStr ""));
              ("concept_title", VStr (Concept.title concept));
              ("concept_description", VStr (Concept.description concept));
              ("concept_hook", VStr (Concept.hook_idea concept));
              ("platform", PyVal.get product_context "platform" (VStr "tiktok")) ])
         (Registry.output_schema definition)
         (EngineParameters.temperature params)
         (EngineParameters.top_p params).

(** [_draft_content(selected_concept, product_context, content_type)]. *)
Definition _draft_content (selected_concept : ScoredConcept.t)
  (product_context : list (string * PyVal.t)) (content_type : ContentType)
  : M St GenerationResult.Content :=
  run params <- lift _get_params;
  run definition <- lift (get_content_definition content_type);
  run content <-
    call provider (draft_call params definition selected_concept product_context);
  ret (existT (Registry.output_schema definition) content).

(** [generate(product_context, content_type, reference_examples)].
    [fresh_uuid] is the identifier [GenerationResult.__post_init__] makes up
    from the clock and a random suffix. *)
Definition generate (fresh_uuid : string)
  (product_context : list (string * PyVal.t)) (content_type : ContentType)
  (reference_examples : option (list string)) : M St GenerationResult.t :=
  run concepts <- _ideate product_context content_type reference_examples;
  if negb (PyList.truthy concepts) then
    throw (ValueError "Ideation phase returned no concepts. Please try again or adjust creativity parameters.")
  else
    run scored_concepts <- _judge_all_concepts concepts product_context content_type;
    run best_concept <- lift (_select_best_concept scored_concepts);
    run content <- _draft_content best_concept product_context content_type;
    ret (GenerationResult.mk content
           (ScoredConcept.concept best_concept)
           (ScoredConcept.quality_score best_concept)
           content_type concepts scored_concepts product_context
           reference_examples fresh_uuid).

End WithProvider.

End ContentGenerator.


(* ================================================================== *)
(** ** Python's [statistics] module *)
(* ================================================================== *)

Module Statistics.

(** [math.sqrt], the one operation of the evaluator that leaves the
    rationals. *)
Class MathSqrt := math_sqrt : Q -> Q.

(** A square root is never negative. *)
Class MathSqrtNonneg `{MathSqrt} := math_sqrt_nonneg : forall x : Q, (0 <= math_sqrt x)%Q.

(** [statistics.mean(data)]: the arithmetic mean; an empty [data] raises. *)
Definition mean (data : list Q) : PyResult Q :=
  match data with
  | [] => Raise (StatisticsError "mean requires at least one data point")
  | _ :: _ => Ok (Py.sum data / Py.len data)%Q
  end.

(** [statistics.variance(data)]: the sample variance, the sum of the
    squared deviations from the mean over [n - 1]; fewer than two data
    points raise. *)
Definition variance (data : list Q) : PyResult Q :=
  if Nat.ltb (length data) 2 then
    Raise (StatisticsError "variance requires at least two data points")
  else
    let m := (Py.sum data / Py.len data)%Q in
    Ok (Py.sum (map (fun x => (x - m) * (x - m)) data) / (Py.len data - 1))%Q.

(** [statistics.stdev(data)]: the square root of the sample variance. *)
Definition stdev `{Sqrt : MathSqrt} (data : list Q) : PyResult Q :=
  do v <- variance data; Ok (math_sqrt v).

End Statistics.

(* ================================================================== *)
(** ** evaluation/evaluator.py *)
(* ================================================================== *)

Module CreativityEvaluator.

Import LLM Statistics.

Record Persona : Type := mkPersona {
  name : string;
  description : string
}.

(** The eight personas (quotation marks inside a description are written
    as apostrophes). *)
Definition ALL_PERSONAS : list Persona :=
  [
    mkPersona "Senior Creative Director"
      "You are a top-tier agency Creative Director with 15+ years of experience in crafting high-impact advertising concepts. You evaluate ideas based on originality, conceptual strength, emotional resonance, and creative risk-taking. You value big ideas, freshness, memorable hooks, and storytelling clarity. You naturally penalize cliches, predictable structures, and anything that feels 'safe' or uninspired.";
    mkPersona "TikTok Native UGC Creator"
      "You are a full-time TikTok creator specialized in UGC ads. You judge scripts based on authenticity, humor, relatability, pacing, and platform-native behavior. You value casual tone, real-person energy, low-friction storytelling, and trends that feel culturally alive. You penalize anything that feels like a corporate ad, overly polished, or 'trying too hard.'";
    mkPersona "Performance Marketer"
      "You are a performance-driven marketer focused on conversions, retention, and messaging clarity. You evaluate scripts based on clear articulation of the value proposition, problem-solution logic, emotional triggering, and CTA effectiveness. You value clarity, benefit focus, product relevance, and hooks that immediately communicate value. You penalize scripts that are too abstract, confusing, slow, or weak on the selling point.";
    mkPersona "Meme Culture Editor"
      "You are a humor-first meme editor living inside TikTok culture. You judge scripts based on meme fluency, comedic timing, chaotic energy, trend remixability, and 'shareability.' You value absurdity, humor sharpness, unexpected punchlines, and meme-native pacing. You penalize cringe humor, forced jokes, and anything that misuses or misunderstands meme logic.";
    mkPersona "Cinematographer / Visual Director"
      "You are a visual storyteller obsessed with framing, camera motion, transitions, and creative scene construction. You evaluate scripts on visual richness, dynamic pacing, shot variety, and cinematic expressiveness adapted to TikTok. You value POV shots, creative transitions, rhythm, kinetic visual energy, and clarity of visual storytelling. You penalize static visuals, generic framing, and scripts that lack dynamic visual imagination.";
    mkPersona "Storytelling Coach"
      "You are a professional storytelling instructor specializing in short-form narrative design. You judge scripts based on narrative arc, pacing, clarity of intention, emotional movement, and structural coherence. You value well-formed setups, satisfying payoffs, character voice, and narrative originality. You penalize chaotic structure, unclear motivations, weak payoffs, and stories without a strong through-line.";
    mkPersona "Brand Strategist"
      "You are a senior brand strategist focused on positioning, message clarity, differentiation, and audience fit. You evaluate scripts based on how well the product's value, benefit, and emotional promise are integrated into the creative idea. You value message coherence, brand consistency, persuasive storytelling, and meaningful differentiation. You penalize forced product mentions, weak benefit articulation, or scripts where the brand disappears behind creativity.";
    mkPersona "Trend Analyst / Cultural Strategist"
      "You are a cultural trend forecaster specializing in TikTok microcultures, aesthetics, and emerging content patterns. You judge scripts based on platform fit, trend alignment, cultural resonance, and relevance to audience behavior. You value trend fluency, meme alignment, authenticity, and formats that match current cultural waves. You penalize outdated styles, tone-deaf content, non-native pacing, or anything that misunderstands TikTok culture."
  ].

(** The evaluator object: [temperature_grid], [persona_temperature] and
    [personas]; the provider is passed along. *)
Record t : Type := mk {
  temperature_grid : list Q;
  persona_temperature : Q;
  personas : list Persona
}.

(** [__init__(provider, temperature_grid=None, persona_temperature=0.3)]:
    a missing or empty grid is replaced by the default one. *)
Definition new (temperature_grid : option (list Q)) (persona_temperature : Q) : t :=
  mk (match temperature_grid with
      | Some (x :: xs) => x :: xs
      | _ => [0.1; 0.2; 0.3; 0.4; 0.5; 0.6; 0.7; 0.8]%Q
      end)
     persona_temperature
     ALL_PERSONAS.

(** The evaluator the engine builds: [CreativityEvaluator(provider)]. *)
Definition default : t := new None 0.3.

(** The local [criterion_names] of the sweeps and of the aggregation. *)
Definition criterion_names : list string :=
  [ "hook_originality"; "visual_creativity"; "narrative_originality";
    "entertainment_value"; "brand_integration"; "platform_fit" ].

Definition context_kwargs (product_context : list (string * PyVal.t))
  (script_json : PyVal.t) : list (string * PyVal.t) :=
  [ ("product_name", PyVal.get product_context "name" (VStr ""));
    ("target_audience", PyVal.get product_context "target_audience" (VStr ""));
    ("pain_point", PyVal.get product_context "pain_point" (VStr ""));
    ("key_benefit", PyVal.get product_context "key_benefit" (VStr ""));
    ("platform", PyVal.get product_context "platform" (VStr "tiktok"));
    ("script_json_string", script_json) ].

Definition build_generic_user_prompt (product_context : list (string * PyVal.t))
  (script_json : PyVal.t) : Prompt :=
  format GENERIC_USER_PROMPT_TEMPLATE (context_kwargs product_context script_json).

Definition build_persona_system_prompt (persona_name persona_description : string)
  : Prompt :=
  format PERSONA_SYSTEM_PROMPT_TEMPLATE
    [ ("PERSONA_NAME", VStr persona_name);
      ("PERSONA_DESCRIPTION", VStr persona_description) ].

Definition build_persona_user_prompt (product_context : list (string * PyVal.t))
  (script_json : PyVal.t) : Prompt :=
  format PERSONA_USER_PROMPT_TEMPLATE (context_kwargs product_context script_json).

(** *** The statistics of a block

    Both sweeps end with the same statements on [successful_evaluations]:
    mean and stdev of the overall scores, then of each criterion's scores.
    They are written once here, over the class of the judge outputs. *)
Section BlockStatistics.

Context `{Sqrt : MathSqrt} {J : Type}.
Variable getattr : J -> string -> PyResult CriterionScore.t.
Variable overall_creativity : J -> CriterionScore.t.

(** [statistics.stdev(scores) if len(scores) > 1 else 0.0]. *)
Definition std_of (scores : list Q) : PyResult Q :=
  if Nat.ltb 1 (length scores) then stdev scores else Ok 0%Q.

(** [[getattr(eval, criterion_name).score for eval in successful_evaluations]]. *)
Fixpoint criterion_scores (criterion_name : string) (evaluations : list J)
  : PyResult (list Q) :=
  match evaluations with
  | [] => Ok []
  | e :: rest =>
      do c <- getattr e criterion_name;
      do scores <- criterion_scores criterion_name rest;
      Ok (CriterionScore.score c :: scores)
  end.

(** The loop [for criterion_name in criterion_names: criteria_stats[...] = ...]. *)
Fixpoint criteria_loop (names : list string) (evaluations : list J)
  (criteria_stats : gmap string CriterionStats.t)
  : PyResult (gmap string CriterionStats.t) :=
  match names with
  | [] => Ok criteria_stats
  | criterion_name :: rest =>
      do scores <- criterion_scores criterion_name evaluations;
      do m <- mean scores;
      do s <- std_of scores;
      do stats <- CriterionStats.new m s;
      criteria_loop rest evaluations (<[criterion_name := stats]> criteria_stats)
  end.

Definition block_statistics (evaluations : list J)
  : PyResult (EvaluationStats.t * gmap string CriterionStats.t) :=
  let overall_scores :=
    map (fun e => CriterionScore.score (overall_creativity e)) evaluations in
  do overall_mean <- mean overall_scores;
  do overall_std <- std_of overall_scores;
  do criteria_stats <- criteria_loop criterion_names evaluations ∅;
  do overall <- EvaluationStats.new overall_mean overall_std;
  Ok (overall, criteria_stats).

End BlockStatistics.


Section WithProvider.

Context `{Sqrt : MathSqrt} {St : Type}.
Variable provider : LLMProvider St.
Variable self : t.

Definition temperature_call (user_prompt : Prompt) (temp : Q) : Call :=
  mkCall (verbatim GENERIC_SYSTEM_PROMPT) user_prompt
         GenericJudgeOutputSchema temp 0.9.

(** The dict appended to [outputs] after a successful call. *)
Definition temperature_entry (temp : Q) (output : GenericJudgeOutput.t) : PyVal.t :=
  VDict [ ("temperature", VFloat temp);
          ("overall_creativity",
             VFloat (CriterionScore.score
                       (GenericJudgeOutput.overall_creativity output)));
          ("judge_output", GenericJudgeOutput.model_dump output) ].

(** The loop of [_temperature_sweep]: one guarded call per temperature. *)
Fixpoint temperature_loop (grid : list Q) (user_prompt : Prompt)
  (outputs : list PyVal.t) (successful_evaluations : list GenericJudgeOutput.t)
  : M St (list PyVal.t * list GenericJudgeOutput.t) :=
  match grid with
  | [] => ret (outputs, successful_evaluations)
  | temp :: rest =>
      run r <- try (call provider (temperature_call user_prompt temp));
      match r with
      | Ok output =>
          temperature_loop rest user_prompt
            (outputs ++ [temperature_entry temp output])
            (successful_evaluations ++ [output])
      | Raise e => temperature_loop rest user_prompt outputs successful_evaluations
      end
  end.

(** [_temperature_sweep(script_json, product_context)]. *)
Definition _temperature_sweep (script_json : PyVal.t)
  (product_context : list (string * PyVal.t)) : M St (option TemperatureBlock.t) :=
  let user_prompt := build_generic_user_prompt product_context script_json in
  run r <- temperature_loop (temperature_grid self) user_prompt [] [];
  let '(outputs, successful_evaluations) := r in
  if Nat.ltb (length successful_evaluations) 4 then ret None
  else
    run stats <- lift (block_statistics GenericJudgeOutput.getattr
                         GenericJudgeOutput.overall_creativity
                         successful_evaluations);
    ret (Some (TemperatureBlock.mk (fst stats) (snd stats) outputs)).

Definition persona_call (persona : Persona) (script_json : PyVal.t)
  (product_context : list (string * PyVal.t)) : Call :=
  mkCall (build_persona_system_prompt (name persona) (description persona))
         (build_persona_user_prompt product_context script_json)
         PersonaJudgeOutputSchema (persona_temperature self) 0.9.

(** The dict appended to [outputs] after a successful call. *)
Definition persona_entry (persona : Persona) (output : PersonaJudgeOutput.t) : PyVal.t :=
  VDict [ ("persona", VStr (name persona));
          ("overall_creativity",
             VFloat (CriterionScore.score
                       (PersonaJudgeOutput.overall_creativity output)));
          ("judge_output", PersonaJudgeOutput.model_dump output) ].

(** The loop of [_persona_sweep]: one guarded call per persona. *)
Fixpoint persona_loop (personas : list Persona) (script_json : PyVal.t)
  (product_context : list (string * PyVal.t))
  (outputs : list PyVal.t) (successful_evaluations : list PersonaJudgeOutput.t)
  : M St (list PyVal.t * list PersonaJudgeOutput.t) :=
  match personas with
  | [] => ret (outputs, successful_evaluations)
  | persona :: rest =>
      run r <- try (call provider (persona_call persona script_json product_context));
      match r with
      | Ok output =>
          persona_loop rest script_json product_context
            (outputs ++ [persona_entry persona output])
            (successful_evaluations ++ [output])
      | Raise e =>
          persona_loop rest script_json product_context outputs successful_evaluations
      end
  end.

(** [_persona_sweep(script_json, product_context)]. *)
Definition _persona_sweep (script_json : PyVal.t)
  (product_context : list (string * PyVal.t)) : M St (option PersonaBlock.t) :=
  run r <- persona_loop (personas self) script_json product_context [] [];
  let '(outputs, successful_evaluations) := r in
  if Nat.ltb (length successful_evaluations) 4 then ret None
  else
    run stats <- lift (block_statistics PersonaJudgeOutput.getattr
                         PersonaJudgeOutput.overall_creativity
                         successful_evaluations);
    ret (Some (PersonaBlock.mk (fst stats) (snd stats) outputs)).

(** [criteria[criterion_name]] on a block's mapping. *)
Definition criteria_getitem (criteria : gmap string CriterionStats.t)
  (criterion_name : string) : PyResult CriterionStats.t :=
  match criteria !! criterion_name with
  | Some stats => Ok stats
  | None => Raise (KeyError criterion_name)
  end.

(** The loop of [_aggregate_results] when both blocks are present. *)
Fixpoint aggregate_loop (names : list string)
  (temperature_block : TemperatureBlock.t) (persona_block : PersonaBlock.t)
  (criteria_stats : gmap string CriterionStats.t)
  : PyResult (gmap string CriterionStats.t) :=
  match names with
  | [] => Ok criteria_stats
  | criterion_name :: rest =>
      do temp <- criteria_getitem (TemperatureBlock.criteria temperature_block)
                                  criterion_name;
      do pers <- criteria_getitem (PersonaBlock.criteria persona_block)
                                  criterion_name;
      let aggregate_mean := ((CriterionStats.mean temp + CriterionStats.mean pers) / 2)%Q in
      let aggregate_std := Py.max (CriterionStats.std temp) (CriterionStats.std pers) in
      do stats <- CriterionStats.new aggregate_mean aggregate_std;
      aggregate_loop rest temperature_block persona_block
                     (<[criterion_name := stats]> criteria_stats)
  end.

(** The all-zero mapping [{name: CriterionStats(mean=0.0, std=0.0) for name in criterion_names}]. *)
Fixpoint zero_loop (names : list string)
  (criteria_stats : gmap string CriterionStats.t)
  : PyResult (gmap string CriterionStats.t) :=
  match names with
  | [] => Ok criteria_stats
  | criterion_name :: rest =>
      do stats <- CriterionStats.new 0 0;
      zero_loop rest (<[criterion_name := stats]> criteria_stats)
  end.

(** [_aggregate_results(temperature_block, persona_block)]. *)
Definition _aggregate_results (temperature_block : option TemperatureBlock.t)
  (persona_block : option PersonaBlock.t) : PyResult AggregateResults.t :=
  do r <-
    match temperature_block, persona_block with
    | Some tb, Some pb =>
        let overall_mean :=
          ((EvaluationStats.mean (TemperatureBlock.overall tb)
            + EvaluationStats.mean (PersonaBlock.overall pb)) / 2)%Q in
        let overall_std :=
          Py.max (EvaluationStats.std (TemperatureBlock.overall tb))
                 (EvaluationStats.std (PersonaBlock.overall pb)) in
        do criteria_stats <- aggregate_loop criterion_names tb pb ∅;
        Ok (overall_mean, overall_std, criteria_stats)
    | Some tb, None =>
        Ok (EvaluationStats.mean (TemperatureBlock.overall tb),
            EvaluationStats.std (TemperatureBlock.overall tb),
            TemperatureBlock.criteria tb)
    | None, Some pb =>
        Ok (EvaluationStats.mean (PersonaBlock.overall pb),
            EvaluationStats.std (PersonaBlock.overall pb),
            PersonaBlock.criteria pb)
    | None, None =>
        do criteria_stats <- zero_loop criterion_names ∅;
        Ok (0%Q, 0%Q, criteria_stats)
    end;
  let '(overall_mean, overall_std, criteria_stats) := r in
  do overall <- EvaluationStats.new overall_mean overall_std;
  Ok (AggregateResults.mk overall criteria_stats).

(** [score_script(script, product_context)]; the JSON text of the script
    is represented by the dumped value it encodes. *)
Definition score_script (script : GenerationResult.Content)
  (product_context : list (string * PyVal.t))
  : M St CreativityAssessmentResult.t :=
  let script_json := GenerationResult.content_model_dump script in
  run temperature_block <- _temperature_sweep script_json product_context;
  run persona_block <- _persona_sweep script_json product_context;
  run aggregate <- lift (_aggregate_results temperature_block persona_block);
  ret (CreativityAssessmentResult.mk temperature_block persona_block aggregate None).

End WithProvider.

End CreativityEvaluator.


(* ================================================================== *)
(** ** engine.py *)
(* ================================================================== *)

Module EngineResult.
Record t : Type := mk {
  generation : GenerationResult.t;
  evaluation : option CreativityAssessmentResult.t;
  uuid : string
}.
End EngineResult.

Module CreativeEngine.

Import LLM.

Section WithCollaborators.

Context {St : Type}.

(** [self.generator.generate] and [self.evaluator.score_script]: the two
    collaborators the engine holds. *)
Variable generator_generate :
  list (string * PyVal.t) -> ContentType -> option (list string) ->
  M St GenerationResult.t.
Variable evaluator_score_script :
  GenerationResult.Content -> list (string * PyVal.t) ->
  M St CreativityAssessmentResult.t.

(** [generate(product_context, content_type, reference_examples,
    evaluate_creativity)]. *)
Definition generate (product_context : list (string * PyVal.t))
  (content_type : ContentType) (reference_examples : option (list string))
  (evaluate_creativity : bool) : M St EngineResult.t :=
  run gen_result <-
    generator_generate product_context content_type reference_examples;
  run assessment <-
    (if evaluate_creativity then
       if ContentType_eqb content_type VIDEO_SCRIPT then
         run r <- try (evaluator_score_script
                         (GenerationResult.content gen_result) product_context);
         match r with
         | Ok assessment => ret (Some assessment)
         | Raise e => ret None
         end
       else ret None
     else ret None);
  ret (EngineResult.mk gen_result assessment
         (GenerationResult.generation_uuid gen_result)).

End WithCollaborators.

(** The engine as [__init__] wires it: a [ContentGenerator] on the
    configuration and the provider, and a default [CreativityEvaluator] on
    the same provider. *)
Definition generate_wired `{Sqrt : Statistics.MathSqrt} {St : Type}
  (provider : LLMProvider St) (config : CreativityConfig.t) (fresh_uuid : string)
  : list (string * PyVal.t) -> ContentType -> option (list string) -> bool ->
    M St EngineResult.t :=
  generate (ContentGenerator.generate provider config fresh_uuid)
           (CreativityEvaluator.score_script provider CreativityEvaluator.default).

End CreativeEngine.


(* ================================================================== *)
(** ** Provider stubs and sample data *)
(* ================================================================== *)

(** Stand-ins for the remote model, as the tests of such a pipeline use
    them, and the sample values they return. *)
Module Stub.

Import LLM.

Definition sample_context : list (string * PyVal.t) :=
  [ ("name", VStr "FocusFlow");
    ("target_audience", VStr "remote workers");
    ("pain_point", VStr "constant distraction");
    ("key_benefit", VStr "two hours of deep work a day");
    ("offer", VStr "14-day free trial") ].

Definition sample_config : CreativityConfig.t := CreativityConfig.mk 0.5 0.7.

Definition sample_concept (title : string) : Concept.t :=
  Concept.mk title "A day told backwards" "The alarm clock rings at midnight".

Definition sample_scored (title : string) (quality_score : Q) : ScoredConcept.t :=
  ScoredConcept.mk (sample_concept title)
                   (ConceptScore.mk quality_score "clear and fresh").

Definition sample_scene (id : Z) (start_sec end_sec : Q) (role : Role) : Scene.t :=
  Scene.mk id start_sec end_sec role
           "Close-up of a phone buzzing on a desk" "Punch-in" "The hand mutes it"
           "Not today." (Some "DEEP WORK MODE") (Audio.mk (Some "lo-fi") None) None.

Definition sample_script : VideoScript.t :=
  VideoScript.mk (VideoMeta.mk 15 tiktok)
    [ sample_scene 1 0 3 hook;
      sample_scene 2 3 (15 # 2) problem;
      sample_scene 3 (15 # 2) 12 solution;
      sample_scene 4 12 15 cta ].

Definition sample_criterion (score : Q) : CriterionScore.t :=
  CriterionScore.mk score "as the rubric says".

(** A judge output whose seven scores are all [score]. *)
Definition sample_generic (score : Q) : GenericJudgeOutput.t :=
  let c := sample_criterion score in
  GenericJudgeOutput.mk c c c c c c c.

Definition sample_persona (score : Q) : PersonaJudgeOutput.t :=
  let c := sample_criterion score in
  PersonaJudgeOutput.mk "Brand Strategist" c c c c c c c.

(** An instance of each schema, built around one score. *)
Definition sample (s : Schema) (score : Q) : instance_of s :=
  match s with
  | IdeationOutputSchema =>
      IdeationOutput.mk [sample_concept "Backwards day"; sample_concept "Silent office"]
  | ConceptScoreSchema => ConceptScore.mk score "clear and fresh"
  | VideoScriptSchema => sample_script
  | GenericJudgeOutputSchema => sample_generic score
  | PersonaJudgeOutputSchema => sample_persona score
  end.

(** A provider whose every call fails. *)
Definition failing : LLMProvider unit :=
  mkProvider unit (fun c s => (Raise (ProviderError "connection refused"), s)).

(** A provider that counts its calls: call number [n] (from 0) succeeds
    when [ok n] holds, with a sample instance built around [score n]. *)
Definition scripted (ok : nat -> bool) (score : nat -> Q) : LLMProvider nat :=
  mkProvider nat (fun c n =>
    (if ok n then Ok (sample (output_schema c) (score n))
     else Raise (ProviderError "request timed out"),
     S n)).

(** The ideation call succeeds with an empty list of concepts. *)
Definition empty_ideation : LLMProvider unit :=
  mkProvider unit (fun c s =>
    (match output_schema c as s0 return PyResult (instance_of s0) with
     | IdeationOutputSchema => Ok (IdeationOutput.mk [])
     | _ => Raise (ProviderError "not reached")
     end, s)).

Definition start {St} (s : St) : World St := mkWorld s [].

(** Five scored concepts, two of them tied at the top. *)
Definition five_scored : list ScoredConcept.t :=
  [ sample_scored "A" 0.4; sample_scored "B" 0.8; sample_scored "C" 0.9;
    sample_scored "D" 0.9; sample_scored "E" 0.6 ].

(** Five scored concepts, all below the threshold 0.7 of [sample_config]. *)
Definition five_low : list ScoredConcept.t :=
  [ sample_scored "A" 0.4; sample_scored "B" 0.5; sample_scored "C" 0.65;
    sample_scored "D" 0.1; sample_scored "E" 0.6 ].

(** A generation result around [sample_script]. *)
Definition sample_result : GenerationResult.t :=
  GenerationResult.mk (existT VideoScriptSchema sample_script)
    (sample_concept "C") 0.9 VIDEO_SCRIPT
    (map (fun sc => ScoredConcept.concept sc) five_scored) five_scored
    sample_context None "1730000000_ab12cd34".

(** A square root on the rationals for the samples: exact on the squares
    of rationals, rounded down to a multiple of [1 / Qden q] elsewhere. *)
Definition rational_sqrt : Statistics.MathSqrt :=
  fun q => Z.sqrt (Qnum q * Zpos (Qden q)) # Qden q.

(** Call [n] succeeds when [n] is in [good]. *)
Definition among (good : list nat) (n : nat) : bool :=
  existsb (Nat.eqb n) good.

(** The score of the first call is 1, of every other call 3. *)
Definition one_then_three (n : nat) : Q :=
  match n with O => 1 | S _ => 3 end.



(** A mapping that gives every criterion the same statistics. *)
Definition uniform_criteria (mean std : Q) : gmap string CriterionStats.t :=
  list_to_map (map (fun name => (name, CriterionStats.mk mean std))
                   CreativityEvaluator.criterion_names).



(** The drafted script as the engine hands it to the evaluator. *)
Definition sample_content : GenerationResult.Content :=
  existT VideoScriptSchema sample_script.


(** The assessment of an evaluation in which no call succeeded. *)
Definition zero_assessment : CreativityAssessmentResult.t :=
  CreativityAssessmentResult.mk None None
    (AggregateResults.mk (EvaluationStats.mk 0 0) (uniform_criteria 0 0)) None.

(** An evaluator that returns [a], whatever the script. *)
Definition evaluator_returning {St} (a : CreativityAssessmentResult.t)
  : GenerationResult.Content -> list (string * PyVal.t) ->
    M St CreativityAssessmentResult.t :=
  fun _ _ => ret a.

End Stub.


(* ================================================================== *)
(** ** The evaluator's results, in the specification's words *)
(* ================================================================== *)

(** What the specification says the sweeps and the aggregation return:
    the statistics by their textbook definitions, the successful runs of a
    sweep, the block expected for them, and the invariant of a block.  The
    code of evaluation/evaluator.py is compared with these below. *)
Module Expected.

Import LLM Statistics CreativityEvaluator.

(** The arithmetic mean of a list of scores: their sum over their number. *)
Definition arithmetic_mean (xs : list Q) : Q := (Py.sum xs / Py.len xs)%Q.

(** The sample variance: the squared deviations from the arithmetic mean,
    summed, over [n - 1]. *)
Definition sample_variance (xs : list Q) : Q :=
  (Py.sum (map (fun x => (x - arithmetic_mean xs) * (x - arithmetic_mean xs)) xs)
   / (Py.len xs - 1))%Q.

(** The sample standard deviation, 0 for fewer than two scores. *)
Definition sample_std `{MathSqrt} (xs : list Q) : Q :=
  if Nat.ltb (length xs) 2 then 0%Q else math_sqrt (sample_variance xs).

(** The statistics of one criterion over the successful runs. *)
Definition criterion_stats `{MathSqrt} {J : Type} (field : J -> CriterionScore.t)
  (runs : list J) : CriterionStats.t :=
  let scores := map (fun e => CriterionScore.score (field e)) runs in
  CriterionStats.mk (arithmetic_mean scores) (sample_std scores).

(** The six criteria of a judge output, by name. *)
Definition generic_fields : list (string * (GenericJudgeOutput.t -> CriterionScore.t)) :=
  [ ("hook_originality", GenericJudgeOutput.hook_originality);
    ("visual_creativity", GenericJudgeOutput.visual_creativity);
    ("narrative_originality", GenericJudgeOutput.narrative_originality);
    ("entertainment_value", GenericJudgeOutput.entertainment_value);
    ("brand_integration", GenericJudgeOutput.brand_integration);
    ("platform_fit", GenericJudgeOutput.platform_fit) ].

Definition persona_fields : list (string * (PersonaJudgeOutput.t -> CriterionScore.t)) :=
  [ ("hook_originality", PersonaJudgeOutput.hook_originality);
    ("visual_creativity", PersonaJudgeOutput.visual_creativity);
    ("narrative_originality", PersonaJudgeOutput.narrative_originality);
    ("entertainment_value", PersonaJudgeOutput.entertainment_value);
    ("brand_integration", PersonaJudgeOutput.brand_integration);
    ("platform_fit", PersonaJudgeOutput.platform_fit) ].

(** The set of the six criterion names. *)
Definition criterion_set : gset string := list_to_set criterion_names.

(** The map the criteria loop builds, one insertion per criterion. *)
Definition inserted `{MathSqrt} {J : Type} (fields : list (string * (J -> CriterionScore.t)))
  (runs : list J) (acc : gmap string CriterionStats.t)
  : gmap string CriterionStats.t :=
  fold_left (fun m nf => <[fst nf := criterion_stats (snd nf) runs]> m) fields acc.


(** The successful answers among the outcomes of a sweep's calls, in
    order, each with the temperature or persona it was asked for. *)
Fixpoint successes {K A} (outcomes : list (K * PyResult A)) : list (K * A) :=
  match outcomes with
  | [] => []
  | (k, Ok a) :: rest => (k, a) :: successes rest
  | (_, Raise _) :: rest => successes rest
  end.

(** The outcomes of the calls of the temperature sweep, made in the order
    of the grid from the provider state [s], and the state they leave. *)
Fixpoint temperature_outcomes {St} (provider : LLMProvider St)
  (user_prompt : Prompt) (grid : list Q) (s : St)
  : list (Q * PyResult GenericJudgeOutput.t) * St :=
  match grid with
  | [] => ([], s)
  | temp :: rest =>
      let (r, s1) := LLM.generate provider (temperature_call user_prompt temp) s in
      let (rs, s2) := temperature_outcomes provider user_prompt rest s1 in
      ((temp, r) :: rs, s2)
  end.

(** The same for the persona sweep. *)
Fixpoint persona_outcomes {St} (provider : LLMProvider St) (self : t)
  (script_json : PyVal.t) (product_context : list (string * PyVal.t))
  (personas : list Persona) (s : St)
  : list (Persona * PyResult PersonaJudgeOutput.t) * St :=
  match personas with
  | [] => ([], s)
  | persona :: rest =>
      let (r, s1) :=
        LLM.generate provider
          (persona_call self persona script_json product_context) s in
      let (rs, s2) :=
        persona_outcomes provider self script_json product_context rest s1 in
      ((persona, r) :: rs, s2)
  end.

(** The successful runs of the two sweeps started from the provider
    state [s]. *)
Definition temperature_successes {St : Type} (provider : LLMProvider St)
  (self : t) (script_json : PyVal.t)
  (product_context : list (string * PyVal.t)) (s : St)
  : list (Q * GenericJudgeOutput.t) :=
  successes (fst (temperature_outcomes provider
                    (build_generic_user_prompt product_context script_json)
                    (temperature_grid self) s)).

Definition persona_successes {St : Type} (provider : LLMProvider St)
  (self : t) (script_json : PyVal.t)
  (product_context : list (string * PyVal.t)) (s : St)
  : list (Persona * PersonaJudgeOutput.t) :=
  successes (fst (persona_outcomes provider self script_json product_context
                    (personas self) s)).

(** The block a sweep must return for the given successful runs: absent
    below the quorum of 4, and otherwise the statistics of the runs. *)
Definition expected_block `{MathSqrt} {J B : Type}
  (fields : list (string * (J -> CriterionScore.t)))
  (overall_creativity : J -> CriterionScore.t)
  (mk_block : EvaluationStats.t -> gmap string CriterionStats.t -> B)
  (runs : list J) : option B :=
  if Nat.ltb (length runs) 4 then None
  else
    let overall_scores :=
      map (fun e => CriterionScore.score (overall_creativity e)) runs in
    Some (mk_block (EvaluationStats.mk (arithmetic_mean overall_scores)
                                       (sample_std overall_scores))
                   (inserted fields runs ∅)).

(** [m] is the maximum of [a] and [b]. *)
Definition is_maximum (m a b : Q) : Prop :=
  (m = a \/ m = b) /\ (a <= m)%Q /\ (b <= m)%Q.

(** A block as the sweeps build it and pydantic validates it: no negative
    std, and the six criteria as the keys of its mapping. *)
Definition stats_wf (overall : EvaluationStats.t)
  (criteria : gmap string CriterionStats.t) : Prop :=
  (0 <= EvaluationStats.std overall)%Q /\
  map_Forall (fun _ s => (0 <= CriterionStats.std s)%Q) criteria /\
  dom criteria = criterion_set.

Definition temperature_wf (b : TemperatureBlock.t) : Prop :=
  stats_wf (TemperatureBlock.overall b) (TemperatureBlock.criteria b).

Definition persona_wf (b : PersonaBlock.t) : Prop :=
  stats_wf (PersonaBlock.overall b) (PersonaBlock.criteria b).

Definition option_wf {B} (wf : B -> Prop) (o : option B) : Prop :=
  match o with
  | Some b => wf b
  | None => True
  end.

(** The aggregate of one criterion: mean of the two means, larger of the
    two stds. *)
Definition combine (t p : CriterionStats.t) : CriterionStats.t :=
  CriterionStats.mk ((CriterionStats.mean t + CriterionStats.mean p) / 2)%Q
                    (Py.max (CriterionStats.std t) (CriterionStats.std p)).

Definition aggregated (tc pc : gmap string CriterionStats.t) (name : string)
  : option CriterionStats.t :=
  match tc !! name, pc !! name with
  | Some t, Some p => Some (combine t p)
  | _, _ => None
  end.

(** The provider state the temperature sweep leaves to the persona sweep. *)
Definition after_temperature_sweep {St : Type} (provider : LLMProvider St)
  (self : t) (script_json : PyVal.t)
  (product_context : list (string * PyVal.t)) (s : St) : St :=
  snd (temperature_outcomes provider
         (build_generic_user_prompt product_context script_json)
         (temperature_grid self) s).

End Expected.

(* ================================================================== *)
(** ** Python strings *)
(* ================================================================== *)

From Stdlib Require Import Ascii.

(** The string methods the code uses, on the characters of a string.  The
    character classes are those of ASCII: the definitions say what Python
    does on a string of ASCII characters. *)
Module PyStr.

Definition code (c : ascii) : nat := nat_of_ascii c.

Definition is_ascii_char (c : ascii) : bool := Nat.ltb (code c) 128.

Definition is_upper (c : ascii) : bool :=
  Nat.leb 65 (code c) && Nat.leb (code c) 90.

Definition is_lower (c : ascii) : bool :=
  Nat.leb 97 (code c) && Nat.leb (code c) 122.

Definition is_digit (c : ascii) : bool :=
  Nat.leb 48 (code c) && Nat.leb (code c) 57.

(** [c.isalnum()]. *)
Definition isalnum (c : ascii) : bool := is_upper c || is_lower c || is_digit c.

(** The characters [str.strip()] removes: tab to carriage return, the four
    separators 28 to 31, and the space. *)
Definition isspace (c : ascii) : bool :=
  (Nat.leb 9 (code c) && Nat.leb (code c) 13)
  || (Nat.leb 28 (code c) && Nat.leb (code c) 32).

Definition lower_char (c : ascii) : ascii :=
  if is_upper c then ascii_of_nat (code c + 32) else c.

Definition chars (s : string) : list ascii := String.list_ascii_of_string s.

Definition of_chars (l : list ascii) : string := String.string_of_list_ascii l.

(** [s.isascii()]. *)
Definition isascii (s : string) : bool := forallb is_ascii_char (chars s).

(** [s.lower()]. *)
Definition lower (s : string) : string := of_chars (map lower_char (chars s)).

Fixpoint lstrip_chars (l : list ascii) : list ascii :=
  match l with
  | [] => []
  | c :: rest => if isspace c then lstrip_chars rest else l
  end.

Definition strip_chars (l : list ascii) : list ascii :=
  rev (lstrip_chars (rev (lstrip_chars l))).

(** [s.strip()]. *)
Definition strip (s : string) : string := of_chars (strip_chars (chars s)).

(** [s.replace(a, b)] for single characters [a] and [b]. *)
Definition replace_char (a b : ascii) (l : list ascii) : list ascii :=
  map (fun c => if Ascii.eqb c a then b else c) l.

(** [s.startswith(prefix)]. *)
Fixpoint startswith_chars (l prefix : list ascii) : bool :=
  match prefix, l with
  | [], _ => true
  | _ :: _, [] => false
  | p :: prefix', c :: l' => Ascii.eqb c p && startswith_chars l' prefix'
  end.

Definition startswith (s prefix : string) : bool :=
  startswith_chars (chars s) (chars prefix).

(** Truth value of a string: non-empty. *)
Definition truthy (s : string) : bool :=
  match s with EmptyString => false | String _ _ => true end.

(** Truth value of an optional string: present and non-empty. *)
Definition truthy_opt (o : option string) : bool :=
  match o with Some s => truthy s | None => false end.

End PyStr.

(* ================================================================== *)
(** ** Saving artifacts (generator.py, evaluator.py, engine.py) *)
(* ================================================================== *)

Module Artifacts.

(** What a saved file holds: the JSON text of a generation dict or of an
    assessment, represented by the value it encodes. *)
Inductive Json : Type :=
| GenerationJson (entries : list (string * PyVal.t))
| EvaluationJson (assessment : CreativityAssessmentResult.t).

(** [Path(directory) / filename], as the pair of its two parts. *)
Definition Path : Type := (string * string)%type.

(** The [sanitized_title] of [save_artifact] and [save_assessment]:
    keep letters, digits, spaces, hyphens and underscores; strip; spaces
    to underscores; lower case; at most 50 characters. *)
Definition sanitized_title (title : string) : string :=
  PyStr.of_chars
    (firstn 50
       (map PyStr.lower_char
          (PyStr.replace_char " " "_"
             (PyStr.strip_chars
                (List.filter
                   (fun c => PyStr.isalnum c
                             || Ascii.eqb c " " || Ascii.eqb c "-" || Ascii.eqb c "_")
                   (PyStr.chars title)))))).

Definition generation_filename (generation_uuid title : string) : string :=
  (generation_uuid ++ "_generation_" ++ sanitized_title title ++ ".json")%string.

Definition evaluation_filename (uuid concept_title : string) : string :=
  (uuid ++ "_evaluation_" ++ sanitized_title concept_title ++ ".json")%string.

(** [GenerationResult.save_artifact(directory)]: writes the dict of
    [to_dict()] to the file and returns its path.  [files] are the files
    before the call; opening a file for writing replaces what it held. *)
Definition save_artifact (self : GenerationResult.t) (directory : string)
  (timestamp : Q) (iso_timestamp : string) (files : gmap (string * string) Json)
  : Path * gmap (string * string) Json :=
  let filename :=
    generation_filename (GenerationResult.generation_uuid self)
                        (Concept.title (GenerationResult.selected_concept self)) in
  let filepath := (directory, filename) in
  (filepath,
   <[filepath := GenerationJson (GenerationResult.to_dict self timestamp iso_timestamp)]>
     files).

(** [CreativityEvaluator.save_assessment(assessment, uuid, concept_title,
    directory)]. *)
Definition save_assessment (assessment : CreativityAssessmentResult.t)
  (uuid concept_title directory : string) (files : gmap (string * string) Json)
  : Path * gmap (string * string) Json :=
  let filename := evaluation_filename uuid concept_title in
  let filepath := (directory, filename) in
  (filepath, <[filepath := EvaluationJson assessment]> files).

(** [CreativeEngine.save_artifacts(result, directory)]. *)
Definition save_artifacts (result : EngineResult.t) (directory : string)
  (timestamp : Q) (iso_timestamp : string) (files : gmap (string * string) Json)
  : (Path * option Path) * gmap (string * string) Json :=
  let (gen_path, files1) :=
    save_artifact (EngineResult.generation result) directory
                  timestamp iso_timestamp files in
  match EngineResult.evaluation result with
  | Some evaluation =>
      let (eval_path, files2) :=
        save_assessment evaluation (EngineResult.uuid result)
          (Concept.title
             (GenerationResult.selected_concept (EngineResult.generation result)))
          directory files1 in
      ((gen_path, Some eval_path), files2)
  | None => ((gen_path, None), files1)
  end.

End Artifacts.


(* ================================================================== *)
(** ** Building the providers and the engine (core/llm.py, engine.py) *)
(* ================================================================== *)

(** The three provider classes differ, at construction, in the
    environment variable that holds their key.  The vendor's package is
    taken to be installed; the environment is a map from names to values,
    [os.getenv] giving [None] for a name that is not set. *)
Module Providers.

Inductive Vendor : Type := OpenAI | Anthropic | Gemini.

Record t : Type := mk {
  vendor : Vendor;
  model_name : string;
  api_key : string
}.

Definition key_variable (v : Vendor) : string :=
  match v with
  | OpenAI => "OPENAI_API_KEY"
  | Anthropic => "ANTHROPIC_API_KEY"
  | Gemini => "GOOGLE_API_KEY"
  end.

Definition vendor_name (v : Vendor) : string :=
  match v with
  | OpenAI => "OpenAI"
  | Anthropic => "Anthropic"
  | Gemini => "Google"
  end.

(** [api_key or os.getenv(name)]. *)
Definition key_or_getenv (api_key : option string) (environ : gmap string string)
  (name : string) : option string :=
  if PyStr.truthy_opt api_key then api_key else environ !! name.

(** [OpenAIProvider.__init__], [AnthropicProvider.__init__] and
    [GeminiProvider.__init__]. *)
Definition new (v : Vendor) (model_name : string) (api_key : option string)
  (environ : gmap string string) : PyResult t :=
  let api_key := key_or_getenv api_key environ (key_variable v) in
  match api_key with
  | Some key =>
      if PyStr.truthy key then Ok (mk v model_name key)
      else Raise (ValueError (vendor_name v ++ " API key is required. "))
  | None => Raise (ValueError (vendor_name v ++ " API key is required. "))
  end.

(** [create_provider_from_model(model, api_key)]. *)
Definition create_provider_from_model (model : string) (api_key : option string)
  (environ : gmap string string) : PyResult t :=
  let model_lower := PyStr.lower model in
  if PyStr.startswith model_lower "gpt-" || PyStr.startswith model_lower "o1-"
  then new OpenAI model api_key environ
  else if PyStr.startswith model_lower "claude-"
  then new Anthropic model api_key environ
  else if PyStr.startswith model_lower "gemini-"
  then new Gemini model api_key environ
  else Raise (ValueError ("Unknown model: " ++ model ++ ". ")).

End Providers.

(** [CreativeEngine.__init__(config, model, provider, api_key)].  A provider
    object passed by the caller is of some type [P]; it counts as true.
    The generator and the evaluator are built on the engine's provider. *)
Module CreativeEngineInit.

Inductive EngineProvider (P : Type) : Type :=
| Created (provider : Providers.t)
| Given (provider : P).

Arguments Created {P} provider.
Arguments Given {P} provider.

Record t (P : Type) : Type := mk {
  provider : EngineProvider P;
  config : CreativityConfig.t
}.

Arguments mk {P} provider config.
Arguments provider {P} _.
Arguments config {P} _.

Definition is_some {A} (o : option A) : bool :=
  match o with Some _ => true | None => false end.

(** The provider the engine is left with when [model] is not given: the
    caller's.  The second check of [new] has excluded [None] by then. *)
Definition given_provider {P : Type} (config : CreativityConfig.t)
  (provider : option P) : PyResult (t P) :=
  match provider with
  | Some given => Ok (mk (Given given) config)
  | None => Raise (ValueError "Must specify either 'model' or 'provider'.")
  end.

Definition new {P : Type} (config : CreativityConfig.t) (model : option string)
  (provider : option P) (api_key : option string)
  (environ : gmap string string) : PyResult (t P) :=
  if PyStr.truthy_opt model && is_some provider
  then Raise (ValueError
         "Cannot specify both 'model' and 'provider'. Use one or the other.")
  else if negb (PyStr.truthy_opt model) && negb (is_some provider)
  then Raise (ValueError "Must specify either 'model' or 'provider'.")
  else
    match model with
    | Some model =>
        if PyStr.truthy model
        then do created <- Providers.create_provider_from_model model api_key environ;
             Ok (mk (Created created) config)
        else given_provider config provider
    | None => given_provider config provider
    end.

End CreativeEngineInit.


(* ================================================================== *)
(** ** The comparison benchmark (comparison_benchmark.py) *)
(* ================================================================== *)

Module Benchmark.

Import LLM.

Definition STYLE : string := "VARUN".

(** A baseline result, as [generate_baseline_scripts] builds it and
    [evaluate_baseline_scripts] completes it.  The assessment is kept as
    the model whose [model_dump()] the dict holds. *)
Record BaselineResult : Type := mkBaseline {
  url : string;
  product_name : string;
  product_description : string;
  pain_point : string;
  script_parts : list string;
  creativity_assessment : option CreativityAssessmentResult.t
}.

(** A creative result, as [generate_creative_scripts] builds it. *)
Record CreativeResult : Type := mkCreative {
  c_url : string;
  c_product_name : string;
  c_product_description : string;
  c_pain_point : string;
  concept_title : string;
  quality_score : Q;
  script : PyVal.t;
  c_creativity_assessment : option CreativityAssessmentResult.t
}.

(** The role of scene [i] out of [n], by position. *)
Definition role_at (i n : nat) : string :=
  if Nat.eqb i 0 then "hook"
  else if Nat.eqb i (n - 1) then "cta"
  else if Nat.eqb i 1 then "problem" else "solution".

Definition evaluation_context (name pain_point description : string)
  : list (string * PyVal.t) :=
  [ ("name", VStr name);
    ("target_audience", VStr "Tech professionals");
    ("pain_point", VStr pain_point);
    ("key_benefit", VStr description);
    ("platform", VStr "tiktok") ].

Section Converter.

(** The [visual] and the [dialogue] the regular expressions extract from
    one prompt: a function of the prompt alone. *)
Variable extract : string -> string * string.

(** The keyword arguments of [Scene(...)] for prompt [i] out of [n]. *)
Definition scene_kwargs (i n : nat) (prompt : string) : list (string * PyVal.t) :=
  let (visual, dialogue) := extract prompt in
  let start_sec := (inject_Z (Z.of_nat i) * 10)%Q in
  let end_sec := (inject_Z (Z.of_nat i + 1) * 10)%Q in
  [ ("id", VInt (Z.of_nat i + 1));
    ("start_sec", VFloat start_sec);
    ("end_sec", VFloat end_sec);
    ("role", VStr (role_at i n));
    ("visual", VStr visual);
    ("camera", VStr (if String.eqb STYLE "VARUN" then "Handheld" else "Static shot"));
    ("action", VStr visual);
    ("dialogue", VStr dialogue);
    ("on_screen_text", VNone);
    ("audio", Dump.Audio_model_dump (Audio.mk None None));
    ("notes_for_model", VNone) ].

(** The loop over [enumerate(baseline_script_parts)], from index [i], with
    the scenes and the [total_duration] so far. *)
Fixpoint convert_loop (i n : nat) (parts : list string)
  (scenes : list Scene.t) (total_duration : Q) : PyResult (list Scene.t * Q) :=
  match parts with
  | [] => Ok (scenes, total_duration)
  | prompt :: rest =>
      do scene <- Hydrate.Scene_model_validate (VDict (scene_kwargs i n prompt));
      convert_loop (S i) n rest (scenes ++ [scene])
                   (inject_Z (Z.of_nat i + 1) * 10)%Q
  end.

(** [convert_baseline_to_videoscript(baseline_script_parts, product_name)]. *)
Definition convert_baseline_to_videoscript (baseline_script_parts : list string)
  (product_name : string) : PyResult VideoScript.t :=
  match baseline_script_parts with
  | [] => Raise (ValueError "Empty baseline script parts")
  | _ :: _ =>
      do out <- convert_loop 0 (length baseline_script_parts)
                             baseline_script_parts [] 0;
      let (scenes, total_duration) := out : list Scene.t * Q in
      do video_meta <-
        Hydrate.VideoMeta_model_validate
          (VDict [ ("duration_seconds", VInt (Py.int total_duration));
                   ("platform", VStr "tiktok") ]);
      Ok (VideoScript.mk video_meta scenes)
  end.

Context `{Sqrt : Statistics.MathSqrt} {St : Type}.
Variable provider : LLMProvider St.

(** The body of the loop of [evaluate_baseline_scripts], for one result:
    convert, evaluate with a default evaluator on the engine's provider,
    and store the assessment, or [None] when anything raised. *)
Definition evaluate_baseline_script (result : BaselineResult)
  : M St BaselineResult :=
  run r <- try (
    run video_script <-
      lift (convert_baseline_to_videoscript (script_parts result)
                                            (product_name result));
    CreativityEvaluator.score_script provider CreativityEvaluator.default
      (existT VideoScriptSchema video_script : GenerationResult.Content)
      (evaluation_context (product_name result) (pain_point result)
                          (product_description result)));
  ret (mkBaseline (url result) (product_name result) (product_description result)
         (pain_point result) (script_parts result)
         (match r with Ok assessment => Some assessment | Raise _ => None end)).

(** [evaluate_baseline_scripts(baseline_results, engine)]. *)
Fixpoint evaluate_baseline_scripts (baseline_results : list BaselineResult)
  : M St (list BaselineResult) :=
  match baseline_results with
  | [] => ret []
  | result :: rest =>
      run result' <- evaluate_baseline_script result;
      run rest' <- evaluate_baseline_scripts rest;
      ret (result' :: rest')
  end.

(** The body of the loop of [evaluate_creative_scripts], for one result:
    a [VideoScript] built from the dict [result['script']] as keyword
    arguments, then the same evaluation. *)
Definition evaluate_creative_script (result : CreativeResult)
  : M St CreativeResult :=
  run r <- try (
    run video_script <- lift (Hydrate.VideoScript_model_validate (script result));
    CreativityEvaluator.score_script provider CreativityEvaluator.default
      (existT VideoScriptSchema video_script : GenerationResult.Content)
      (evaluation_context (c_product_name result) (c_pain_point result)
                          (c_product_description result)));
  ret (mkCreative (c_url result) (c_product_name result)
         (c_product_description result) (c_pain_point result)
         (concept_title result) (quality_score result) (script result)
         (match r with Ok assessment => Some assessment | Raise _ => None end)).

End Converter.

(** *** [generate_comparison_report]: the analysis *)

(** An entry of [baseline_scores] or [creative_scores]: the fields the
    analysis reads. *)
Record ScoreEntry : Type := mkEntry {
  product : string;
  overall_mean : Q;
  overall_std : Q
}.

Definition entry_of (name : string) (assessment : CreativityAssessmentResult.t)
  : ScoreEntry :=
  let overall :=
    AggregateResults.overall (CreativityAssessmentResult.aggregate assessment) in
  mkEntry name (EvaluationStats.mean overall) (EvaluationStats.std overall).

(** The entries of the results that carry an assessment, in order. *)
Fixpoint baseline_scores (results : list BaselineResult) : list ScoreEntry :=
  match results with
  | [] => []
  | b :: rest =>
      match creativity_assessment b with
      | Some assessment => entry_of (product_name b) assessment :: baseline_scores rest
      | None => baseline_scores rest
      end
  end.

Fixpoint creative_scores (results : list CreativeResult) : list ScoreEntry :=
  match results with
  | [] => []
  | c :: rest =>
      match c_creativity_assessment c with
      | Some assessment => entry_of (c_product_name c) assessment :: creative_scores rest
      | None => creative_scores rest
      end
  end.

(** [((creative - baseline) / baseline * 100) if baseline > 0 else 0]. *)
Definition improvement_of (baseline creative : Q) : Q :=
  if Qltb 0 baseline then ((creative - baseline) / baseline * 100)%Q else 0%Q.

Record Comparison : Type := mkComparison {
  cmp_product : string;
  baseline_score : Q;
  creative_score : option Q;
  improvement : option Q
}.

(** Truth value of a float: not zero. *)
Definition truthy_float (x : Q) : bool := negb (Qeq_bool x 0).

(** [next((c['overall_mean'] for c in creative_scores
          if c['product'] == b['product']), None)]. *)
Definition first_score_of (name : string) (entries : list ScoreEntry) : option Q :=
  option_map overall_mean
    (List.find (fun c => String.eqb (product c) name) entries).

(** One item of [per_product_comparison], with its [improvement] as the
    loop after the list comprehension sets it. *)
Definition compare_product (creative : list ScoreEntry) (b : ScoreEntry)
  : Comparison :=
  let creative_score := first_score_of (product b) creative in
  mkComparison (product b) (overall_mean b) creative_score
    (match creative_score with
     | Some c =>
         if truthy_float (overall_mean b) && truthy_float c
         then Some (improvement_of (overall_mean b) c)
         else None
     | None => None
     end).

Record Analysis : Type := mkAnalysis {
  baseline_average_creativity : Q;
  baseline_std : Q;
  creative_average_creativity : Q;
  creative_std : Q;
  improvement_percentage : Q;
  per_product_comparison : list Comparison
}.

(** [report["analysis"]]: [None] stands for the empty dict that is left
    when either list of scores is empty. *)
Definition analysis (baseline_results : list BaselineResult)
  (creative_results : list CreativeResult) : option Analysis :=
  let bs := baseline_scores baseline_results in
  let cs := creative_scores creative_results in
  match bs, cs with
  | _ :: _, _ :: _ =>
      let baseline_avg := (Py.sum (map overall_mean bs) / Py.len bs)%Q in
      let creative_avg := (Py.sum (map overall_mean cs) / Py.len cs)%Q in
      let baseline_std := (Py.sum (map overall_std bs) / Py.len bs)%Q in
      let creative_std := (Py.sum (map overall_std cs) / Py.len cs)%Q in
      Some (mkAnalysis baseline_avg baseline_std creative_avg creative_std
              (improvement_of baseline_avg creative_avg)
              (map (compare_product cs) bs))
  | _, _ => None
  end.

End Benchmark.


(* ================================================================== *)
(** ** Expected artifacts, providers and benchmark scripts *)
(* ================================================================== *)

(** What the statements about artifact names, provider construction and
    the benchmark converter compare the code with, and the sample data of
    their examples. *)
Module Reference.

Import Providers Benchmark.

(** The characters a sanitized title is made of: lower-case letters,
    digits, the hyphen and the underscore. *)
Definition safe_char (c : ascii) : bool :=
  PyStr.is_lower c || PyStr.is_digit c || Ascii.eqb c "-" || Ascii.eqb c "_".

(** The characters the filter of [sanitized_title] keeps. *)
Definition kept_char (c : ascii) : bool :=
  PyStr.isalnum c || Ascii.eqb c " " || Ascii.eqb c "-" || Ascii.eqb c "_".

(** The model-name prefixes of each vendor, as the factory tests them. *)
Definition prefixes (v : Vendor) : list string :=
  match v with
  | OpenAI => ["gpt-"; "o1-"]
  | Anthropic => ["claude-"]
  | Gemini => ["gemini-"]
  end.

(** The key a provider is built with: the caller's when it is a non-empty
    string, otherwise the vendor's environment variable. *)
Definition expected_key (v : Vendor) (api_key : option string)
  (environ : gmap string string) : option string :=
  match api_key with
  | Some (String c rest) => Some (String c rest)
  | _ => environ !! key_variable v
  end.

Section Converter.

Variable extract : string -> string * string.

(** The role of scene [i] out of [n], as a value of the [Role] literal. *)
Definition role_of_position (i n : nat) : Role :=
  if Nat.eqb i 0 then hook
  else if Nat.eqb i (n - 1) then cta
  else if Nat.eqb i 1 then problem else solution.

(** The scene the converter builds for prompt [i] out of [n]. *)
Definition scene_of (i n : nat) (prompt : string) : Scene.t :=
  Scene.mk (Z.of_nat i + 1)
           (inject_Z (Z.of_nat i) * 10)%Q (inject_Z (Z.of_nat i + 1) * 10)%Q
           (role_of_position i n) (fst (extract prompt)) "Handheld"
           (fst (extract prompt)) (snd (extract prompt)) None
           (Audio.mk None None) None.

Fixpoint scenes_from (i n : nat) (parts : list string) : list Scene.t :=
  match parts with
  | [] => []
  | prompt :: rest => scene_of i n prompt :: scenes_from (S i) n rest
  end.

End Converter.

Definition has_parts (result : BaselineResult) : bool :=
  match script_parts result with [] => false | _ :: _ => true end.

(** What one turn of the loop leaves of a result: everything but the
    assessment. *)
Definition same_but_assessment (r r' : BaselineResult) : Prop :=
  url r' = url r /\ product_name r' = product_name r /\
  product_description r' = product_description r /\
  pain_point r' = pain_point r /\ script_parts r' = script_parts r.

End Reference.

Module Sample.

Import Benchmark.

Definition sample_environ : gmap string string :=
  <["ANTHROPIC_API_KEY" := "sk-ant-0001"]> (<["OPENAI_API_KEY" := ""]> ∅).

(** The extraction used in the examples: the whole prompt as the visual,
    and no dialogue. *)
Definition whole_prompt (prompt : string) : string * string :=
  (prompt, EmptyString).

Definition sample_baseline (parts : list string) : BaselineResult :=
  mkBaseline "https://focusflow.example" "FocusFlow"
    "An app that mutes every ping for two hours" "constant distraction" parts None.

Definition sample_creative : CreativeResult :=
  mkCreative "https://focusflow.example" "FocusFlow"
    "An app that mutes every ping for two hours" "constant distraction"
    "C" 0.9 (Dump.VideoScript_model_dump Stub.sample_script) None.


(** An assessment with the given overall mean and deviation. *)
Definition assessment_with (mean std : Q) : CreativityAssessmentResult.t :=
  CreativityAssessmentResult.mk None None
    (AggregateResults.mk (EvaluationStats.mk mean std)
                         (Stub.uniform_criteria mean std)) None.

Definition scored_baseline (name : string) (mean std : Q) : BaselineResult :=
  mkBaseline "https://product.example" name "" "" ["A founder at a messy desk"]
    (Some (assessment_with mean std)).

Definition scored_creative (name : string) (mean std : Q) : CreativeResult :=
  mkCreative "https://product.example" name "" "" "C" 0.9
    (Dump.VideoScript_model_dump Stub.sample_script)
    (Some (assessment_with mean std)).

Definition two_baselines : list BaselineResult :=
  [ scored_baseline "FocusFlow" 1.5 0.5; scored_baseline "Quiet" 2 0;
    sample_baseline [] ].

Definition two_creatives : list CreativeResult :=
  [ scored_creative "Quiet" 2.5 0.5; scored_creative "FocusFlow" 2 0.25;
    sample_creative ].

End Sample.

(* ================================================================== *)
(** * Properties *)
(* ================================================================== *)

(** ** Facts about the Python primitives *)

Module PyFacts.

Lemma Qltb_lt (x y : Q) : Py.Qltb x y = true <-> (x < y)%Q.
Proof.
  unfold Py.Qltb. rewrite negb_true_iff.
  split; intros H.
  - apply Qnot_le_lt. intros Hle. apply Qle_bool_iff in Hle. congruence.
  - destruct (Qle_bool y x) eqn:E; [|reflexivity].
    apply Qle_bool_iff in E. exfalso. apply (Qlt_not_le _ _ H E).
Qed.

Lemma Qltb_ge (x y : Q) : Py.Qltb x y = false <-> (y <= x)%Q.
Proof.
  unfold Py.Qltb. rewrite negb_false_iff. apply Qle_bool_iff.
Qed.

Lemma Qle_bool_false (x y : Q) : Qle_bool x y = false <-> (y < x)%Q.
Proof.
  rewrite <- Qltb_lt. unfold Py.Qltb. now rewrite negb_true_iff.
Qed.

(** [max] and [min] return one of their arguments, the right one. *)
Lemma max_spec (a b : Q) :
  ((a < b)%Q /\ Py.max a b = b) \/ ((b <= a)%Q /\ Py.max a b = a).
Proof.
  unfold Py.max. destruct (Py.Qltb a b) eqn:E.
  - left. split; [now apply Qltb_lt | reflexivity].
  - right. split; [now apply Qltb_ge | reflexivity].
Qed.

Lemma min_spec (a b : Q) :
  ((b < a)%Q /\ Py.min a b = b) \/ ((a <= b)%Q /\ Py.min a b = a).
Proof.
  unfold Py.min. destruct (Py.Qltb b a) eqn:E.
  - left. split; [now apply Qltb_lt | reflexivity].
  - right. split; [now apply Qltb_ge | reflexivity].
Qed.

(** Rounding to the nearest integer stays between integer bounds. *)
Lemma round_half_even_between (q : Q) (a b : Z) :
  (inject_Z a <= q)%Q -> (q <= inject_Z b)%Q ->
  (a <= Py.round_half_even q <= b)%Z.
Proof.
  intros Ha Hb.
  assert (Hfa : (a <= Qfloor q)%Z).
  { rewrite <- (Qfloor_Z a). now apply Qfloor_resp_le. }
  assert (Hfb : (Qfloor q <= b)%Z).
  { rewrite <- (Qfloor_Z b). now apply Qfloor_resp_le. }
  assert (Hup : (inject_Z (Qfloor q) < q)%Q -> (Qfloor q + 1 <= b)%Z).
  { intros Hlt. assert (Hlt' : (inject_Z (Qfloor q) < inject_Z b)%Q)
      by (eapply Qlt_le_trans; eauto).
    rewrite <- Zlt_Qlt in Hlt'. lia. }
  unfold Py.round_half_even.
  destruct (Py.Qltb (q - inject_Z (Qfloor q)) (1 # 2)) eqn:E1; [lia|].
  apply Qltb_ge in E1.
  assert (Hlt : (inject_Z (Qfloor q) < q)%Q) by lra.
  specialize (Hup Hlt).
  destruct (Py.Qltb (1 # 2) (q - inject_Z (Qfloor q))); [lia|].
  destruct (Z.even (Qfloor q)); lia.
Qed.

(** [round(x, 2)] of a value between two multiples of 0.01 stays between
    them. *)
Lemma round2_between (x : Q) (a b : Z) :
  (a # 100 <= x)%Q -> (x <= b # 100)%Q ->
  (a # 100 <= Py.round x 2 <= b # 100)%Q.
Proof.
  intros Ha Hb. unfold Py.round.
  change (10 ^ 2)%positive with 100%positive.
  assert (H : (a <= Py.round_half_even (x * inject_Z 100) <= b)%Z).
  { apply round_half_even_between.
    - unfold Qle in *. destruct x as [n d]. simpl in *. lia.
    - unfold Qle in *. destruct x as [n d]. simpl in *. lia. }
  unfold Qle. simpl. lia.
Qed.


End PyFacts.

(** ** The creativity parameter mapper (core/config.py) *)

Module ConfigSpec.

Import Config.

Lemma level_range (cl : Q) : (0 <= level cl <= 1)%Q.
Proof.
  unfold level.
  destruct (PyFacts.min_spec 1 cl) as [[H1 ->]|[H1 ->]];
    [destruct (PyFacts.max_spec 0 cl) as [[H2 ->]|[H2 ->]]
    |destruct (PyFacts.max_spec 0 1) as [[H2 ->]|[H2 ->]]]; lra.
Qed.



Lemma temperature_range (lv : Q) :
  (0 <= lv <= 1)%Q ->
  (0.4 <= Py.round (0.4 + 0.8 * lv) 2 <= 1.2)%Q.
Proof.
  intros H.
  destruct (PyFacts.round2_between (0.4 + 0.8 * lv) 40 120) as [Hlo Hhi];
    [lra | lra |].
  split; lra.
Qed.

Lemma top_p_range (lv : Q) :
  (0 <= lv <= 1)%Q ->
  (0.6 <= Py.round (0.6 + 0.4 * lv) 2 <= 1)%Q.
Proof.
  intros H.
  destruct (PyFacts.round2_between (0.6 + 0.4 * lv) 60 100) as [Hlo Hhi];
    [lra | lra |].
  split; lra.
Qed.



(** The value [map_creativity] returns: the constructor's validation passes
    on every input. *)
Lemma map_creativity_ok (cl qt : Q) :
  map_creativity cl qt =
  Ok (EngineParameters.mk
        (Py.round (0.4 + 0.8 * level cl) 2)
        (Py.round (0.6 + 0.4 * level cl) 2)
        (Z.max 2 (Py.int (2 + 6 * level cl)))
        qt).
Proof.
  pose proof (level_range cl) as Hl.
  pose proof (temperature_range _ Hl) as [Ht1 Ht2].
  pose proof (top_p_range _ Hl) as [Hp1 Hp2].
  unfold map_creativity, EngineParameters.new, EngineParameters.post_init.
  cbn [EngineParameters.temperature EngineParameters.top_p
       EngineParameters.num_branches].
  replace (Qle_bool 0 (Py.round (0.4 + 0.8 * level cl) 2)) with true
    by (symmetry; apply Qle_bool_iff; lra).
  replace (Qle_bool (Py.round (0.4 + 0.8 * level cl) 2) 2) with true
    by (symmetry; apply Qle_bool_iff; lra).
  replace (Qle_bool 0 (Py.round (0.6 + 0.4 * level cl) 2)) with true
    by (symmetry; apply Qle_bool_iff; lra).
  replace (Qle_bool (Py.round (0.6 + 0.4 * level cl) 2) 1) with true
    by (symmetry; apply Qle_bool_iff; lra).
  replace (Z.max 2 (Py.int (2 + 6 * level cl)) <? 1)%Z with false
    by (symmetry; apply Z.ltb_ge; lia).
  reflexivity.
Qed.


(** C9.  map_creativity is total: for every creativity_level, in or out of
    [0,1], and every quality_threshold (in particular every one in [0,1])
    it returns parameters that pass the validation of EngineParameters:
    temperature in [0.0, 2.0], top_p in [0.0, 1.0], num_branches >= 1.
    None of the ValueError branches of __post_init__ is taken. *)
Theorem map_creativity_total (creativity_level quality_threshold : Q) :
  exists p : EngineParameters.t,
    map_creativity creativity_level quality_threshold = Ok p /\
    EngineParameters.post_init p = Ok tt /\
    (0 <= EngineParameters.temperature p <= 2)%Q /\
    (0 <= EngineParameters.top_p p <= 1)%Q /\
    (1 <= EngineParameters.num_branches p)%Z.
Proof.
  pose proof (map_creativity_ok creativity_level quality_threshold) as Hok.
  eexists. split; [exact Hok|].
  pose proof (level_range creativity_level) as Hl.
  pose proof (temperature_range _ Hl) as [Ht1 Ht2].
  pose proof (top_p_range _ Hl) as [Hp1 Hp2].
  cbn [EngineParameters.temperature EngineParameters.top_p
       EngineParameters.num_branches].
  split.
  - unfold map_creativity, EngineParameters.new in Hok.
    destruct (EngineParameters.post_init _) as [[]|e] eqn:E in Hok;
      [exact E | discriminate Hok].
  - repeat split; try lra; lia.
Qed.

(** The validation of CreativityConfig, as a decision on the two fields. *)
Lemma config_new_cases (cl qt : Q) :
  CreativityConfig.new cl qt =
  if Qle_bool 0 cl && Qle_bool cl 1 then
    if Qle_bool 0 qt && Qle_bool qt 1 then Ok (CreativityConfig.mk cl qt)
    else Raise (ValueError "quality_threshold must be between 0.0 and 1.0")
  else Raise (ValueError "creativity_level must be between 0.0 and 1.0").
Proof.
  unfold CreativityConfig.new, CreativityConfig.post_init.
  cbn [CreativityConfig.creativity_level CreativityConfig.quality_threshold].
  destruct (Qle_bool 0 cl && Qle_bool cl 1); [|reflexivity].
  destruct (Qle_bool 0 qt && Qle_bool qt 1); reflexivity.
Qed.

(** C6.  Constructing a CreativityConfig succeeds exactly when
    creativity_level and quality_threshold both lie in [0.0, 1.0], the
    bounds 0.0 and 1.0 included; with either of them strictly outside the
    range the constructor raises a ValueError. *)
Theorem creativity_config_validation (creativity_level quality_threshold : Q) :
  (CreativityConfig.new creativity_level quality_threshold
     = Ok (CreativityConfig.mk creativity_level quality_threshold)
   <-> (0 <= creativity_level <= 1)%Q /\ (0 <= quality_threshold <= 1)%Q) /\
  (((creativity_level < 0)%Q \/ (1 < creativity_level)%Q \/
    (quality_threshold < 0)%Q \/ (1 < quality_threshold)%Q)
   <-> exists msg, CreativityConfig.new creativity_level quality_threshold
                  = Raise (ValueError msg)).
Proof.
  rewrite config_new_cases.
  destruct (Qle_bool 0 creativity_level) eqn:E1;
  destruct (Qle_bool creativity_level 1) eqn:E2;
  destruct (Qle_bool 0 quality_threshold) eqn:E3;
  destruct (Qle_bool quality_threshold 1) eqn:E4;
  cbn [andb];
  repeat match goal with
  | H : Qle_bool _ _ = true |- _ => apply Qle_bool_iff in H
  | H : Qle_bool _ _ = false |- _ => apply PyFacts.Qle_bool_false in H
  end;
  (split; split;
   [ try discriminate; intros _; repeat split; assumption
   | intros [[? ?] [? ?]]; try reflexivity; exfalso; lra
   | intros [?|[?|[?|?]]]; try (exfalso; lra); eexists; reflexivity
   | intros [msg Hm]; try discriminate Hm; auto ]).
Qed.

(** The specification's examples: 1.5 and -0.1 are rejected, the bounds
    0.0 and 1.0 are accepted. *)
Example creativity_config_examples :
  CreativityConfig.new 1.5 0.7
    = Raise (ValueError "creativity_level must be between 0.0 and 1.0") /\
  CreativityConfig.new 0.5 (-0.1)
    = Raise (ValueError "quality_threshold must be between 0.0 and 1.0") /\
  CreativityConfig.new 0 0 = Ok (CreativityConfig.mk 0 0) /\
  CreativityConfig.new 1 1 = Ok (CreativityConfig.mk 1 1).
Proof. repeat split; reflexivity. Qed.

(** The mapping at the ends of the range, in the middle, and outside. *)
Example map_creativity_examples :
  Config.map_creativity 0 0.7 = Ok (EngineParameters.mk (40 # 100) (60 # 100) 2 0.7) /\
  Config.map_creativity 0.5 0.7 = Ok (EngineParameters.mk (80 # 100) (80 # 100) 5 0.7) /\
  Config.map_creativity 1 0.7 = Ok (EngineParameters.mk (120 # 100) (100 # 100) 8 0.7) /\
  Config.map_creativity 1.5 0.7 = Config.map_creativity 1 0.7 /\
  Config.map_creativity (-3) 0.7 = Config.map_creativity 0 0.7 /\
  Config.map_creativity 0.33 2 = Ok (EngineParameters.mk (66 # 100) (73 # 100) 3 2).
Proof. repeat split; vm_compute; reflexivity. Qed.

End ConfigSpec.

(** ** Selection and the hard stop of the generator (generation/generator.py) *)

Module GeneratorSpec.

Import LLM Registry ContentGenerator.

(** [max(xs, key=key)] returns an element of the list... *)
Lemma max_key_In {A} (key : A -> Q) (xs : list A) (x : A) :
  In (PyList.max_key key x xs) (x :: xs).
Proof.
  unfold PyList.max_key. revert x.
  induction xs as [|y ys IH]; intros x; cbn [fold_left].
  - left. reflexivity.
  - destruct (Py.Qltb (key x) (key y)).
    + right. apply IH.
    + destruct (IH x) as [Hx|Hx]; [left; exact Hx | right; right; exact Hx].
Qed.

(** ... and the running best only grows ... *)
Lemma max_key_ge_start {A} (key : A -> Q) (xs : list A) (x : A) :
  (key x <= key (PyList.max_key key x xs))%Q.
Proof.
  unfold PyList.max_key. revert x.
  induction xs as [|y ys IH]; intros x; cbn [fold_left].
  - lra.
  - destruct (Py.Qltb (key x) (key y)) eqn:E.
    + apply PyFacts.Qltb_lt in E. specialize (IH y). lra.
    + apply IH.
Qed.

(** ... so no element has a larger key. *)
Lemma max_key_ge {A} (key : A -> Q) (xs : list A) (x y : A) :
  In y (x :: xs) -> (key y <= key (PyList.max_key key x xs))%Q.
Proof.
  revert x. induction xs as [|z zs IH]; intros x Hin.
  - destruct Hin as [<-|[]]. apply max_key_ge_start.
  - destruct Hin as [<-|[<-|Hin]].
    + apply max_key_ge_start.
    + unfold PyList.max_key. cbn [fold_left].
      destruct (Py.Qltb (key x) (key z)) eqn:E.
      * apply (max_key_ge_start key zs z).
      * apply PyFacts.Qltb_ge in E.
        pose proof (max_key_ge_start key zs x) as Hx.
        unfold PyList.max_key in Hx. lra.
    + unfold PyList.max_key. cbn [fold_left].
      destruct (Py.Qltb (key x) (key z)).
      * apply (IH z). right. exact Hin.
      * apply (IH x). right. exact Hin.
Qed.

(** The parameters of a generator: always available, with the
    configuration's threshold. *)
Lemma get_params_ok (config : CreativityConfig.t) :
  exists params, _get_params config = Ok params /\
    EngineParameters.quality_threshold params
      = CreativityConfig.quality_threshold config.
Proof.
  unfold _get_params. rewrite ConfigSpec.map_creativity_ok.
  eexists. split; reflexivity.
Qed.

(** C3.  Selection on a non-empty list of scored concepts returns a concept
    of the list: when some concept reaches the quality threshold, one that
    reaches it and has the maximum quality_score among those that do; when
    none does, one of maximum quality_score over the whole list.  It raises
    exactly when the list is empty. *)
Theorem select_best_concept_spec (config : CreativityConfig.t)
  (scored_concepts : list ScoredConcept.t) :
  let threshold := CreativityConfig.quality_threshold config in
  let q := ScoredConcept.quality_score in
  (scored_concepts = [] ->
   _select_best_concept config scored_concepts
     = Raise (ValueError "No scored concepts available for selection.")) /\
  (scored_concepts <> [] ->
   exists best,
     _select_best_concept config scored_concepts = Ok best /\
     In best scored_concepts /\
     ((exists sc, In sc scored_concepts /\ (threshold <= q sc)%Q) ->
      (threshold <= q best)%Q /\
      forall sc, In sc scored_concepts -> (threshold <= q sc)%Q ->
                 (q sc <= q best)%Q) /\
     ((forall sc, In sc scored_concepts -> (q sc < threshold)%Q) ->
      forall sc, In sc scored_concepts -> (q sc <= q best)%Q)).
Proof.
  intros threshold q.
  destruct (get_params_ok config) as (params & Hp & Hthr).
  unfold _select_best_concept. rewrite Hp. cbn [Py.bind]. rewrite Hthr.
  fold threshold.
  set (keep := fun sc : ScoredConcept.t =>
                 Qle_bool threshold (ScoredConcept.quality_score sc)).
  split.
  - intros ->. reflexivity.
  - intros Hne.
    destruct (List.filter keep scored_concepts) as [|v vs] eqn:Hf; cbn [PyList.truthy negb].
    + (* nothing reaches the threshold: the whole list is searched *)
      destruct scored_concepts as [|sc rest]; [congruence|].
      eexists. split; [reflexivity|].
      split; [apply max_key_In|].
      split.
      * intros (sc' & Hin & Hle). exfalso.
        assert (Hin' : In sc' (List.filter keep (sc :: rest))).
        { apply filter_In. split; [exact Hin|]. apply Qle_bool_iff. exact Hle. }
        rewrite Hf in Hin'. exact Hin'.
      * intros _ sc' Hin. apply (max_key_ge q rest sc sc' Hin).
    + (* the concepts that reach the threshold are searched *)
      assert (Hsub : forall sc, In sc (v :: vs) <->
                                In sc scored_concepts /\ (threshold <= q sc)%Q).
      { intros sc. rewrite <- Hf, filter_In. unfold keep.
        rewrite Qle_bool_iff. reflexivity. }
      pose proof (max_key_In q vs v) as Hbest. apply Hsub in Hbest.
      destruct Hbest as [Hin Hle].
      eexists. split; [reflexivity|].
      split; [exact Hin|].
      split.
      * intros _. split; [exact Hle|].
        intros sc Hsc Hscle. apply (max_key_ge q vs v sc). apply Hsub. auto.
      * intros Hall. exfalso. specialize (Hall _ Hin). fold q in Hle. lra.
Qed.

(** C5.  If the provider call of the ideation phase fails, or returns an
    empty list of concepts, [generate] raises at once: the ideation call is
    the only call made to the provider (no concept is judged, so no list of
    scored concepts exists, and nothing is drafted), and no GenerationResult
    is returned. *)
Theorem generate_hard_stop {St : Type} (provider : LLMProvider St)
  (config : CreativityConfig.t) (fresh_uuid : string)
  (product_context : list (string * PyVal.t)) (content_type : ContentType)
  (reference_examples : option (list string)) (w : World St)
  (params : EngineParameters.t) (definition : ContentDefinition) :
  _get_params config = Ok params ->
  get_content_definition content_type = Ok definition ->
  let c := ideation_call params definition product_context reference_examples in
  let answer := LLM.generate provider c (oracle w) in
  ((exists e, fst answer = Raise e) \/
   (exists out, fst answer = Ok out /\ IdeationOutput.concepts out = [])) ->
  exists e,
    generate provider config fresh_uuid product_context content_type
             reference_examples w
    = (Raise e, mkWorld (snd answer) (log w ++ [c])).
Proof.
  intros Hp Hd c answer Hfail.
  unfold generate, _ideate, LLM.bind, LLM.lift, LLM.call, LLM.ret, LLM.throw.
  rewrite Hp, Hd. fold c. subst answer.
  destruct (LLM.generate provider c (oracle w)) as [r s'].
  cbn [fst snd] in *.
  destruct Hfail as [[e ->]|[out [-> Hempty]]].
  - exists e. reflexivity.
  - rewrite Hempty. cbn [PyList.truthy negb]. eexists. reflexivity.
Qed.

(** Selection at work: the first of the two best concepts above the
    threshold, and the best of all when none reaches it. *)
Example select_best_concept_examples :
  _select_best_concept Stub.sample_config Stub.five_scored
    = Ok (Stub.sample_scored "C" 0.9) /\
  _select_best_concept Stub.sample_config Stub.five_low
    = Ok (Stub.sample_scored "C" 0.65) /\
  _select_best_concept Stub.sample_config []
    = Raise (ValueError "No scored concepts available for selection.").
Proof. repeat split; vm_compute; reflexivity. Qed.

Lemma select_best_concept_witness :
  Stub.five_low <> [] /\
  (forall sc, In sc Stub.five_low ->
     (ScoredConcept.quality_score sc
      < CreativityConfig.quality_threshold Stub.sample_config)%Q) /\
  exists best,
    _select_best_concept Stub.sample_config Stub.five_low = Ok best /\
    In best Stub.five_low /\
    forall sc, In sc Stub.five_low ->
      (ScoredConcept.quality_score sc <= ScoredConcept.quality_score best)%Q.
Proof.
  assert (Hne : Stub.five_low <> []) by discriminate.
  assert (Hlow : forall sc, In sc Stub.five_low ->
     (ScoredConcept.quality_score sc
      < CreativityConfig.quality_threshold Stub.sample_config)%Q).
  { intros sc Hin. cbn in Hin.
    destruct Hin as [<-|[<-|[<-|[<-|[<-|[]]]]]]; reflexivity. }
  split; [exact Hne|]. split; [exact Hlow|].
  destruct (select_best_concept_spec Stub.sample_config Stub.five_low)
    as [_ Hsel].
  destruct (Hsel Hne) as (best & Hbest & Hin & _ & Hmax).
  exists best. split; [exact Hbest|]. split; [exact Hin|].
  exact (Hmax Hlow).
Defined.

(** The hard stop at work, for a failing provider and for one that
    returns no concept. *)
Lemma generate_hard_stop_witness :
  (exists e w',
     generate Stub.failing Stub.sample_config "1730000000_ab12cd34"
              Stub.sample_context VIDEO_SCRIPT None (Stub.start tt)
     = (Raise e, w') /\ length (log w') = 1%nat) /\
  (exists e w',
     generate Stub.empty_ideation Stub.sample_config "1730000000_ab12cd34"
              Stub.sample_context VIDEO_SCRIPT None (Stub.start tt)
     = (Raise e, w') /\ length (log w') = 1%nat).
Proof.
  split.
  - edestruct (generate_hard_stop Stub.failing Stub.sample_config
                 "1730000000_ab12cd34" Stub.sample_context VIDEO_SCRIPT None
                 (Stub.start tt)) as [e He].
    + vm_compute. reflexivity.
    + vm_compute. reflexivity.
    + left. eexists. reflexivity.
    + exists e. eexists. split; [exact He | reflexivity].
  - edestruct (generate_hard_stop Stub.empty_ideation Stub.sample_config
                 "1730000000_ab12cd34" Stub.sample_context VIDEO_SCRIPT None
                 (Stub.start tt)) as [e He].
    + vm_compute. reflexivity.
    + vm_compute. reflexivity.
    + right. eexists. split; reflexivity.
    + exists e. eexists. split; [exact He | reflexivity].
Defined.

(** A provider that fails on the first judge call makes [generate] raise
    as well, after the ideation call and that one judge call. *)
Example generate_judge_failure_propagates :
  exists e w',
    generate (Stub.scripted (fun n => Nat.eqb n 0) (fun _ => 0.8%Q))
             Stub.sample_config "1730000000_ab12cd34"
             Stub.sample_context VIDEO_SCRIPT None (Stub.start 0%nat)
    = (Raise e, w') /\ length (log w') = 2%nat.
Proof. eexists. eexists. split; vm_compute; reflexivity. Qed.

(** With a provider that always answers, [generate] returns a result: two
    concepts, both judged, one selected and drafted (four calls). *)
Example generate_succeeds :
  exists g w',
    generate (Stub.scripted (fun _ => true) (fun _ => 0.8%Q))
             Stub.sample_config "1730000000_ab12cd34"
             Stub.sample_context VIDEO_SCRIPT None (Stub.start 0%nat)
    = (Ok g, w') /\ length (log w') = 4%nat /\
    length (GenerationResult.scored_concepts g) = 2%nat /\
    GenerationResult.content g = existT VideoScriptSchema Stub.sample_script.
Proof. eexists. eexists. repeat split; vm_compute; reflexivity. Qed.

(** The registry has one entry: a content definition is found for the
    video script only, and its schema is VideoScript. *)
Lemma get_content_definition_cases (content_type : ContentType)
  (definition : ContentDefinition) :
  get_content_definition content_type = Ok definition ->
  content_type = VIDEO_SCRIPT /\
  Registry.output_schema definition = VideoScriptSchema.
Proof.
  destruct content_type; cbn; intros H; try discriminate H.
  injection H as <-. split; reflexivity.
Qed.

(** Every result [generate] returns carries a VideoScript as its content,
    and comes from a non-empty list of concepts, all of them scored. *)
Lemma generate_result_shape {St : Type} (provider : LLMProvider St)
  (config : CreativityConfig.t) (fresh_uuid : string)
  (product_context : list (string * PyVal.t)) (content_type : ContentType)
  (reference_examples : option (list string)) (w w' : World St)
  (g : GenerationResult.t) :
  generate provider config fresh_uuid product_context content_type
           reference_examples w = (Ok g, w') ->
  content_type = VIDEO_SCRIPT /\
  (exists script, GenerationResult.content g = existT VideoScriptSchema script) /\
  GenerationResult.concepts g <> [] /\
  GenerationResult.content_type g = content_type /\
  GenerationResult.generation_uuid g = fresh_uuid.
Proof.
  unfold generate, LLM.bind.
  destruct (_ideate _ _ _ _ _ w) as [[concepts|e] w1] eqn:Hi; [|discriminate].
  destruct concepts as [|c cs]; cbn [PyList.truthy negb]; [discriminate|].
  destruct (_judge_all_concepts _ _ _ _ w1) as [[scored|e] w2]; [|discriminate].
  unfold LLM.lift at 1.
  destruct (_select_best_concept config scored) as [best|e]; [|discriminate].
  destruct (_draft_content _ _ _ _ _ w2) as [[content|e] w3] eqn:Hd; [|discriminate].
  unfold LLM.ret. intros H. injection H as <- <-.
  cbn [GenerationResult.content GenerationResult.concepts
       GenerationResult.content_type GenerationResult.generation_uuid].
  unfold _draft_content, LLM.bind, LLM.lift, LLM.ret in Hd.
  destruct (_get_params config) as [params|e]; [|discriminate].
  destruct (get_content_definition content_type) as [definition|e] eqn:Hdef;
    [|discriminate].
  destruct (get_content_definition_cases _ _ Hdef) as [-> Hs].
  destruct (LLM.call _ _ w2) as [[x|e] w4]; [|discriminate].
  injection Hd as <- <-.
  split; [reflexivity|]. split.
  - cbn in Hdef. injection Hdef as <-. cbn in x. exists x. reflexivity.
  - repeat split. discriminate.
Qed.

End GeneratorSpec.

(** ** Serialization round trip (generation/generator.py, generation/models.py) *)

Module RoundTripSpec.

Import Validate Dump Hydrate.

Lemma platform_roundtrip (p : Platform) : platform_of (platform_name p) = Ok p.
Proof. destruct p; reflexivity. Qed.

Lemma role_roundtrip (r : Role) : role_of (role_name r) = Ok r.
Proof. destruct r; reflexivity. Qed.

Lemma optional_str_roundtrip (d : list (string * PyVal.t)) (key : string)
  (o : option string) :
  PyVal.lookup key d = Some (PyVal.of_option_str o) ->
  optional_str d key = Ok o.
Proof.
  intros H. unfold optional_str. rewrite H. destruct o; reflexivity.
Qed.

Lemma VideoMeta_roundtrip (m : VideoMeta.t) :
  VideoMeta_model_validate (VideoMeta_model_dump m) = Ok m.
Proof.
  destruct m as [d p]. unfold VideoMeta_model_validate, VideoMeta_model_dump.
  cbn. rewrite platform_roundtrip. reflexivity.
Qed.

Lemma Audio_roundtrip (a : Audio.t) :
  Audio_model_validate (Audio_model_dump a) = Ok a.
Proof.
  destruct a as [m s]. unfold Audio_model_validate, Audio_model_dump.
  cbn [as_dict Py.bind Audio.music Audio.sfx].
  rewrite (optional_str_roundtrip _ "music" m) by reflexivity.
  rewrite (optional_str_roundtrip _ "sfx" s) by reflexivity.
  reflexivity.
Qed.

Lemma ge0_ok (x : Q) : Qle_bool 0 x = true -> ge0 x = Ok x.
Proof. intros H. unfold ge0. rewrite H. reflexivity. Qed.

Lemma Scene_roundtrip (s : Scene.t) :
  Scene_constraints s = true ->
  Scene_model_validate (Scene_model_dump s) = Ok s.
Proof.
  destruct s as [id st en r vi ca ac di ost au nfm].
  unfold Scene_constraints. cbn [Scene.start_sec Scene.end_sec].
  intros [Hst Hen]%andb_prop.
  unfold Scene_model_validate, Scene_model_dump.
  cbn [as_dict Py.bind Scene.id Scene.start_sec Scene.end_sec Scene.role
       Scene.visual Scene.camera Scene.action Scene.dialogue
       Scene.on_screen_text Scene.audio Scene.notes_for_model].
  rewrite (optional_str_roundtrip _ "on_screen_text" ost) by reflexivity.
  rewrite (optional_str_roundtrip _ "notes_for_model" nfm) by reflexivity.
  change (required _ "id") with (Ok (A:=PyVal.t) (VInt id)).
  change (required _ "start_sec") with (Ok (A:=PyVal.t) (VFloat st)).
  change (required _ "end_sec") with (Ok (A:=PyVal.t) (VFloat en)).
  change (required _ "role") with (Ok (A:=PyVal.t) (VStr (role_name r))).
  change (required _ "visual") with (Ok (A:=PyVal.t) (VStr vi)).
  change (required _ "camera") with (Ok (A:=PyVal.t) (VStr ca)).
  change (required _ "action") with (Ok (A:=PyVal.t) (VStr ac)).
  change (required _ "dialogue") with (Ok (A:=PyVal.t) (VStr di)).
  change (required _ "audio") with (Ok (A:=PyVal.t) (Audio_model_dump au)).
  cbn [Py.bind as_int as_float as_str].
  rewrite (ge0_ok st Hst), (ge0_ok en Hen), role_roundtrip, Audio_roundtrip.
  reflexivity.
Qed.

Lemma scenes_roundtrip (scenes : list Scene.t) :
  forallb Scene_constraints scenes = true ->
  each Scene_model_validate (map Scene_model_dump scenes) = Ok scenes.
Proof.
  induction scenes as [|s rest IH]; intros H; [reflexivity|].
  cbn [forallb] in H. apply andb_prop in H as [Hs Hrest].
  cbn [map each]. rewrite (Scene_roundtrip s Hs), (IH Hrest). reflexivity.
Qed.

Lemma VideoScript_roundtrip (v : VideoScript.t) :
  VideoScript_constraints v = true ->
  VideoScript_model_validate (VideoScript_model_dump v) = Ok v.
Proof.
  destruct v as [m scenes]. unfold VideoScript_constraints.
  cbn [VideoScript.scenes]. intros H.
  unfold VideoScript_model_validate, VideoScript_model_dump.
  cbn [as_dict Py.bind VideoScript.video_meta VideoScript.scenes].
  change (required _ "video_meta") with (Ok (A:=PyVal.t) (VideoMeta_model_dump m)).
  change (required _ "scenes")
    with (Ok (A:=PyVal.t) (VList (map Scene_model_dump scenes))).
  cbn [Py.bind as_list].
  rewrite VideoMeta_roundtrip, (scenes_roundtrip scenes H). reflexivity.
Qed.

(** C8.  Serializing a GenerationResult with to_dict() and re-hydrating
    its "generated_content" entry against the VideoScript schema gives back
    the drafted script, field for field.  The script satisfies its field
    constraints (start_sec >= 0, end_sec >= 0), as every instance that
    pydantic has validated does. *)
Theorem generation_result_roundtrip (g : GenerationResult.t)
  (script : VideoScript.t) (timestamp : Q) (iso_timestamp : string) :
  GenerationResult.content g = existT LLM.VideoScriptSchema script ->
  VideoScript_constraints script = true ->
  (do d <- PyVal.getitem (GenerationResult.to_dict g timestamp iso_timestamp)
                         "generated_content";
   VideoScript_model_validate d) = Ok script.
Proof.
  intros Hc Hv.
  unfold GenerationResult.to_dict.
  change (PyVal.getitem _ "generated_content")
    with (Ok (A:=PyVal.t) (GenerationResult.content_model_dump (GenerationResult.content g))).
  rewrite Hc. cbn [Py.bind GenerationResult.content_model_dump projT1 projT2 LLM.model_dump].
  apply VideoScript_roundtrip. exact Hv.
Qed.

Lemma generation_result_roundtrip_witness :
  GenerationResult.content Stub.sample_result
    = existT LLM.VideoScriptSchema Stub.sample_script /\
  VideoScript_constraints Stub.sample_script = true /\
  (do d <- PyVal.getitem
             (GenerationResult.to_dict Stub.sample_result 1730000000
                                       "2024-10-27 04:33:20")
             "generated_content";
   VideoScript_model_validate d) = Ok Stub.sample_script.
Proof.
  split; [reflexivity|]. split; [reflexivity|].
  apply generation_result_roundtrip; reflexivity.
Defined.

(** The constraint is what the round trip rests on: a scene that starts
    before 0 is dumped, but not accepted back. *)
Example negative_start_is_rejected :
  Scene_model_validate
    (Scene_model_dump (Stub.sample_scene 1 (-1) 3 hook))
  = Raise (ValidationError "Input should be greater than or equal to 0").
Proof. reflexivity. Qed.

End RoundTripSpec.

(** ** The creativity evaluator (evaluation/evaluator.py) *)

Module EvaluatorSpec.

Import LLM Statistics CreativityEvaluator Expected.

(** *** The statistics of a block *)

(** [sum] adds up the scores, and the mean times the number of scores is
    their sum. *)
Lemma sum_from (xs : list Q) (a : Q) :
  (fold_left Qplus xs a == a + Py.sum xs)%Q.
Proof.
  unfold Py.sum. revert a.
  induction xs as [|x rest IH]; intros a; cbn [fold_left].
  - lra.
  - rewrite (IH (a + x)%Q), (IH (0 + x)%Q). lra.
Qed.

Lemma sum_cons (x : Q) (xs : list Q) : (Py.sum (x :: xs) == x + Py.sum xs)%Q.
Proof.
  unfold Py.sum at 1. cbn [fold_left]. rewrite sum_from. lra.
Qed.

Lemma arithmetic_mean_sum (xs : list Q) :
  xs <> [] -> (arithmetic_mean xs * Py.len xs == Py.sum xs)%Q.
Proof.
  intros Hne. unfold arithmetic_mean.
  assert (Hlen : ~ (Py.len xs == 0)%Q).
  { unfold Py.len. destruct xs as [|x rest]; [congruence|].
    cbn [length]. unfold Qeq. cbn. lia. }
  field. exact Hlen.
Qed.

(** The scores 1, 3, 3, 3 have mean 5/2 and sample variance 1. *)
Example statistics_of_1_3_3_3 :
  (arithmetic_mean [1; 3; 3; 3] == 5 # 2)%Q /\
  (sample_variance [1; 3; 3; 3] == 1)%Q /\
  (sample_std (H := Stub.rational_sqrt) [1; 3; 3; 3] == 1)%Q /\
  sample_std (H := Stub.rational_sqrt) [2%Q] = 0%Q.
Proof. repeat split; vm_compute; reflexivity. Qed.

Section Statistics.

Context `{MathSqrtNonneg}.

Lemma mean_spec (xs : list Q) :
  xs <> [] -> mean xs = Ok (arithmetic_mean xs).
Proof. destruct xs; [congruence | reflexivity]. Qed.

Lemma std_of_spec (xs : list Q) : std_of xs = Ok (sample_std xs).
Proof.
  unfold std_of, sample_std, stdev, variance.
  destruct xs as [|x [|y ys]]; reflexivity.
Qed.

Lemma sample_std_nonneg (xs : list Q) : (0 <= sample_std xs)%Q.
Proof.
  unfold sample_std. destruct (Nat.ltb (length xs) 2); [lra|].
  apply math_sqrt_nonneg.
Qed.

Lemma validate_std_ok (s : Q) : (0 <= s)%Q -> validate_std s = Ok tt.
Proof.
  intros Hs. unfold validate_std.
  apply Qle_bool_iff in Hs. rewrite Hs. reflexivity.
Qed.

Lemma validate_std_inv (s : Q) : validate_std s = Ok tt -> (0 <= s)%Q.
Proof.
  unfold validate_std. destruct (Qle_bool 0 s) eqn:E; [|discriminate].
  intros _. apply Qle_bool_iff. exact E.
Qed.

Section Block.

Context {J : Type}.
Variable getattr : J -> string -> PyResult CriterionScore.t.
Variable overall_creativity : J -> CriterionScore.t.

Lemma criterion_scores_spec (name : string) (field : J -> CriterionScore.t)
  (runs : list J) :
  (forall e, getattr e name = Ok (field e)) ->
  criterion_scores getattr name runs
    = Ok (map (fun e => CriterionScore.score (field e)) runs).
Proof.
  intros Hf. induction runs as [|e rest IH]; [reflexivity|].
  cbn [criterion_scores map]. rewrite Hf, IH. reflexivity.
Qed.

Lemma criteria_loop_spec (fields : list (string * (J -> CriterionScore.t)))
  (runs : list J) (acc : gmap string CriterionStats.t) :
  (forall name field, In (name, field) fields ->
     forall e, getattr e name = Ok (field e)) ->
  runs <> [] ->
  criteria_loop getattr (map fst fields) runs acc = Ok (inserted fields runs acc).
Proof.
  intros Hf Hne. revert acc.
  induction fields as [|[name field] rest IH]; intros acc; [reflexivity|].
  cbn [map fst criteria_loop].
  rewrite (criterion_scores_spec name field) by (apply Hf; left; reflexivity).
  cbn [Py.bind].
  rewrite mean_spec by (destruct runs; [congruence | discriminate]).
  cbn [Py.bind]. rewrite std_of_spec. cbn [Py.bind].
  unfold CriterionStats.new.
  rewrite validate_std_ok by apply sample_std_nonneg.
  cbn [Py.bind]. rewrite IH; [reflexivity|].
  intros n f Hin. apply Hf. right. exact Hin.
Qed.

Lemma block_statistics_spec (fields : list (string * (J -> CriterionScore.t)))
  (runs : list J) :
  map fst fields = criterion_names ->
  (forall name field, In (name, field) fields ->
     forall e, getattr e name = Ok (field e)) ->
  runs <> [] ->
  block_statistics getattr overall_creativity runs
    = Ok (EvaluationStats.mk
            (arithmetic_mean
               (map (fun e => CriterionScore.score (overall_creativity e)) runs))
            (sample_std
               (map (fun e => CriterionScore.score (overall_creativity e)) runs)),
          inserted fields runs ∅).
Proof.
  intros Hnames Hf Hne. unfold block_statistics.
  rewrite mean_spec by (destruct runs; [congruence | discriminate]).
  cbn [Py.bind]. rewrite std_of_spec. cbn [Py.bind].
  rewrite <- Hnames, (criteria_loop_spec fields runs ∅ Hf Hne).
  cbn [Py.bind]. unfold EvaluationStats.new.
  rewrite validate_std_ok by apply sample_std_nonneg.
  reflexivity.
Qed.

End Block.

End Statistics.

(** *** The six criteria of a block *)


Ltac dom_inserted :=
  unfold inserted, generic_fields, persona_fields, criterion_set, criterion_names;
  cbn [fold_left fst snd list_to_set];
  rewrite !dom_insert_L, dom_empty_L; set_solver.

Section Criteria.

Context `{MathSqrt}.

Lemma generic_getattr (name : string) (field : GenericJudgeOutput.t -> CriterionScore.t) :
  In (name, field) generic_fields ->
  forall e, GenericJudgeOutput.getattr e name = Ok (field e).
Proof.
  intros Hin e. cbn in Hin.
  repeat (destruct Hin as [Heq|Hin]; [injection Heq as <- <-; reflexivity|]).
  destruct Hin.
Qed.

Lemma persona_getattr (name : string) (field : PersonaJudgeOutput.t -> CriterionScore.t) :
  In (name, field) persona_fields ->
  forall e, PersonaJudgeOutput.getattr e name = Ok (field e).
Proof.
  intros Hin e. cbn in Hin.
  repeat (destruct Hin as [Heq|Hin]; [injection Heq as <- <-; reflexivity|]).
  destruct Hin.
Qed.



Lemma generic_inserted_dom (runs : list GenericJudgeOutput.t) :
  dom (inserted generic_fields runs ∅) = criterion_set.
Proof. dom_inserted. Qed.

Lemma persona_inserted_dom (runs : list PersonaJudgeOutput.t) :
  dom (inserted persona_fields runs ∅) = criterion_set.
Proof. dom_inserted. Qed.

(** Every entry of the map the criteria loop builds is one of the
    inserted statistics. *)
Lemma inserted_values {J : Type} (fields : list (string * (J -> CriterionScore.t)))
  (runs : list J) (acc : gmap string CriterionStats.t) (P : CriterionStats.t -> Prop) :
  (forall field, P (criterion_stats field runs)) ->
  map_Forall (fun _ v => P v) acc ->
  map_Forall (fun _ v => P v) (inserted fields runs acc).
Proof.
  intros HP. revert acc. unfold inserted.
  induction fields as [|[name field] rest IH]; intros acc Hacc; [exact Hacc|].
  cbn [fold_left fst snd]. apply IH.
  apply map_Forall_insert_2; [apply HP | exact Hacc].
Qed.

End Criteria.

(** *** The sweeps *)

Section Sweeps.

Context {St : Type}.
Variable provider : LLMProvider St.

(** Every temperature of the grid is called, whatever the earlier calls
    did; the successful answers are collected in order. *)
Lemma temperature_loop_spec (grid : list Q) (user_prompt : Prompt)
  (outputs : list PyVal.t) (successful : list GenericJudgeOutput.t)
  (w : World St) :
  temperature_loop provider grid user_prompt outputs successful w =
  (Ok (outputs ++ map (fun ka => temperature_entry (fst ka) (snd ka))
                      (successes (fst (temperature_outcomes provider user_prompt
                                         grid (oracle w)))),
       successful ++ map snd
                      (successes (fst (temperature_outcomes provider user_prompt
                                         grid (oracle w))))),
   mkWorld (snd (temperature_outcomes provider user_prompt grid (oracle w)))
           (log w ++ map (temperature_call user_prompt) grid)).
Proof.
  revert outputs successful w.
  induction grid as [|temp rest IH]; intros outputs successful w.
  - cbn. rewrite !app_nil_r. destruct w; reflexivity.
  - cbn [temperature_loop temperature_outcomes].
    unfold LLM.bind, LLM.try, LLM.call.
    destruct (LLM.generate provider (temperature_call user_prompt temp) (oracle w))
      as [r s1].
    destruct r as [output|e]; rewrite IH; cbn [oracle log];
      destruct (temperature_outcomes provider user_prompt rest s1) as [rs s2];
      cbn [fst snd successes map]; rewrite <- ?app_assoc; reflexivity.
Qed.

Lemma persona_loop_spec (self : t) (personas : list Persona)
  (script_json : PyVal.t) (product_context : list (string * PyVal.t))
  (outputs : list PyVal.t) (successful : list PersonaJudgeOutput.t)
  (w : World St) :
  persona_loop provider self personas script_json product_context
               outputs successful w =
  (Ok (outputs ++ map (fun ka => persona_entry (fst ka) (snd ka))
                      (successes (fst (persona_outcomes provider self script_json
                                         product_context personas (oracle w)))),
       successful ++ map snd
                      (successes (fst (persona_outcomes provider self script_json
                                         product_context personas (oracle w))))),
   mkWorld (snd (persona_outcomes provider self script_json product_context
                   personas (oracle w)))
           (log w ++ map (fun p => persona_call self p script_json product_context)
                         personas)).
Proof.
  revert outputs successful w.
  induction personas as [|persona rest IH]; intros outputs successful w.
  - cbn. rewrite !app_nil_r. destruct w; reflexivity.
  - cbn [persona_loop persona_outcomes].
    unfold LLM.bind, LLM.try, LLM.call.
    destruct (LLM.generate provider
                (persona_call self persona script_json product_context) (oracle w))
      as [r s1].
    destruct r as [output|e]; rewrite IH; cbn [oracle log];
      destruct (persona_outcomes provider self script_json product_context rest s1)
        as [rs s2];
      cbn [fst snd successes map]; rewrite <- ?app_assoc; reflexivity.
Qed.



End Sweeps.

Section SweepResults.

Context `{MathSqrtNonneg} {St : Type}.
Variable provider : LLMProvider St.
Variable self : t.

Lemma temperature_sweep_spec (script_json : PyVal.t)
  (product_context : list (string * PyVal.t)) (w : World St) :
  let user_prompt := build_generic_user_prompt product_context script_json in
  let good := temperature_successes provider self script_json product_context (oracle w) in
  _temperature_sweep provider self script_json product_context w =
  (Ok (expected_block generic_fields GenericJudgeOutput.overall_creativity
         (fun overall criteria =>
            TemperatureBlock.mk overall criteria
              (map (fun ka => temperature_entry (fst ka) (snd ka)) good))
         (map snd good)),
   mkWorld (snd (temperature_outcomes provider user_prompt
                   (temperature_grid self) (oracle w)))
           (log w ++ map (temperature_call user_prompt) (temperature_grid self))).
Proof.
  intros user_prompt good.
  unfold _temperature_sweep, LLM.bind. fold user_prompt.
  rewrite temperature_loop_spec. cbn [app].
  subst good. unfold temperature_successes. fold user_prompt.
  set (good := successes _).
  unfold expected_block.
  destruct (Nat.ltb (length (map snd good)) 4) eqn:Hq; [reflexivity|].
  unfold LLM.lift, LLM.ret.
  rewrite (block_statistics_spec _ _ generic_fields);
    [reflexivity | reflexivity | apply generic_getattr |].
  intros Hnil. rewrite Hnil in Hq. discriminate Hq.
Qed.

Lemma persona_sweep_spec (script_json : PyVal.t)
  (product_context : list (string * PyVal.t)) (w : World St) :
  let good := persona_successes provider self script_json product_context (oracle w) in
  _persona_sweep provider self script_json product_context w =
  (Ok (expected_block persona_fields PersonaJudgeOutput.overall_creativity
         (fun overall criteria =>
            PersonaBlock.mk overall criteria
              (map (fun ka => persona_entry (fst ka) (snd ka)) good))
         (map snd good)),
   mkWorld (snd (persona_outcomes provider self script_json product_context
                   (personas self) (oracle w)))
           (log w ++ map (fun p => persona_call self p script_json product_context)
                         (personas self))).
Proof.
  intros good.
  unfold _persona_sweep, LLM.bind.
  rewrite persona_loop_spec. cbn [app].
  subst good. unfold persona_successes.
  set (good := successes _).
  unfold expected_block.
  destruct (Nat.ltb (length (map snd good)) 4) eqn:Hq; [reflexivity|].
  unfold LLM.lift, LLM.ret.
  rewrite (block_statistics_spec _ _ persona_fields);
    [reflexivity | reflexivity | apply persona_getattr |].
  intros Hnil. rewrite Hnil in Hq. discriminate Hq.
Qed.

End SweepResults.


(** *** Aggregation *)

Lemma py_max_is_maximum (a b : Q) : is_maximum (Py.max a b) a b.
Proof.
  unfold is_maximum.
  destruct (PyFacts.max_spec a b) as [[Hlt ->]|[Hle ->]];
    repeat split; auto; lra.
Qed.

Lemma in_criterion_set (name : string) :
  name ∈ criterion_set <-> In name criterion_names.
Proof.
  unfold criterion_set. rewrite elem_of_list_to_set. apply list_elem_of_In.
Qed.

Lemma stats_wf_lookup overall criteria name :
  stats_wf overall criteria -> In name criterion_names ->
  exists s, criteria !! name = Some s /\ (0 <= CriterionStats.std s)%Q.
Proof.
  intros (_ & Hval & Hdom) Hin.
  apply in_criterion_set in Hin. rewrite <- Hdom in Hin.
  apply elem_of_dom in Hin as [s Hs].
  exists s. split; [exact Hs|]. exact (Hval _ _ Hs).
Qed.

Lemma aggregate_loop_spec (names : list string) (tb : TemperatureBlock.t)
  (pb : PersonaBlock.t) (acc : gmap string CriterionStats.t) :
  temperature_wf tb -> persona_wf pb ->
  (forall name, In name names -> In name criterion_names) ->
  exists m,
    aggregate_loop names tb pb acc = Ok m /\
    forall k, m !! k =
      if decide (k ∈ names)
      then aggregated (TemperatureBlock.criteria tb) (PersonaBlock.criteria pb) k
      else acc !! k.
Proof.
  intros Ht Hp. revert acc.
  induction names as [|name rest IH]; intros acc Hsub.
  - exists acc. split; [reflexivity|]. intros k.
    destruct (decide (k ∈ [])) as [Hin|_]; [inversion Hin | reflexivity].
  - destruct (stats_wf_lookup _ _ name Ht) as (t & Hlt & Hst);
      [apply Hsub; left; reflexivity|].
    destruct (stats_wf_lookup _ _ name Hp) as (p & Hlp & Hsp);
      [apply Hsub; left; reflexivity|].
    cbn [aggregate_loop]. unfold criteria_getitem. rewrite Hlt, Hlp.
    cbn [Py.bind]. unfold CriterionStats.new.
    rewrite validate_std_ok
      by (destruct (py_max_is_maximum (CriterionStats.std t) (CriterionStats.std p))
            as (_ & ? & _); lra).
    cbn [Py.bind].
    destruct (IH (<[name := combine t p]> acc)) as (m & Hm & Hlook);
      [intros n Hn; apply Hsub; right; exact Hn|].
    exists m. split; [exact Hm|]. intros k. rewrite Hlook.
    destruct (decide (k ∈ rest)) as [Hin|Hnin].
    + rewrite decide_True by (right; exact Hin). reflexivity.
    + destruct (decide (k = name)) as [->|Hne].
      * rewrite decide_True by left. rewrite lookup_insert_eq.
        unfold aggregated. rewrite Hlt, Hlp. reflexivity.
      * rewrite decide_False by (intros Hk; inversion Hk; subst; tauto).
        apply lookup_insert_ne. congruence.
Qed.

Lemma zero_loop_spec (names : list string) (acc : gmap string CriterionStats.t) :
  exists m,
    zero_loop names acc = Ok m /\
    forall k, m !! k =
      if decide (k ∈ names) then Some (CriterionStats.mk 0 0) else acc !! k.
Proof.
  revert acc. induction names as [|name rest IH]; intros acc.
  - exists acc. split; [reflexivity|]. intros k.
    destruct (decide (k ∈ [])) as [Hin|_]; [inversion Hin | reflexivity].
  - cbn [zero_loop]. unfold CriterionStats.new.
    change (validate_std 0) with (Ok (A:=unit) tt). cbn [Py.bind].
    destruct (IH (<[name := CriterionStats.mk 0 0]> acc)) as (m & Hm & Hlook).
    exists m. split; [exact Hm|]. intros k. rewrite Hlook.
    destruct (decide (k ∈ rest)) as [Hin|Hnin].
    + rewrite decide_True by (right; exact Hin). reflexivity.
    + destruct (decide (k = name)) as [->|Hne].
      * rewrite decide_True by left. apply lookup_insert_eq.
      * rewrite decide_False by (intros Hk; inversion Hk; subst; tauto).
        apply lookup_insert_ne. congruence.
Qed.

(** The aggregate of two present blocks, criterion by criterion. *)
Lemma aggregate_both (tb : TemperatureBlock.t) (pb : PersonaBlock.t) :
  temperature_wf tb -> persona_wf pb ->
  exists criteria,
    _aggregate_results (Some tb) (Some pb)
    = Ok (AggregateResults.mk
            (EvaluationStats.mk
               ((EvaluationStats.mean (TemperatureBlock.overall tb)
                 + EvaluationStats.mean (PersonaBlock.overall pb)) / 2)%Q
               (Py.max (EvaluationStats.std (TemperatureBlock.overall tb))
                       (EvaluationStats.std (PersonaBlock.overall pb))))
            criteria) /\
    forall k, criteria !! k =
      if decide (k ∈ criterion_names)
      then aggregated (TemperatureBlock.criteria tb) (PersonaBlock.criteria pb) k
      else None.
Proof.
  intros Ht Hp.
  destruct (aggregate_loop_spec criterion_names tb pb ∅ Ht Hp) as (m & Hm & Hlook);
    [auto|].
  exists m. split.
  - unfold _aggregate_results. rewrite Hm. cbn [Py.bind].
    unfold EvaluationStats.new.
    destruct Ht as (Ht0 & _). destruct Hp as (Hp0 & _).
    rewrite validate_std_ok; [reflexivity|].
    destruct (py_max_is_maximum (EvaluationStats.std (TemperatureBlock.overall tb))
                                (EvaluationStats.std (PersonaBlock.overall pb)))
      as (_ & ? & _); lra.
  - intros k. rewrite Hlook.
    destruct (decide (k ∈ criterion_names)); [reflexivity | apply lookup_empty].
Qed.

Lemma aggregate_none :
  exists criteria,
    _aggregate_results None None
    = Ok (AggregateResults.mk (EvaluationStats.mk 0 0) criteria) /\
    forall k, criteria !! k =
      if decide (k ∈ criterion_names) then Some (CriterionStats.mk 0 0) else None.
Proof.
  destruct (zero_loop_spec criterion_names ∅) as (m & Hm & Hlook).
  exists m. split.
  - unfold _aggregate_results. rewrite Hm. reflexivity.
  - intros k. rewrite Hlook.
    destruct (decide (k ∈ criterion_names)); [reflexivity | apply lookup_empty].
Qed.

Lemma aggregate_temperature_only (tb : TemperatureBlock.t) :
  temperature_wf tb ->
  _aggregate_results (Some tb) None
  = Ok (AggregateResults.mk (TemperatureBlock.overall tb)
                            (TemperatureBlock.criteria tb)).
Proof.
  intros (Hs & _). unfold _aggregate_results. cbn [Py.bind].
  unfold EvaluationStats.new. rewrite (validate_std_ok _ Hs). cbn [Py.bind].
  destruct (TemperatureBlock.overall tb); reflexivity.
Qed.

Lemma aggregate_persona_only (pb : PersonaBlock.t) :
  persona_wf pb ->
  _aggregate_results None (Some pb)
  = Ok (AggregateResults.mk (PersonaBlock.overall pb)
                            (PersonaBlock.criteria pb)).
Proof.
  intros (Hs & _). unfold _aggregate_results. cbn [Py.bind].
  unfold EvaluationStats.new. rewrite (validate_std_ok _ Hs). cbn [Py.bind].
  destruct (PersonaBlock.overall pb); reflexivity.
Qed.


(** *** The invariant of the aggregate *)

(** Aggregation keeps the invariant of the blocks. *)
Lemma aggregate_results_wf (temperature_block : option TemperatureBlock.t)
  (persona_block : option PersonaBlock.t) :
  option_wf temperature_wf temperature_block ->
  option_wf persona_wf persona_block ->
  exists agg,
    _aggregate_results temperature_block persona_block = Ok agg /\
    stats_wf (AggregateResults.overall agg) (AggregateResults.criteria agg).
Proof.
  intros Ht Hp.
  destruct temperature_block as [tb|], persona_block as [pb|];
    cbn [option_wf] in Ht, Hp.
  - destruct (aggregate_both tb pb Ht Hp) as (criteria & Hagg & Hlook).
    eexists. split; [exact Hagg|].
    cbn [AggregateResults.overall AggregateResults.criteria].
    assert (Hk : forall k, In k criterion_names ->
              exists t p, TemperatureBlock.criteria tb !! k = Some t /\
                          PersonaBlock.criteria pb !! k = Some p /\
                          (0 <= CriterionStats.std t)%Q /\
                          criteria !! k = Some (combine t p)).
    { intros k Hin.
      destruct (stats_wf_lookup _ _ k Ht Hin) as (t & Hlt & Hst).
      destruct (stats_wf_lookup _ _ k Hp Hin) as (p & Hlp & _).
      exists t, p. repeat split; try assumption.
      rewrite Hlook, decide_True by (apply list_elem_of_In; exact Hin).
      unfold aggregated. rewrite Hlt, Hlp. reflexivity. }
    split; [|split].
    + cbn [EvaluationStats.std]. destruct Ht as (Ht0 & _).
      destruct (py_max_is_maximum (EvaluationStats.std (TemperatureBlock.overall tb))
                                  (EvaluationStats.std (PersonaBlock.overall pb)))
        as (_ & ? & _); lra.
    + intros k s Hs. rewrite Hlook in Hs.
      destruct (decide (k ∈ criterion_names)) as [Hin|]; [|discriminate].
      apply list_elem_of_In in Hin.
      destruct (Hk k Hin) as (t & p & Hlt & Hlp & Hst & _).
      unfold aggregated in Hs. rewrite Hlt, Hlp in Hs. injection Hs as <-.
      cbn [combine CriterionStats.std].
      destruct (py_max_is_maximum (CriterionStats.std t) (CriterionStats.std p))
        as (_ & ? & _); lra.
    + apply set_eq. intros k. rewrite elem_of_dom, in_criterion_set, Hlook.
      destruct (decide (k ∈ criterion_names)) as [Hin|Hnin].
      * apply list_elem_of_In in Hin. split; [auto|]. intros _.
        destruct (Hk k Hin) as (t & p & Hlt & Hlp & _ & _).
        unfold aggregated. rewrite Hlt, Hlp. eauto.
      * split; [intros [? ?]; discriminate|].
        intros Hin. exfalso. apply Hnin, list_elem_of_In, Hin.
  - eexists. split; [apply aggregate_temperature_only; exact Ht | exact Ht].
  - eexists. split; [apply aggregate_persona_only; exact Hp | exact Hp].
  - destruct aggregate_none as (criteria & Hagg & Hlook).
    eexists. split; [exact Hagg|].
    cbn [AggregateResults.overall AggregateResults.criteria].
    split; [cbn; lra|]. split.
    + intros k s Hs. rewrite Hlook in Hs.
      destruct (decide (k ∈ criterion_names)); [|discriminate].
      injection Hs as <-. cbn. lra.
    + apply set_eq. intros k. rewrite elem_of_dom, in_criterion_set, Hlook.
      destruct (decide (k ∈ criterion_names)) as [Hin|Hnin].
      * apply list_elem_of_In in Hin. split; eauto.
      * split; [intros [? ?]; discriminate|].
        intros Hin. exfalso. apply Hnin, list_elem_of_In, Hin.
Qed.

Section Invariant.

Context `{MathSqrtNonneg}.

(** The block a sweep returns satisfies the invariant. *)
Lemma expected_temperature_wf (entries : list PyVal.t)
  (runs : list GenericJudgeOutput.t) :
  option_wf temperature_wf
    (expected_block generic_fields GenericJudgeOutput.overall_creativity
       (fun overall criteria => TemperatureBlock.mk overall criteria entries) runs).
Proof.
  unfold expected_block. destruct (Nat.ltb (length runs) 4); [exact I|].
  cbn [option_wf]. unfold temperature_wf, stats_wf.
  cbn [TemperatureBlock.overall TemperatureBlock.criteria EvaluationStats.std].
  split; [apply sample_std_nonneg|].
  split; [|apply generic_inserted_dom].
  apply inserted_values; [|apply map_Forall_empty].
  intros field. apply sample_std_nonneg.
Qed.

Lemma expected_persona_wf (entries : list PyVal.t)
  (runs : list PersonaJudgeOutput.t) :
  option_wf persona_wf
    (expected_block persona_fields PersonaJudgeOutput.overall_creativity
       (fun overall criteria => PersonaBlock.mk overall criteria entries) runs).
Proof.
  unfold expected_block. destruct (Nat.ltb (length runs) 4); [exact I|].
  cbn [option_wf]. unfold persona_wf, stats_wf.
  cbn [PersonaBlock.overall PersonaBlock.criteria EvaluationStats.std].
  split; [apply sample_std_nonneg|].
  split; [|apply persona_inserted_dom].
  apply inserted_values; [|apply map_Forall_empty].
  intros field. apply sample_std_nonneg.
Qed.


End Invariant.


(** *** The sweeps and the aggregation at work *)

Lemma rational_sqrt_nonneg : @MathSqrtNonneg Stub.rational_sqrt.
Proof.
  intros x. unfold math_sqrt, Stub.rational_sqrt, Qle. cbn.
  pose proof (Z.sqrt_nonneg (Qnum x * Z.pos (Qden x))). lia.
Qed.


(** The default evaluator makes eight calls in each sweep. *)
Example default_sweeps_have_eight_calls :
  length (temperature_grid default) = 8%nat /\
  length (personas default) = 8%nat /\
  persona_temperature default = 0.3%Q.
Proof. repeat split. Qed.

(** Exactly 3 of the 8 temperature calls succeed: the block is absent,
    and all 8 calls were made. *)
Example three_of_eight_is_absent :
  exists w',
    _temperature_sweep (Sqrt := Stub.rational_sqrt)
      (Stub.scripted (Stub.among [1; 4; 6]%nat) Stub.one_then_three) default
      (Dump.VideoScript_model_dump Stub.sample_script) Stub.sample_context
      (Stub.start 0%nat)
    = (Ok None, w') /\ length (log w') = 8%nat.
Proof. eexists. split; vm_compute; reflexivity. Qed.

(** Exactly 4 of the 8 succeed, with overall scores 1, 3, 3, 3: the block
    is present, its mean is 2.5 and its std 1. *)
Example four_of_eight_is_present :
  exists b w',
    _temperature_sweep (Sqrt := Stub.rational_sqrt)
      (Stub.scripted (Stub.among [0; 2; 4; 6]%nat) Stub.one_then_three) default
      (Dump.VideoScript_model_dump Stub.sample_script) Stub.sample_context
      (Stub.start 0%nat)
    = (Ok (Some b), w') /\
    length (log w') = 8%nat /\
    Qred (EvaluationStats.mean (TemperatureBlock.overall b)) = (5 # 2)%Q /\
    Qred (EvaluationStats.std (TemperatureBlock.overall b)) = 1%Q /\
    length (TemperatureBlock.by_temperature b) = 4%nat.
Proof. eexists. eexists. repeat split; vm_compute; reflexivity. Qed.




(** That run in full: the temperature block is present (4 of 8), the
    persona block absent (2 of 8), and the aggregate is the temperature
    block's statistics. *)
Example one_block_present :
  exists tb agg w',
    score_script (Sqrt := Stub.rational_sqrt)
      (Stub.scripted (Stub.among [0; 2; 4; 6; 9; 11]%nat) Stub.one_then_three)
      default Stub.sample_content Stub.sample_context (Stub.start 0%nat)
    = (Ok (CreativityAssessmentResult.mk (Some tb) None agg None), w') /\
    length (log w') = 16%nat /\
    AggregateResults.overall agg = TemperatureBlock.overall tb /\
    AggregateResults.criteria agg = TemperatureBlock.criteria tb.
Proof. eexists. eexists. eexists. repeat split; vm_compute; reflexivity. Qed.

(** No call succeeds: both blocks are absent and the aggregate is all
    zeros, without an error. *)
Example both_blocks_absent :
  exists agg w',
    score_script (Sqrt := Stub.rational_sqrt) Stub.failing
      default Stub.sample_content Stub.sample_context (Stub.start tt)
    = (Ok (CreativityAssessmentResult.mk None None agg None), w') /\
    AggregateResults.overall agg = EvaluationStats.mk 0 0 /\
    AggregateResults.criteria agg = Stub.uniform_criteria 0 0.
Proof. eexists. eexists. repeat split; vm_compute; reflexivity. Qed.

End EvaluatorSpec.

(** ** The engine (engine.py) *)

Module EngineSpec.

Import LLM.


(** Without evaluate_creativity the evaluator is not run either. *)
Lemma no_evaluation_requested {St : Type}
  (generator_generate :
     list (string * PyVal.t) -> ContentType -> option (list string) ->
     M St GenerationResult.t)
  (evaluator_score_script :
     GenerationResult.Content -> list (string * PyVal.t) ->
     M St CreativityAssessmentResult.t)
  (product_context : list (string * PyVal.t)) (content_type : ContentType)
  (reference_examples : option (list string)) (w w1 : World St)
  (g : GenerationResult.t) :
  generator_generate product_context content_type reference_examples w
    = (Ok g, w1) ->
  CreativeEngine.generate generator_generate evaluator_score_script
    product_context content_type reference_examples false w
  = (Ok (EngineResult.mk g None (GenerationResult.generation_uuid g)), w1).
Proof.
  intros Hgen. unfold CreativeEngine.generate, LLM.bind. rewrite Hgen.
  reflexivity.
Qed.

(** A failure of generation is the request's failure, evaluation or not. *)
Lemma generation_failure_propagates {St : Type}
  (generator_generate :
     list (string * PyVal.t) -> ContentType -> option (list string) ->
     M St GenerationResult.t)
  (evaluator_score_script :
     GenerationResult.Content -> list (string * PyVal.t) ->
     M St CreativityAssessmentResult.t)
  (product_context : list (string * PyVal.t)) (content_type : ContentType)
  (reference_examples : option (list string)) (evaluate_creativity : bool)
  (w w1 : World St) (e : Exc) :
  generator_generate product_context content_type reference_examples w
    = (Raise e, w1) ->
  CreativeEngine.generate generator_generate evaluator_score_script
    product_context content_type reference_examples evaluate_creativity w
  = (Raise e, w1).
Proof.
  intros Hgen. unfold CreativeEngine.generate, LLM.bind. rewrite Hgen.
  reflexivity.
Qed.

(** With the registry as shipped, the generator the engine is wired to
    knows the video script only: a request for another content type ends
    in generation, before any call to the provider. *)
Lemma wired_unregistered_content_type `{Statistics.MathSqrt} {St : Type}
  (provider : LLMProvider St) (config : CreativityConfig.t) (fresh_uuid : string)
  (product_context : list (string * PyVal.t)) (content_type : ContentType)
  (reference_examples : option (list string)) (evaluate_creativity : bool)
  (w : World St) :
  content_type <> VIDEO_SCRIPT ->
  exists msg,
    CreativeEngine.generate_wired provider config fresh_uuid product_context
      content_type reference_examples evaluate_creativity w
    = (Raise (ValueError msg), w).
Proof.
  intros Hne. unfold CreativeEngine.generate_wired.
  destruct (GeneratorSpec.get_params_ok config) as (params & Hp & _).
  eexists. apply generation_failure_propagates.
  unfold ContentGenerator.generate, ContentGenerator._ideate, LLM.bind, LLM.lift.
  rewrite Hp.
  destruct content_type; try contradiction; reflexivity.
Qed.


(** The wired engine on a video script, with a provider that always
    answers: four calls of generation, then the sixteen of the two sweeps,
    and an evaluation in the result. *)
Example wired_request_with_evaluation :
  exists r w',
    CreativeEngine.generate_wired (Sqrt := Stub.rational_sqrt)
      (Stub.scripted (fun _ => true) (fun _ => 2%Q))
      Stub.sample_config "1730000000_ab12cd34" Stub.sample_context
      VIDEO_SCRIPT None true (Stub.start 0%nat)
    = (Ok r, w') /\
    length (log w') = 20%nat /\
    (exists a, EngineResult.evaluation r = Some a /\
       (EvaluationStats.mean
          (AggregateResults.overall (CreativityAssessmentResult.aggregate a))
        == 2)%Q /\
       (EvaluationStats.std
          (AggregateResults.overall (CreativityAssessmentResult.aggregate a))
        == 0)%Q).
Proof.
  eexists. eexists. split; [vm_compute; reflexivity|].
  split; [reflexivity|]. eexists. repeat split; reflexivity.
Qed.

End EngineSpec.

(** ** The generator's pipeline, stage by stage (generation/generator.py) *)

Module GeneratorFlow.

Import LLM Registry ContentGenerator.

Section Judging.

Context {St : Type}.
Variable provider : LLMProvider St.

(** Judging a list in two parts: the second part is judged from the world
    and the scores the first part left, unless the first part raised. *)
Lemma judge_loop_app (pre rest : list Concept.t)
  (product_context : list (string * PyVal.t)) (content_type : ContentType)
  (scored : list ScoredConcept.t) (w : World St) :
  judge_loop provider (pre ++ rest) product_context content_type scored w =
  match judge_loop provider pre product_context content_type scored w with
  | (Ok scored', w1) =>
      judge_loop provider rest product_context content_type scored' w1
  | (Raise e, w1) => (Raise e, w1)
  end.
Proof.
  revert scored w. induction pre as [|c pre IH]; intros scored w; [reflexivity|].
  cbn [app judge_loop]. unfold LLM.bind.
  destruct (_judge_concept provider c product_context content_type w)
    as [[score|e] w1]; [apply IH | reflexivity].
Qed.

Lemma judge_loop_ok (concepts : list Concept.t)
  (product_context : list (string * PyVal.t)) (content_type : ContentType)
  (definition : ContentDefinition) (acc scored : list ScoredConcept.t)
  (w w' : World St) :
  get_content_definition content_type = Ok definition ->
  judge_loop provider concepts product_context content_type acc w = (Ok scored, w') ->
  exists new,
    scored = acc ++ new /\
    map ScoredConcept.concept new = concepts /\
    log w' = log w ++ map (fun c => judge_call definition c product_context) concepts.
Proof.
  intros Hd. revert acc w.
  induction concepts as [|c rest IH]; intros acc w Hloop.
  - cbn in Hloop. injection Hloop as <- <-. exists [].
    rewrite !app_nil_r. auto.
  - cbn [judge_loop] in Hloop.
    unfold LLM.bind at 1, _judge_concept, LLM.bind, LLM.lift, LLM.call, LLM.ret in Hloop.
    rewrite Hd in Hloop.
    destruct (LLM.generate provider (judge_call definition c product_context)
                (oracle w)) as [[score|e] s1]; [|discriminate Hloop].
    apply IH in Hloop as (new & -> & Hmap & Hlog).
    exists (ScoredConcept.mk c score :: new).
    rewrite <- app_assoc. split; [reflexivity|].
    split; [cbn [map ScoredConcept.concept]; congruence|].
    rewrite Hlog. cbn [log map]. rewrite <- app_assoc. reflexivity.
Qed.

Lemma judge_all_concepts_shape_helper (concepts : list Concept.t)
  (product_context : list (string * PyVal.t)) (content_type : ContentType)
  (definition : ContentDefinition) (scored : list ScoredConcept.t)
  (w w' : World St) :
  get_content_definition content_type = Ok definition ->
  _judge_all_concepts provider concepts product_context content_type w
    = (Ok scored, w') ->
  map ScoredConcept.concept scored = concepts /\
  log w' = log w ++ map (fun c => judge_call definition c product_context) concepts.
Proof.
  intros Hd Hj. unfold _judge_all_concepts in Hj.
  destruct (judge_loop_ok _ _ _ _ _ _ _ _ Hd Hj) as (new & -> & Hmap & Hlog).
  cbn [app]. split; [exact Hmap | exact Hlog].
Qed.


(** X2.  Judging has no guard around a call: when the judge call of a
    concept fails after the concepts before it were judged, the whole
    batch raises that exception; the scores obtained so far are lost and
    the concepts after it are never judged. *)
Theorem judge_failure_aborts_batch (pre post : list Concept.t) (c : Concept.t)
  (product_context : list (string * PyVal.t)) (content_type : ContentType)
  (definition : ContentDefinition) (scored : list ScoredConcept.t)
  (w w1 : World St) (e : Exc) :
  get_content_definition content_type = Ok definition ->
  _judge_all_concepts provider pre product_context content_type w
    = (Ok scored, w1) ->
  fst (LLM.generate provider (judge_call definition c product_context) (oracle w1))
    = Raise e ->
  _judge_all_concepts provider (pre ++ c :: post) product_context content_type w
  = (Raise e,
     mkWorld (snd (LLM.generate provider
                     (judge_call definition c product_context) (oracle w1)))
             (log w1 ++ [judge_call definition c product_context])).
Proof.
  intros Hd Hpre Hfail. unfold _judge_all_concepts in *.
  rewrite judge_loop_app, Hpre. cbn [judge_loop].
  unfold LLM.bind at 1, _judge_concept, LLM.bind, LLM.lift, LLM.call, LLM.ret.
  rewrite Hd.
  destruct (LLM.generate provider (judge_call definition c product_context)
              (oracle w1)) as [r s1].
  cbn [fst snd] in *. rewrite Hfail. reflexivity.
Qed.

End Judging.

(** The selected concept is one of the scored concepts. *)
Lemma select_best_In (config : CreativityConfig.t)
  (scored : list ScoredConcept.t) (best : ScoredConcept.t) :
  _select_best_concept config scored = Ok best -> In best scored.
Proof.
  unfold _select_best_concept.
  destruct (_get_params config) as [params|e]; [|discriminate].
  cbn [Py.bind].
  set (keep := fun sc : ScoredConcept.t => Qle_bool _ _).
  destruct (List.filter keep scored) as [|v vs] eqn:Hf; cbn [PyList.truthy negb].
  - destruct scored as [|sc rest]; [discriminate|].
    intros H. injection H as <-. apply GeneratorSpec.max_key_In.
  - intros H. injection H as <-.
    pose proof (GeneratorSpec.max_key_In ScoredConcept.quality_score vs v) as Hin.
    rewrite <- Hf in Hin. apply filter_In in Hin. tauto.
Qed.

(** X3.  A generation that returns has gone through the whole pipeline, in
    order: one ideation call, one judge call per concept, one draft call
    for the selected concept, and nothing else.  The concepts are not
    empty, all of them are scored, the selected concept is one of them,
    and the result's score is that concept's score. *)
Theorem generate_anatomy {St : Type} (provider : LLMProvider St)
  (config : CreativityConfig.t) (fresh_uuid : string)
  (product_context : list (string * PyVal.t)) (content_type : ContentType)
  (reference_examples : option (list string)) (w w' : World St)
  (g : GenerationResult.t) :
  generate provider config fresh_uuid product_context content_type
           reference_examples w = (Ok g, w') ->
  exists params definition best,
    _get_params config = Ok params /\
    get_content_definition content_type = Ok definition /\
    GenerationResult.concepts g <> [] /\
    map ScoredConcept.concept (GenerationResult.scored_concepts g)
      = GenerationResult.concepts g /\
    _select_best_concept config (GenerationResult.scored_concepts g) = Ok best /\
    GenerationResult.selected_concept g = ScoredConcept.concept best /\
    GenerationResult.concept_score g = ScoredConcept.quality_score best /\
    In (GenerationResult.selected_concept g) (GenerationResult.concepts g) /\
    log w' = log w
             ++ [ideation_call params definition product_context reference_examples]
             ++ map (fun c => judge_call definition c product_context)
                    (GenerationResult.concepts g)
             ++ [draft_call params definition best product_context] /\
    GenerationResult.product_context g = product_context /\
    GenerationResult.reference_examples g = reference_examples.
Proof.
  unfold generate, LLM.bind at 1, _ideate, LLM.bind, LLM.lift, LLM.call, LLM.ret,
    LLM.throw.
  destruct (_get_params config) as [params|e] eqn:Hp; [|discriminate].
  destruct (get_content_definition content_type) as [definition|e] eqn:Hd;
    [|discriminate].
  destruct (LLM.generate provider
              (ideation_call params definition product_context reference_examples)
              (oracle w)) as [[out|e] s1]; [|discriminate].
  destruct (IdeationOutput.concepts out) as [|c cs] eqn:Hc;
    cbn [PyList.truthy negb]; [discriminate|].
  destruct (_judge_all_concepts provider (c :: cs) product_context content_type
              (mkWorld s1 (log w ++ [ideation_call params definition product_context
                                       reference_examples])))
    as [[scored|e] w2] eqn:Hj; [|discriminate].
  destruct (_select_best_concept config scored) as [best|e] eqn:Hs; [|discriminate].
  unfold _draft_content, LLM.bind, LLM.lift, LLM.call, LLM.ret.
  rewrite Hp, Hd.
  destruct (LLM.generate provider
              (draft_call params definition best product_context) (oracle w2))
    as [[content|e] s3]; [|discriminate].
  intros H. injection H as <- <-.
  destruct (judge_all_concepts_shape_helper provider (c :: cs)
              product_context content_type definition scored _ w2 Hd Hj)
    as (Hmap & Hlog).
  exists params, definition, best.
  cbn [GenerationResult.concepts GenerationResult.scored_concepts
       GenerationResult.selected_concept GenerationResult.concept_score
       GenerationResult.product_context GenerationResult.reference_examples log].
  repeat split; try reflexivity; try assumption.
  - discriminate.
  - rewrite <- Hmap. apply in_map. apply (select_best_In config). exact Hs.
  - rewrite Hlog. cbn [log]. rewrite <- !app_assoc. reflexivity.
Qed.

(** X4.  The registry holds the video script only: for any other content
    type [generate] raises a ValueError at once, before any call to the
    provider. *)
Theorem generate_unregistered_content_type {St : Type} (provider : LLMProvider St)
  (config : CreativityConfig.t) (fresh_uuid : string)
  (product_context : list (string * PyVal.t)) (content_type : ContentType)
  (reference_examples : option (list string)) (w : World St) :
  content_type <> VIDEO_SCRIPT ->
  exists msg,
    generate provider config fresh_uuid product_context content_type
             reference_examples w
    = (Raise (ValueError msg), w).
Proof.
  intros Hne.
  destruct (GeneratorSpec.get_params_ok config) as (params & Hp & _).
  unfold generate, LLM.bind at 1, _ideate, LLM.bind, LLM.lift.
  rewrite Hp.
  destruct content_type; try contradiction; eexists; reflexivity.
Qed.


(** The second of three judge calls fails: the batch raises, and the
    third concept is never judged. *)
Lemma judge_failure_aborts_batch_witness :
  exists e w',
    _judge_all_concepts (Stub.scripted (fun n => Nat.eqb n 0) (fun _ => 0.8%Q))
      ([Stub.sample_concept "A"] ++ Stub.sample_concept "B" :: [Stub.sample_concept "C"])
      Stub.sample_context VIDEO_SCRIPT (Stub.start 0%nat) = (Raise e, w') /\
    length (log w') = 2%nat.
Proof.
  destruct (_judge_all_concepts (Stub.scripted (fun n => Nat.eqb n 0) (fun _ => 0.8%Q))
              [Stub.sample_concept "A"] Stub.sample_context VIDEO_SCRIPT
              (Stub.start 0%nat))
    as [[scored|e0] w1] eqn:Hpre; [|vm_compute in Hpre; discriminate Hpre].
  assert (Hw1 : oracle w1 = 1%nat)
    by (vm_compute in Hpre; injection Hpre as _ <-; reflexivity).
  eexists. eexists. split.
  - eapply (judge_failure_aborts_batch _ _ _ _ _ VIDEO_SCRIPT _ _ _ _ _ eq_refl Hpre).
    rewrite Hw1. reflexivity.
  - cbn [log]. rewrite length_app.
    vm_compute in Hpre. injection Hpre as _ <-. reflexivity.
Defined.

Lemma generate_anatomy_witness :
  exists g w' best,
    generate (Stub.scripted (fun _ => true) (fun _ => 0.8%Q))
             Stub.sample_config "1730000000_ab12cd34"
             Stub.sample_context VIDEO_SCRIPT None (Stub.start 0%nat)
    = (Ok g, w') /\
    _select_best_concept Stub.sample_config (GenerationResult.scored_concepts g)
      = Ok best /\
    GenerationResult.selected_concept g = ScoredConcept.concept best /\
    In (GenerationResult.selected_concept g) (GenerationResult.concepts g) /\
    length (log w') = (2 + length (GenerationResult.concepts g))%nat.
Proof.
  destruct (generate (Stub.scripted (fun _ => true) (fun _ => 0.8%Q))
              Stub.sample_config "1730000000_ab12cd34"
              Stub.sample_context VIDEO_SCRIPT None (Stub.start 0%nat))
    as [[g|e] w'] eqn:Hg; [|vm_compute in Hg; discriminate Hg].
  destruct (generate_anatomy _ _ _ _ _ _ _ _ _ Hg)
    as (params & definition & best & _ & _ & _ & _ & Hs & Hsel & _ & Hin & Hlog & _).
  exists g, w', best. split; [reflexivity|].
  split; [exact Hs|]. split; [exact Hsel|]. split; [exact Hin|].
  rewrite Hlog. cbn [log Stub.start]. rewrite !length_app, length_map.
  cbn [length app]. lia.
Defined.

Lemma generate_unregistered_content_type_witness :
  LINKEDIN_POST <> VIDEO_SCRIPT /\
  exists msg,
    generate (Stub.scripted (fun _ => true) (fun _ => 0.8%Q))
             Stub.sample_config "1730000000_ab12cd34"
             Stub.sample_context LINKEDIN_POST None (Stub.start 0%nat)
    = (Raise (ValueError msg), Stub.start 0%nat).
Proof.
  split; [discriminate|].
  apply generate_unregistered_content_type. discriminate.
Defined.

End GeneratorFlow.

(** ** Sums, means and extrema of lists of floats *)

Module ListFacts.

Lemma len_cons {A} (x : A) (xs : list A) :
  (Py.len (x :: xs) == 1 + Py.len xs)%Q.
Proof.
  unfold Py.len. cbn [length]. rewrite Nat2Z.inj_succ.
  unfold Z.succ. rewrite inject_Z_plus.
  change (inject_Z 1) with 1%Q. ring.
Qed.

Lemma len_nonneg {A} (xs : list A) : (0 <= Py.len xs)%Q.
Proof.
  unfold Py.len. change 0%Q with (inject_Z 0). rewrite <- Zle_Qle. lia.
Qed.

Lemma len_pos {A} (xs : list A) : xs <> [] -> (0 < Py.len xs)%Q.
Proof.
  destruct xs as [|x rest]; [congruence|]. intros _.
  rewrite len_cons. pose proof (len_nonneg rest). lra.
Qed.

(** The sum of scores that all lie between [a] and [b] lies between [a]
    and [b] times their number. *)
Lemma sum_between (xs : list Q) (a b : Q) :
  (forall x, In x xs -> (a <= x <= b)%Q) ->
  (a * Py.len xs <= Py.sum xs <= b * Py.len xs)%Q.
Proof.
  induction xs as [|x rest IH]; intros Hall.
  - unfold Py.len, Py.sum. cbn [length fold_left].
    change (inject_Z (Z.of_nat 0)) with 0%Q. lra.
  - rewrite EvaluatorSpec.sum_cons, len_cons.
    assert (Hx : (a <= x <= b)%Q) by (apply Hall; left; reflexivity).
    assert (Hrest : (a * Py.len rest <= Py.sum rest <= b * Py.len rest)%Q)
      by (apply IH; intros y Hy; apply Hall; right; exact Hy).
    lra.
Qed.

(** So does their mean. *)
Lemma mean_between (xs : list Q) (a b : Q) :
  xs <> [] ->
  (forall x, In x xs -> (a <= x <= b)%Q) ->
  (a <= Py.sum xs / Py.len xs <= b)%Q.
Proof.
  intros Hne Hall.
  pose proof (len_pos xs Hne) as Hlen.
  destruct (sum_between xs a b Hall) as [Hlo Hhi].
  split.
  - apply Qle_shift_div_l; assumption.
  - apply Qle_shift_div_r; assumption.
Qed.



End ListFacts.

(** ** The serialized result and the engine's parameters *)

Module SerializationSpec.


(** The distribution of the five sample scores 0.4, 0.8, 0.9, 0.9, 0.6. *)
Example score_distribution_of_five :
  exists avg,
    PyVal.lookup "score_distribution"
      (GenerationResult.to_dict Stub.sample_result 1730000000 "2024-10-27 04:33:20")
    = Some (VDict [ ("min", VFloat 0.4); ("max", VFloat 0.9); ("avg", VFloat avg) ]) /\
    (avg == 0.72)%Q.
Proof. eexists. split; vm_compute; reflexivity. Qed.


(** The validation of EngineParameters, as a decision on the fields. *)
Lemma engine_parameters_new_cases (t p : Q) (n : Z) (q : Q) :
  EngineParameters.new t p n q =
  if Qle_bool 0 t && Qle_bool t 2 then
    if Qle_bool 0 p && Qle_bool p 1 then
      if (n <? 1)%Z then Raise (ValueError "num_branches must be at least 1")
      else Ok (EngineParameters.mk t p n q)
    else Raise (ValueError "top_p must be between 0.0 and 1.0")
  else Raise (ValueError "temperature should be between 0.0 and 2.0").
Proof.
  unfold EngineParameters.new, EngineParameters.post_init.
  cbn [EngineParameters.temperature EngineParameters.top_p
       EngineParameters.num_branches].
  destruct (Qle_bool 0 t && Qle_bool t 2); [|reflexivity].
  destruct (Qle_bool 0 p && Qle_bool p 1); [|reflexivity].
  destruct (n <? 1)%Z; reflexivity.
Qed.

(** X6.  Constructing EngineParameters succeeds exactly when temperature
    is in [0.0, 2.0], top_p in [0.0, 1.0] and num_branches at least 1, and
    raises a ValueError otherwise; quality_threshold is not checked at all,
    so a value accepted with one threshold is accepted with any other. *)
Theorem engine_parameters_validation (temperature top_p : Q) (num_branches : Z)
  (quality_threshold : Q) :
  (EngineParameters.new temperature top_p num_branches quality_threshold
     = Ok (EngineParameters.mk temperature top_p num_branches quality_threshold)
   <-> (0 <= temperature <= 2)%Q /\ (0 <= top_p <= 1)%Q /\ (1 <= num_branches)%Z) /\
  (~ ((0 <= temperature <= 2)%Q /\ (0 <= top_p <= 1)%Q /\ (1 <= num_branches)%Z)
   <-> exists msg,
         EngineParameters.new temperature top_p num_branches quality_threshold
         = Raise (ValueError msg)) /\
  (forall quality_threshold',
     (exists p, EngineParameters.new temperature top_p num_branches
                  quality_threshold = Ok p) ->
     exists p', EngineParameters.new temperature top_p num_branches
                  quality_threshold' = Ok p').
Proof.
  split; [|split].
  - rewrite engine_parameters_new_cases.
    destruct (Qle_bool 0 temperature) eqn:E1;
    destruct (Qle_bool temperature 2) eqn:E2;
    destruct (Qle_bool 0 top_p) eqn:E3;
    destruct (Qle_bool top_p 1) eqn:E4;
    destruct (num_branches <? 1)%Z eqn:E5;
    cbn [andb];
    repeat match goal with
    | H : Qle_bool _ _ = true |- _ => apply Qle_bool_iff in H
    | H : Qle_bool _ _ = false |- _ => apply PyFacts.Qle_bool_false in H
    | H : (_ <? _)%Z = true |- _ => apply Z.ltb_lt in H
    | H : (_ <? _)%Z = false |- _ => apply Z.ltb_ge in H
    end;
    (split;
     [ try discriminate; intros _; repeat split; assumption
     | intros [[? ?] [[? ?] ?]]; try reflexivity; exfalso; (lra || lia) ]).
  - rewrite engine_parameters_new_cases.
    destruct (Qle_bool 0 temperature) eqn:E1;
    destruct (Qle_bool temperature 2) eqn:E2;
    destruct (Qle_bool 0 top_p) eqn:E3;
    destruct (Qle_bool top_p 1) eqn:E4;
    destruct (num_branches <? 1)%Z eqn:E5;
    cbn [andb];
    repeat match goal with
    | H : Qle_bool _ _ = true |- _ => apply Qle_bool_iff in H
    | H : Qle_bool _ _ = false |- _ => apply PyFacts.Qle_bool_false in H
    | H : (_ <? _)%Z = true |- _ => apply Z.ltb_lt in H
    | H : (_ <? _)%Z = false |- _ => apply Z.ltb_ge in H
    end;
    (split;
     [ intros Hn; try (eexists; reflexivity);
       exfalso; apply Hn; repeat split; assumption
     | intros [msg Hm]; try discriminate Hm;
       intros [[? ?] [[? ?] ?]]; (lra || lia) ]).
  - intros q' [p Hp]. rewrite engine_parameters_new_cases in *.
    destruct (Qle_bool 0 temperature && Qle_bool temperature 2); [|discriminate].
    destruct (Qle_bool 0 top_p && Qle_bool top_p 1); [|discriminate].
    destruct (num_branches <? 1)%Z; [discriminate|].
    eexists. reflexivity.
Qed.

End SerializationSpec.

(** ** A whole evaluation (evaluation/evaluator.py) *)

Module EvaluatorFlow.

Import LLM Statistics CreativityEvaluator Expected.

Section ScoreScript.

Context `{MathSqrtNonneg} {St : Type}.
Variable provider : LLMProvider St.
Variable self : t.

(** [score_script], spelled out: the two expected blocks, their aggregate,
    and the calls of the two sweeps one after the other. *)
Lemma score_script_explicit (script : GenerationResult.Content)
  (product_context : list (string * PyVal.t)) (w : World St) :
  let script_json := GenerationResult.content_model_dump script in
  let user_prompt := build_generic_user_prompt product_context script_json in
  let s1 := after_temperature_sweep provider self script_json product_context
                                    (oracle w) in
  let truns := temperature_successes provider self script_json product_context
                                     (oracle w) in
  let pruns := persona_successes provider self script_json product_context s1 in
  let tb :=
    expected_block generic_fields GenericJudgeOutput.overall_creativity
      (fun overall criteria =>
         TemperatureBlock.mk overall criteria
           (map (fun ka => temperature_entry (fst ka) (snd ka)) truns))
      (map snd truns) in
  let pb :=
    expected_block persona_fields PersonaJudgeOutput.overall_creativity
      (fun overall criteria =>
         PersonaBlock.mk overall criteria
           (map (fun ka => persona_entry (fst ka) (snd ka)) pruns))
      (map snd pruns) in
  exists agg w',
    _aggregate_results tb pb = Ok agg /\
    score_script provider self script product_context w
      = (Ok (CreativityAssessmentResult.mk tb pb agg None), w') /\
    log w' = log w
             ++ map (temperature_call user_prompt) (temperature_grid self)
             ++ map (fun p => persona_call self p script_json product_context)
                    (personas self).
Proof.
  intros script_json user_prompt s1 truns pruns tb pb.
  assert (Ht : option_wf temperature_wf tb)
    by apply EvaluatorSpec.expected_temperature_wf.
  assert (Hp : option_wf persona_wf pb)
    by apply EvaluatorSpec.expected_persona_wf.
  destruct (EvaluatorSpec.aggregate_results_wf tb pb Ht Hp) as (agg & Hagg & _).
  exists agg. eexists. split; [exact Hagg|].
  unfold score_script, LLM.bind. fold script_json.
  rewrite EvaluatorSpec.temperature_sweep_spec.
  rewrite EvaluatorSpec.persona_sweep_spec. cbn [oracle log].
  fold user_prompt. fold truns.
  change (snd (temperature_outcomes provider user_prompt (temperature_grid self)
                 (oracle w))) with s1.
  fold pruns. fold tb. fold pb.
  unfold LLM.lift, LLM.ret. rewrite Hagg.
  split; [reflexivity|]. cbn [log]. rewrite <- app_assoc. reflexivity.
Qed.

End ScoreScript.

(** X7.  An evaluation never raises, whatever the provider does, and it
    always makes the same calls: one generic-judge call per temperature of
    the grid, then one persona-judge call per persona, in that order; the
    persona sweep runs whether or not the temperature sweep reached its
    quorum.  The result never carries raw judge outputs. *)
Theorem score_script_calls `{MathSqrtNonneg} {St : Type}
  (provider : LLMProvider St) (self : t) (script : GenerationResult.Content)
  (product_context : list (string * PyVal.t)) (w : World St) :
  let script_json := GenerationResult.content_model_dump script in
  exists r w',
    score_script provider self script product_context w = (Ok r, w') /\
    log w' = log w
             ++ map (temperature_call
                       (build_generic_user_prompt product_context script_json))
                    (temperature_grid self)
             ++ map (fun p => persona_call self p script_json product_context)
                    (personas self) /\
    CreativityAssessmentResult.raw_judge_outputs r = None.
Proof.
  intros script_json.
  destruct (score_script_explicit provider self script product_context w)
    as (agg & w' & _ & Hr & Hlog).
  eexists. exists w'. split; [exact Hr|]. split; [exact Hlog | reflexivity].
Qed.


(** X9.  The means stay within the judges' scores: when every successful
    answer of the two sweeps has its overall_creativity score between [lo]
    and [hi] (1.0 and 3.0, by the constraint on a criterion score), the
    overall mean of each block that is present is between [lo] and [hi],
    and so is the aggregate's, unless both blocks are absent and it is 0. *)
Theorem aggregate_mean_within_scores `{MathSqrtNonneg} {St : Type}
  (provider : LLMProvider St) (self : t) (script : GenerationResult.Content)
  (product_context : list (string * PyVal.t)) (w : World St) (lo hi : Q) :
  let script_json := GenerationResult.content_model_dump script in
  (forall jo,
     In jo (map snd (temperature_successes provider self script_json
                        product_context (oracle w))) ->
     (lo <= CriterionScore.score (GenericJudgeOutput.overall_creativity jo) <= hi)%Q) ->
  (forall jo,
     In jo (map snd (persona_successes provider self script_json product_context
                        (after_temperature_sweep provider self script_json
                           product_context (oracle w)))) ->
     (lo <= CriterionScore.score (PersonaJudgeOutput.overall_creativity jo) <= hi)%Q) ->
  exists r w',
    score_script provider self script product_context w = (Ok r, w') /\
    (forall b, CreativityAssessmentResult.temperature_block r = Some b ->
       (lo <= EvaluationStats.mean (TemperatureBlock.overall b) <= hi)%Q) /\
    (forall b, CreativityAssessmentResult.persona_block r = Some b ->
       (lo <= EvaluationStats.mean (PersonaBlock.overall b) <= hi)%Q) /\
    ((CreativityAssessmentResult.temperature_block r = None /\
      CreativityAssessmentResult.persona_block r = None /\
      EvaluationStats.mean
        (AggregateResults.overall (CreativityAssessmentResult.aggregate r)) = 0%Q) \/
     (lo <= EvaluationStats.mean
              (AggregateResults.overall (CreativityAssessmentResult.aggregate r))
         <= hi)%Q).
Proof.
  intros script_json Htemp Hpers.
  destruct (score_script_explicit provider self script product_context w)
    as (agg & w' & Hagg & Hr & _).
  cbv zeta in Hagg, Hr. fold script_json in Hagg, Hr.
  set (truns := map snd (temperature_successes provider self script_json
                           product_context (oracle w))) in *.
  set (pruns := map snd (persona_successes provider self script_json product_context
                           (after_temperature_sweep provider self script_json
                              product_context (oracle w)))) in *.
  assert (Hmean : forall (J : Type) (overall : J -> CriterionScore.t) (runs : list J),
            Nat.ltb (length runs) 4 = false ->
            (forall jo, In jo runs ->
               (lo <= CriterionScore.score (overall jo) <= hi)%Q) ->
            (lo <= arithmetic_mean
                     (map (fun e => CriterionScore.score (overall e)) runs) <= hi)%Q).
  { intros J overall runs Hq Hall. unfold arithmetic_mean.
    apply ListFacts.mean_between.
    - destruct runs; [discriminate Hq | discriminate].
    - intros x Hx. apply in_map_iff in Hx as (jo & <- & Hrun). apply Hall, Hrun. }
  set (tb := expected_block generic_fields _ _ truns) in *.
  set (pb := expected_block persona_fields _ _ pruns) in *.
  assert (Htb : forall b, tb = Some b ->
            (lo <= EvaluationStats.mean (TemperatureBlock.overall b) <= hi)%Q).
  { intros b. subst tb. unfold expected_block.
    destruct (Nat.ltb (length truns) 4) eqn:Hq; [discriminate|].
    intros Hb. injection Hb as <-.
    cbn [TemperatureBlock.overall EvaluationStats.mean].
    apply Hmean; assumption. }
  assert (Hpb : forall b, pb = Some b ->
            (lo <= EvaluationStats.mean (PersonaBlock.overall b) <= hi)%Q).
  { intros b. subst pb. unfold expected_block.
    destruct (Nat.ltb (length pruns) 4) eqn:Hq; [discriminate|].
    intros Hb. injection Hb as <-.
    cbn [PersonaBlock.overall EvaluationStats.mean].
    apply Hmean; assumption. }
  assert (Htwf : option_wf temperature_wf tb)
    by apply EvaluatorSpec.expected_temperature_wf.
  assert (Hpwf : option_wf persona_wf pb)
    by apply EvaluatorSpec.expected_persona_wf.
  eexists. exists w'. split; [exact Hr|].
  cbn [CreativityAssessmentResult.temperature_block
       CreativityAssessmentResult.persona_block
       CreativityAssessmentResult.aggregate].
  split; [exact Htb|]. split; [exact Hpb|].
  clearbody tb pb.
  destruct tb as [b1|], pb as [b2|]; cbn [option_wf] in Htwf, Hpwf.
  - right. destruct (EvaluatorSpec.aggregate_both b1 b2 Htwf Hpwf)
      as (criteria & Hboth & _).
    rewrite Hboth in Hagg. injection Hagg as <-.
    cbn [AggregateResults.overall EvaluationStats.mean].
    pose proof (Htb b1 eq_refl). pose proof (Hpb b2 eq_refl).
    split.
    + apply Qle_shift_div_l; lra.
    + apply Qle_shift_div_r; lra.
  - right. rewrite (EvaluatorSpec.aggregate_temperature_only b1 Htwf) in Hagg.
    injection Hagg as <-. cbn [AggregateResults.overall]. apply Htb. reflexivity.
  - right. rewrite (EvaluatorSpec.aggregate_persona_only b2 Hpwf) in Hagg.
    injection Hagg as <-. cbn [AggregateResults.overall]. apply Hpb. reflexivity.
  - left. destruct EvaluatorSpec.aggregate_none as (criteria & Hnone & _).
    rewrite Hnone in Hagg. injection Hagg as <-. auto.
Qed.

Lemma score_script_calls_witness :
  exists r w',
    score_script (Sqrt := Stub.rational_sqrt) Stub.failing default
      Stub.sample_content Stub.sample_context (Stub.start tt) = (Ok r, w') /\
    length (log w') = 16%nat.
Proof.
  destruct (score_script_calls (H0 := EvaluatorSpec.rational_sqrt_nonneg)
              Stub.failing default Stub.sample_content Stub.sample_context
              (Stub.start tt)) as (r & w' & Hr & Hlog & _).
  exists r, w'. split; [exact Hr|]. rewrite Hlog. reflexivity.
Defined.


Lemma aggregate_mean_within_scores_witness :
  exists r w',
    score_script (Sqrt := Stub.rational_sqrt)
      (Stub.scripted (Stub.among [0; 2; 4; 6; 9; 11]%nat) Stub.one_then_three)
      default Stub.sample_content Stub.sample_context (Stub.start 0%nat)
    = (Ok r, w') /\
    (1 <= EvaluationStats.mean
            (AggregateResults.overall (CreativityAssessmentResult.aggregate r))
       <= 3)%Q.
Proof.
  destruct (aggregate_mean_within_scores
              (H0 := EvaluatorSpec.rational_sqrt_nonneg)
              (Stub.scripted (Stub.among [0; 2; 4; 6; 9; 11]%nat) Stub.one_then_three)
              default Stub.sample_content Stub.sample_context (Stub.start 0%nat)
              1 3) as (r & w' & Hr & _ & _ & Hagg).
  - intros jo Hin. vm_compute in Hin.
    repeat (destruct Hin as [<-|Hin]; [split; unfold Qle; cbn; lia|]).
    destruct Hin.
  - intros jo Hin. vm_compute in Hin.
    repeat (destruct Hin as [<-|Hin]; [split; unfold Qle; cbn; lia|]).
    destruct Hin.
  - exists r, w'. split; [exact Hr|].
    destruct Hagg as [(Hnone & _)|Hin]; [|exact Hin].
    exfalso. vm_compute in Hr. injection Hr as <- _. discriminate Hnone.
Defined.

End EvaluatorFlow.

(** ** Artifact files (generator.py, evaluator.py, engine.py) *)

Module ArtifactSpec.

Import Artifacts Reference.



Ltac by_cases_on_char c :=
  destruct c as [[] [] [] [] [] [] [] []]; vm_compute; try reflexivity;
  try discriminate; auto.

Lemma kept_then_safe (c : ascii) :
  kept_char c = true ->
  safe_char (PyStr.lower_char (if Ascii.eqb c " " then "_"%char else c)) = true.
Proof. by_cases_on_char c. Qed.

Lemma safe_fixed (c : ascii) :
  safe_char c = true ->
  kept_char c = true /\ PyStr.isspace c = false /\
  (if Ascii.eqb c " " then "_"%char else c) = c /\ PyStr.lower_char c = c.
Proof. by_cases_on_char c. Qed.

Lemma chars_of_chars (l : list ascii) : PyStr.chars (PyStr.of_chars l) = l.
Proof. apply String.list_ascii_of_string_of_list_ascii. Qed.

Lemma lstrip_chars_suffix (l : list ascii) :
  exists dropped, l = dropped ++ PyStr.lstrip_chars l.
Proof.
  induction l as [|c rest [dropped IH]]; [exists []; reflexivity|].
  cbn [PyStr.lstrip_chars]. destruct (PyStr.isspace c).
  - exists (c :: dropped). cbn [app]. congruence.
  - exists []. reflexivity.
Qed.

Lemma lstrip_chars_Forall (P : ascii -> Prop) (l : list ascii) :
  List.Forall P l -> List.Forall P (PyStr.lstrip_chars l).
Proof.
  intros H. destruct (lstrip_chars_suffix l) as [dropped Hl].
  rewrite Hl in H. apply List.Forall_app in H. tauto.
Qed.

Lemma strip_chars_Forall (P : ascii -> Prop) (l : list ascii) :
  List.Forall P l -> List.Forall P (PyStr.strip_chars l).
Proof.
  intros H. unfold PyStr.strip_chars.
  apply List.Forall_rev, lstrip_chars_Forall, List.Forall_rev, lstrip_chars_Forall, H.
Qed.

(** The characters of a sanitized title, before the cut at 50. *)
Lemma sanitized_chars_safe (l : list ascii) :
  List.Forall (fun c => safe_char c = true)
    (map PyStr.lower_char
       (PyStr.replace_char " " "_" (PyStr.strip_chars (List.filter kept_char l)))).
Proof.
  assert (Hkept : List.Forall (fun c => kept_char c = true)
                    (PyStr.strip_chars (List.filter kept_char l))).
  { apply strip_chars_Forall. apply List.Forall_forall.
    intros c Hc. apply filter_In in Hc. tauto. }
  induction Hkept as [|c rest Hc _ IH]; [constructor|].
  cbn [PyStr.replace_char map]. constructor; [|exact IH].
  apply kept_then_safe, Hc.
Qed.

Lemma sanitized_title_is_safe_helper (title : string) :
  (length (PyStr.chars (sanitized_title title)) <= 50)%nat /\
  List.Forall (fun c => safe_char c = true) (PyStr.chars (sanitized_title title)).
Proof.
  unfold sanitized_title. rewrite chars_of_chars. split.
  - apply firstn_le_length.
  - apply List.Forall_forall. intros c Hc.
    pose proof (sanitized_chars_safe (PyStr.chars title)) as Hall.
    rewrite List.Forall_forall in Hall. apply Hall.
    rewrite <- (firstn_skipn 50). apply in_or_app. left. exact Hc.
Qed.

(** X10.  The sanitized title that names an artifact file is at most 50
    characters long and made of lower-case letters, digits, hyphens and
    underscores only, for every title of ASCII characters: no space, no
    dot and no path separator can come from a concept title. *)
Theorem sanitized_title_is_safe (title : string) :
  PyStr.isascii title = true ->
  (length (PyStr.chars (sanitized_title title)) <= 50)%nat /\
  List.Forall (fun c => safe_char c = true) (PyStr.chars (sanitized_title title)).
Proof.
  intros _. apply sanitized_title_is_safe_helper.
Qed.

Lemma lstrip_chars_id (l : list ascii) :
  List.Forall (fun c => PyStr.isspace c = false) l -> PyStr.lstrip_chars l = l.
Proof.
  intros H. destruct H as [|c rest Hc _]; [reflexivity|].
  cbn [PyStr.lstrip_chars]. rewrite Hc. reflexivity.
Qed.

Lemma sanitize_safe_chars (l : list ascii) :
  List.Forall (fun c => safe_char c = true) l ->
  map PyStr.lower_char
    (PyStr.replace_char " " "_" (PyStr.strip_chars (List.filter kept_char l))) = l.
Proof.
  intros H.
  assert (Hfilter : List.filter kept_char l = l).
  { induction H as [|c rest Hc _ IH]; [reflexivity|].
    cbn [List.filter]. destruct (safe_fixed c Hc) as (-> & _). congruence. }
  assert (Hspace : List.Forall (fun c => PyStr.isspace c = false) l).
  { eapply List.Forall_impl; [|exact H]. intros c Hc. apply (safe_fixed c Hc). }
  rewrite Hfilter. unfold PyStr.strip_chars.
  rewrite (lstrip_chars_id l Hspace).
  rewrite (lstrip_chars_id (rev l)) by (apply List.Forall_rev; exact Hspace).
  rewrite rev_involutive. clear Hfilter Hspace.
  induction H as [|c rest Hc _ IH]; [reflexivity|].
  cbn [PyStr.replace_char map].
  destruct (safe_fixed c Hc) as (_ & _ & -> & ->).
  f_equal. exact IH.
Qed.

(** X11.  Sanitizing is idempotent: a title that is already sanitized is
    left as it is, so a file name computed from its own sanitized title
    does not change. *)
Theorem sanitized_title_idempotent (title : string) :
  PyStr.isascii title = true ->
  sanitized_title (sanitized_title title) = sanitized_title title.
Proof.
  intros Hascii.
  destruct (sanitized_title_is_safe_helper title) as [Hlen Hsafe].
  unfold sanitized_title at 1.
  fold kept_char. rewrite (sanitize_safe_chars _ Hsafe).
  rewrite firstn_all2 by exact Hlen.
  unfold PyStr.of_chars, PyStr.chars.
  apply String.string_of_list_ascii_of_string.
Qed.


Example sanitized_title_of_headline :
  sanitized_title "  The 5-Minute Reset: Work, Un-Interrupted!  "
  = "the_5-minute_reset_work_un-interrupted"%string.
Proof. vm_compute. reflexivity. Qed.

Lemma sanitized_title_is_safe_witness :
  PyStr.isascii "Deep Work / Zero Pings (v2.0) for the whole remote team, every day" = true /\
  ((length (PyStr.chars (sanitized_title
      "Deep Work / Zero Pings (v2.0) for the whole remote team, every day")) <= 50)%nat /\
   List.Forall (fun c => safe_char c = true)
     (PyStr.chars (sanitized_title
        "Deep Work / Zero Pings (v2.0) for the whole remote team, every day"))).
Proof.
  split; [reflexivity|].
  apply (sanitized_title_is_safe
           "Deep Work / Zero Pings (v2.0) for the whole remote team, every day").
  reflexivity.
Defined.

Lemma sanitized_title_idempotent_witness :
  PyStr.isascii "  The 5-Minute Reset: Work, Un-Interrupted!  " = true /\
  sanitized_title (sanitized_title "  The 5-Minute Reset: Work, Un-Interrupted!  ")
  = sanitized_title "  The 5-Minute Reset: Work, Un-Interrupted!  ".
Proof.
  split; [reflexivity|].
  apply (sanitized_title_idempotent "  The 5-Minute Reset: Work, Un-Interrupted!  ").
  reflexivity.
Defined.

(** Two strings with prefixes of the same length are equal only when the
    prefixes and the rests are. *)
Lemma append_same_length (a b x y : string) :
  String.length a = String.length b ->
  (a ++ x = b ++ y)%string -> a = b /\ x = y.
Proof.
  revert b. induction a as [|c a IH]; intros [|d b] Hlen Heq;
    try discriminate Hlen.
  - split; [reflexivity | exact Heq].
  - cbn in Hlen, Heq. injection Hlen as Hlen. injection Heq as -> Heq.
    destruct (IH b Hlen Heq) as [-> ->]. split; reflexivity.
Qed.

Lemma append_length (a b : string) :
  String.length (a ++ b) = (String.length a + String.length b)%nat.
Proof.
  induction a as [|c a IH]; [reflexivity|].
  change (S (String.length (a ++ b)) = S (String.length a + String.length b)).
  f_equal. exact IH.
Qed.

(** A generation file and an evaluation file never have the same name,
    whatever the uuids and the titles: the two infixes have the same
    length, so equal names would have equal uuids and then differ at the
    infix. *)
Lemma filenames_differ (uuid1 uuid2 title : string) :
  generation_filename uuid1 title <> evaluation_filename uuid2 title.
Proof.
  unfold generation_filename, evaluation_filename. intros Heq.
  assert (Hlen : String.length uuid1 = String.length uuid2).
  { apply (f_equal String.length) in Heq.
    rewrite !append_length in Heq. cbn [String.length] in Heq. lia. }
  destruct (append_same_length _ _ _ _ Hlen Heq) as [_ Hrest].
  cbn in Hrest. discriminate Hrest.
Qed.

(** X12.  Saving the artifacts of a result: the generation file holds
    the dict of [to_dict()]; when the result carries an evaluation, a
    second file in the same directory holds it, and its path is never the
    generation file's, so neither write replaces the other; without an
    evaluation no second path is returned; every other file is left as it
    was. *)
Theorem save_artifacts_writes_separate_files (result : EngineResult.t)
  (directory : string) (timestamp : Q) (iso_timestamp : string)
  (files : gmap (string * string) Json) :
  let out := save_artifacts result directory timestamp iso_timestamp files in
  let gen_path := fst (fst out) in
  let files' := snd out in
  fst gen_path = directory /\
  files' !! gen_path
  = Some (GenerationJson
            (GenerationResult.to_dict (EngineResult.generation result)
                                      timestamp iso_timestamp)) /\
  match EngineResult.evaluation result with
  | Some assessment =>
      exists eval_path,
        snd (fst out) = Some eval_path /\
        fst eval_path = directory /\
        eval_path <> gen_path /\
        files' !! eval_path = Some (EvaluationJson assessment)
  | None => snd (fst out) = None
  end /\
  (forall p, p <> gen_path -> Some p <> snd (fst out) -> files' !! p = files !! p).
Proof.
  unfold save_artifacts, save_artifact, save_assessment.
  destruct (EngineResult.evaluation result) as [assessment|]; cbn [fst snd].
  - assert (Hne : (directory,
                   evaluation_filename (EngineResult.uuid result)
                     (Concept.title (GenerationResult.selected_concept
                                       (EngineResult.generation result))))
                  <> (directory,
                      generation_filename
                        (GenerationResult.generation_uuid (EngineResult.generation result))
                        (Concept.title (GenerationResult.selected_concept
                                          (EngineResult.generation result))))).
    { intros Heq. injection Heq as Heq. symmetry in Heq.
      exact (filenames_differ _ _ _ Heq). }
    split; [reflexivity|]. split.
    + rewrite lookup_insert_ne by exact Hne. apply lookup_insert_eq.
    + split.
      * eexists. split; [reflexivity|]. split; [reflexivity|].
        split; [exact Hne | apply lookup_insert_eq].
      * intros p Hgen Heval.
        rewrite lookup_insert_ne by congruence.
        rewrite lookup_insert_ne by congruence. reflexivity.
  - split; [reflexivity|]. split; [apply lookup_insert_eq|].
    split; [reflexivity|].
    intros p Hgen _. rewrite lookup_insert_ne by congruence. reflexivity.
Qed.

End ArtifactSpec.

(** ** The engine with its own generator and evaluator (engine.py) *)

Module EngineFlow.

Import LLM Statistics CreativityEvaluator.

(** X13.  In the engine as [__init__] wires it, a video-script request
    with [evaluate_creativity] always carries an evaluation once the
    generation has returned: the evaluator built by the engine never
    raises, so the engine's [except] branch is not taken, whatever the
    provider answers.  The evaluation costs exactly the 16 calls of the
    default grid and persona list, made after the generation's calls, and
    the result's uuid is the generation's. *)
Theorem wired_video_evaluation_is_present `{MathSqrtNonneg} {St : Type}
  (provider : LLMProvider St) (config : CreativityConfig.t) (fresh_uuid : string)
  (product_context : list (string * PyVal.t))
  (reference_examples : option (list string))
  (w w1 : World St) (gen_result : GenerationResult.t) :
  ContentGenerator.generate provider config fresh_uuid product_context
    VIDEO_SCRIPT reference_examples w = (Ok gen_result, w1) ->
  let script_json :=
    GenerationResult.content_model_dump (GenerationResult.content gen_result) in
  exists assessment w',
    CreativeEngine.generate_wired provider config fresh_uuid product_context
      VIDEO_SCRIPT reference_examples true w
    = (Ok (EngineResult.mk gen_result (Some assessment)
             (GenerationResult.generation_uuid gen_result)), w') /\
    log w' = log w1
             ++ map (temperature_call
                       (build_generic_user_prompt product_context script_json))
                    (temperature_grid default)
             ++ map (fun p => persona_call default p script_json product_context)
                    (personas default) /\
    length (log w') = (length (log w1) + 16)%nat.
Proof.
  intros Hgen script_json.
  destruct (EvaluatorFlow.score_script_explicit provider default
              (GenerationResult.content gen_result) product_context w1)
    as (agg & w' & _ & Hscore & Hlog).
  eexists. exists w'. split; [|split].
  - unfold CreativeEngine.generate_wired, CreativeEngine.generate, LLM.bind.
    rewrite Hgen. cbn [ContentType_eqb]. unfold LLM.try, LLM.bind.
    rewrite Hscore. reflexivity.
  - exact Hlog.
  - rewrite Hlog. rewrite !length_app, !length_map. reflexivity.
Qed.


Lemma wired_video_evaluation_is_present_witness :
  exists gen_result w1 assessment w',
    ContentGenerator.generate (Stub.scripted (fun _ => true) (fun _ => 0.8%Q))
      Stub.sample_config "1730000000_ab12cd34" Stub.sample_context
      VIDEO_SCRIPT None (Stub.start 0%nat) = (Ok gen_result, w1) /\
    CreativeEngine.generate_wired (Sqrt := Stub.rational_sqrt)
      (Stub.scripted (fun _ => true) (fun _ => 0.8%Q))
      Stub.sample_config "1730000000_ab12cd34" Stub.sample_context
      VIDEO_SCRIPT None true (Stub.start 0%nat)
    = (Ok (EngineResult.mk gen_result (Some assessment)
             (GenerationResult.generation_uuid gen_result)), w') /\
    length (log w') = (length (log w1) + 16)%nat.
Proof.
  destruct (ContentGenerator.generate
              (Stub.scripted (fun _ => true) (fun _ => 0.8%Q))
              Stub.sample_config "1730000000_ab12cd34" Stub.sample_context
              VIDEO_SCRIPT None (Stub.start 0%nat))
    as [[gen_result|e] w1] eqn:Hgen; [|vm_compute in Hgen; discriminate Hgen].
  destruct (wired_video_evaluation_is_present
              (H0 := EvaluatorSpec.rational_sqrt_nonneg)
              _ _ _ _ _ _ _ _ Hgen) as (assessment & w' & Hrun & _ & Hlen).
  exists gen_result, w1, assessment, w'.
  split; [reflexivity|]. split; [exact Hrun | exact Hlen].
Defined.

End EngineFlow.

(** ** Building the engine (engine.py, core/llm.py) *)

Module EngineInitSpec.

Import Providers CreativeEngineInit Reference Sample.



Lemma new_provider_ok (v : Vendor) (model : string) (api_key : option string)
  (environ : gmap string string) (created : Providers.t) :
  Providers.new v model api_key environ = Ok created ->
  vendor created = v /\ model_name created = model /\
  PyStr.truthy (Providers.api_key created) = true /\
  expected_key v api_key environ = Some (Providers.api_key created).
Proof.
  unfold Providers.new, key_or_getenv, expected_key.
  destruct api_key as [[|c rest]|]; cbn [PyStr.truthy_opt PyStr.truthy].
  - destruct (environ !! key_variable v) as [key|]; [|discriminate].
    destruct (PyStr.truthy key) eqn:Hkey; [|discriminate].
    intros [= <-]. cbn. auto.
  - intros [= <-]. cbn. auto.
  - destruct (environ !! key_variable v) as [key|]; [|discriminate].
    destruct (PyStr.truthy key) eqn:Hkey; [|discriminate].
    intros [= <-]. cbn. auto.
Qed.

Lemma create_provider_ok (model : string) (api_key : option string)
  (environ : gmap string string) (created : Providers.t) :
  create_provider_from_model model api_key environ = Ok created ->
  existsb (PyStr.startswith (PyStr.lower model)) (prefixes (vendor created)) = true /\
  model_name created = model /\
  PyStr.truthy (Providers.api_key created) = true /\
  expected_key (vendor created) api_key environ = Some (Providers.api_key created).
Proof.
  unfold create_provider_from_model.
  destruct (PyStr.startswith (PyStr.lower model) "gpt-") eqn:Hgpt;
    [|destruct (PyStr.startswith (PyStr.lower model) "o1-") eqn:Ho1;
      [|destruct (PyStr.startswith (PyStr.lower model) "claude-") eqn:Hclaude;
        [|destruct (PyStr.startswith (PyStr.lower model) "gemini-") eqn:Hgemini;
          [|discriminate]]]];
    cbn [orb]; intros Hnew;
    destruct (new_provider_ok _ _ _ _ _ Hnew) as (Hv & Hm & Hk & He);
    rewrite Hv in *; cbn [prefixes existsb];
    rewrite ?Hgpt, ?Ho1, ?Hclaude, ?Hgemini; auto.
Qed.

(** X14.  Every engine that [CreativeEngine(...)] builds holds the
    configuration it was given and either the caller's provider, when no
    model name (or an empty one) was passed, or a provider created for the
    model name, when no provider was passed: never both.  A created
    provider keeps the model name as written, belongs to the vendor whose
    prefix the lower-cased name starts with, and has a non-empty key: the
    caller's when that is non-empty, otherwise the value of the vendor's
    environment variable. *)
Theorem engine_init_invariant {P : Type} (config : CreativityConfig.t)
  (model : option string) (given : option P) (api_key : option string)
  (environ : gmap string string) (engine : CreativeEngineInit.t P) :
  CreativeEngineInit.new config model given api_key environ = Ok engine ->
  CreativeEngineInit.config engine = config /\
  match CreativeEngineInit.provider engine with
  | Given p => given = Some p /\ PyStr.truthy_opt model = false
  | Created created =>
      given = None /\
      model = Some (model_name created) /\
      PyStr.truthy (model_name created) = true /\
      existsb (PyStr.startswith (PyStr.lower (model_name created)))
              (prefixes (vendor created)) = true /\
      PyStr.truthy (Providers.api_key created) = true /\
      expected_key (vendor created) api_key environ
        = Some (Providers.api_key created)
  end.
Proof.
  unfold CreativeEngineInit.new, given_provider.
  destruct model as [model|]; cbn [PyStr.truthy_opt];
    [destruct (PyStr.truthy model) eqn:Hmodel|];
    destruct given as [p|]; cbn [is_some andb negb]; try discriminate.
  - destruct (create_provider_from_model model api_key environ) as [created|e] eqn:Hc;
      [|discriminate].
    cbn [Py.bind]. intros [= <-]. cbn [CreativeEngineInit.config CreativeEngineInit.provider].
    destruct (create_provider_ok _ _ _ _ Hc) as (Hp & Hm & Hk & He).
    rewrite Hm. auto 10.
  - intros [= <-]. cbn. auto.
  - intros [= <-]. cbn. auto.
Qed.


Lemma engine_init_invariant_witness :
  exists engine : CreativeEngineInit.t unit,
    CreativeEngineInit.new Stub.sample_config (Some "Claude-3-5-Sonnet") None
      (Some "") sample_environ = Ok engine /\
    CreativeEngineInit.provider engine
    = Created (Providers.mk Anthropic "Claude-3-5-Sonnet" "sk-ant-0001").
Proof.
  destruct (CreativeEngineInit.new (P := unit) Stub.sample_config
              (Some "Claude-3-5-Sonnet") None (Some "") sample_environ)
    as [engine|e] eqn:Hnew; [|vm_compute in Hnew; discriminate Hnew].
  pose proof (engine_init_invariant _ _ _ _ _ _ Hnew) as [_ Hinv].
  exists engine. split; [reflexivity|].
  vm_compute in Hnew. injection Hnew as <-. reflexivity.
Defined.

(** An empty key in the environment is no key, and an empty model name is
    no model name. *)
Example empty_environment_key_is_rejected :
  exists msg,
    CreativeEngineInit.new (P := unit) Stub.sample_config (Some "gpt-4o") None None
      sample_environ = Raise (ValueError msg).
Proof. eexists. vm_compute. reflexivity. Qed.

Example empty_model_name_is_no_model :
  CreativeEngineInit.new Stub.sample_config (Some "") (Some tt) None sample_environ
  = Ok (CreativeEngineInit.mk (Given tt) Stub.sample_config).
Proof. reflexivity. Qed.

End EngineInitSpec.

(** ** The comparison benchmark (comparison_benchmark.py) *)

Module BenchmarkSpec.

Import LLM Benchmark Reference Sample.

Section Converter.

Variable extract : string -> string * string.




Lemma scene_kwargs_validate (i n : nat) (prompt : string) :
  Hydrate.Scene_model_validate (VDict (scene_kwargs extract i n prompt))
  = Ok (scene_of extract i n prompt).
Proof.
  assert (Hdump : VDict (scene_kwargs extract i n prompt)
                  = Dump.Scene_model_dump (scene_of extract i n prompt)).
  { unfold scene_kwargs, scene_of, Dump.Scene_model_dump, role_at, role_of_position.
    destruct (extract prompt) as [visual dialogue]. cbn [fst snd].
    cbn [Scene.id Scene.start_sec Scene.end_sec Scene.role Scene.visual
         Scene.camera Scene.action Scene.dialogue Scene.on_screen_text
         Scene.audio Scene.notes_for_model PyVal.of_option_str].
    destruct (Nat.eqb i 0); [reflexivity|].
    destruct (Nat.eqb i (n - 1)); [reflexivity|].
    destruct (Nat.eqb i 1); reflexivity. }
  rewrite Hdump. apply RoundTripSpec.Scene_roundtrip.
  unfold Hydrate.Scene_constraints, scene_of.
  cbn [Scene.start_sec Scene.end_sec].
  apply andb_true_intro. split; apply Qle_bool_iff.
  - apply Qmult_le_0_compat; [|discriminate].
    change 0%Q with (inject_Z 0). rewrite <- Zle_Qle. lia.
  - apply Qmult_le_0_compat; [|discriminate].
    change 0%Q with (inject_Z 0). rewrite <- Zle_Qle. lia.
Qed.

Lemma convert_loop_ok (parts : list string) (i n : nat) (scenes : list Scene.t)
  (total_duration : Q) :
  convert_loop extract i n parts scenes total_duration
  = Ok (scenes ++ scenes_from extract i n parts,
        match parts with
        | [] => total_duration
        | _ :: _ => (inject_Z (Z.of_nat (i + length parts - 1) + 1) * 10)%Q
        end).
Proof.
  revert i scenes total_duration.
  induction parts as [|prompt rest IH]; intros i scenes total_duration.
  - cbn. rewrite app_nil_r. reflexivity.
  - cbn [convert_loop scenes_from]. rewrite scene_kwargs_validate.
    cbn [Py.bind]. rewrite IH. rewrite <- app_assoc. cbn [app].
    destruct rest as [|prompt' rest'].
    + cbn [length]. replace (i + 1 - 1)%nat with i by lia. reflexivity.
    + cbn [length]. do 4 f_equal. lia.
Qed.

Lemma int_of_tens (k : Z) : Py.int (inject_Z k * 10) = (k * 10)%Z.
Proof. unfold Py.int. cbn. apply Z.quot_1_r. Qed.

Lemma convert_ok (prompt : string) (rest : list string) (name : string) :
  let parts := prompt :: rest in
  convert_baseline_to_videoscript extract parts name
  = Ok (VideoScript.mk
          (VideoMeta.mk (Z.of_nat (length parts) * 10) tiktok)
          (scenes_from extract 0 (length parts) parts)).
Proof.
  intros parts. unfold convert_baseline_to_videoscript. subst parts.
  rewrite convert_loop_ok. cbn [Py.bind app]. rewrite int_of_tens.
  unfold Hydrate.VideoMeta_model_validate. cbn.
  do 3 f_equal. lia.
Qed.

Lemma scenes_from_length (parts : list string) (i n : nat) :
  length (scenes_from extract i n parts) = length parts.
Proof.
  revert i. induction parts as [|p rest IH]; intros i; cbn; [reflexivity|].
  rewrite IH. reflexivity.
Qed.

Lemma scenes_from_nth (parts : list string) (i n k : nat) (scene : Scene.t) :
  nth_error (scenes_from extract i n parts) k = Some scene ->
  exists prompt, nth_error parts k = Some prompt /\ scene = scene_of extract (i + k) n prompt.
Proof.
  revert i k. induction parts as [|p rest IH]; intros i k H.
  - destruct k; discriminate H.
  - destruct k as [|k]; cbn in H.
    + injection H as <-. exists p. rewrite Nat.add_0_r. split; reflexivity.
    + destruct (IH (S i) k H) as (prompt & Hp & ->).
      exists prompt. split; [exact Hp|]. f_equal. lia.
Qed.

Lemma scene_of_constraints (i n : nat) (prompt : string) :
  Hydrate.Scene_constraints (scene_of extract i n prompt) = true.
Proof.
  unfold Hydrate.Scene_constraints, scene_of.
  cbn [Scene.start_sec Scene.end_sec].
  apply andb_true_intro. split; apply Qle_bool_iff.
  - apply Qmult_le_0_compat; [|discriminate].
    change 0%Q with (inject_Z 0). rewrite <- Zle_Qle. lia.
  - apply Qmult_le_0_compat; [|discriminate].
    change 0%Q with (inject_Z 0). rewrite <- Zle_Qle. lia.
Qed.

Lemma scenes_from_constraints (parts : list string) (i n : nat) :
  forallb Hydrate.Scene_constraints (scenes_from extract i n parts) = true.
Proof.
  revert i. induction parts as [|p rest IH]; intros i; [reflexivity|].
  cbn [scenes_from forallb]. rewrite scene_of_constraints, IH. reflexivity.
Qed.

Lemma tens (k : Z) : (inject_Z k * 10 == inject_Z (10 * k))%Q.
Proof. rewrite inject_Z_mult. change (inject_Z 10) with 10%Q. ring. Qed.

(** X15.  A non-empty list of baseline prompts always converts: no field
    constraint of the script models can fail.  The script has one scene
    per prompt, in order, numbered from 1; scene number k covers the ten
    seconds from 10(k-1) to 10k, so the scenes tile the time from 0 to the
    script's duration, 10 seconds per prompt, without gap or overlap; each
    scene's action repeats its visual, and visual and dialogue are what
    the extraction gives for that prompt. *)
Theorem convert_baseline_timeline (parts : list string) (name : string) :
  parts <> [] ->
  exists script,
    convert_baseline_to_videoscript extract parts name = Ok script /\
    length (VideoScript.scenes script) = length parts /\
    VideoMeta.duration_seconds (VideoScript.video_meta script)
      = (10 * Z.of_nat (length parts))%Z /\
    VideoMeta.platform (VideoScript.video_meta script) = tiktok /\
    Hydrate.VideoScript_constraints script = true /\
    forall (k : nat) (scene : Scene.t),
      nth_error (VideoScript.scenes script) k = Some scene ->
      Scene.id scene = (Z.of_nat k + 1)%Z /\
      (Scene.start_sec scene == inject_Z (10 * Z.of_nat k))%Q /\
      (Scene.end_sec scene == inject_Z (10 * (Z.of_nat k + 1)))%Q /\
      Scene.action scene = Scene.visual scene /\
      exists prompt,
        nth_error parts k = Some prompt /\
        Scene.visual scene = fst (extract prompt) /\
        Scene.dialogue scene = snd (extract prompt).
Proof.
  intros Hne. destruct parts as [|prompt rest]; [contradiction|].
  eexists. split; [apply convert_ok|].
  cbn [VideoScript.scenes VideoScript.video_meta VideoMeta.duration_seconds
       VideoMeta.platform].
  split; [apply scenes_from_length|]. split; [lia|]. split; [reflexivity|].
  split; [apply scenes_from_constraints|].
  intros k scene Hk.
  destruct (scenes_from_nth _ _ _ _ _ Hk) as (p & Hp & ->).
  cbn [Nat.add]. unfold scene_of.
  cbn [Scene.id Scene.start_sec Scene.end_sec Scene.action Scene.visual
       Scene.dialogue].
  split; [reflexivity|]. split; [apply tens|]. split; [apply tens|].
  split; [reflexivity|]. exists p. auto.
Qed.

(** X16.  The roles of a converted script go by position alone: the first
    scene, and no other, is the hook; the last scene is the call to
    action unless it is also the first; the second scene is the problem
    unless it is the last; every scene in between is a solution; the role
    [other] is never given.  So a single prompt gives a script with a hook
    and no call to action, and two prompts give a script without problem
    or solution. *)
Theorem convert_baseline_roles (parts : list string) (name : string)
  (script : VideoScript.t) (k : nat) (scene : Scene.t) :
  convert_baseline_to_videoscript extract parts name = Ok script ->
  nth_error (VideoScript.scenes script) k = Some scene ->
  let n := length parts in
  (Scene.role scene = hook <-> k = 0%nat) /\
  (Scene.role scene = cta <-> k <> 0%nat /\ k = (n - 1)%nat) /\
  (Scene.role scene = problem <-> k = 1%nat /\ k <> (n - 1)%nat) /\
  (Scene.role scene = solution <-> (1 < k)%nat /\ k <> (n - 1)%nat) /\
  Scene.role scene <> other.
Proof.
  intros Hconv Hk n.
  destruct parts as [|prompt rest]; [discriminate Hconv|].
  rewrite convert_ok in Hconv. injection Hconv as <-.
  cbn [VideoScript.scenes] in Hk.
  destruct (scenes_from_nth (prompt :: rest) 0 n k scene Hk) as (p & _ & ->).
  cbn [Nat.add]. unfold scene_of. cbn [Scene.role].
  unfold role_of_position.
  destruct (Nat.eqb_spec k 0) as [H0|H0];
    [|destruct (Nat.eqb_spec k (n - 1)) as [Hl|Hl];
      [|destruct (Nat.eqb_spec k 1) as [H1|H1]]];
    repeat split; intros; try discriminate; try lia; try reflexivity;
    try (exfalso; lia).
Qed.

End Converter.


Lemma convert_baseline_timeline_witness :
  ["A founder at a messy desk"; "Pings everywhere"; "One click, silence"] <> [] /\
  exists script,
    convert_baseline_to_videoscript whole_prompt
      ["A founder at a messy desk"; "Pings everywhere"; "One click, silence"]
      "FocusFlow" = Ok script /\
    length (VideoScript.scenes script) = 3%nat /\
    VideoMeta.duration_seconds (VideoScript.video_meta script) = 30%Z.
Proof.
  assert (Hne : ["A founder at a messy desk"; "Pings everywhere";
                 "One click, silence"] <> @nil string) by discriminate.
  split; [exact Hne|].
  destruct (convert_baseline_timeline whole_prompt _ "FocusFlow" Hne)
    as (script & Hconv & Hlen & Hdur & _).
  exists script. split; [exact Hconv|]. split; [exact Hlen | exact Hdur].
Defined.

Lemma convert_baseline_roles_witness :
  exists script scene,
    convert_baseline_to_videoscript whole_prompt ["A founder at a messy desk"]
      "FocusFlow" = Ok script /\
    nth_error (VideoScript.scenes script) 0 = Some scene /\
    Scene.role scene = hook /\ Scene.role scene <> cta.
Proof.
  destruct (convert_baseline_to_videoscript whole_prompt
              ["A founder at a messy desk"] "FocusFlow")
    as [script|e] eqn:Hconv; [|vm_compute in Hconv; discriminate Hconv].
  destruct (nth_error (VideoScript.scenes script) 0) as [scene|] eqn:Hk;
    [|vm_compute in Hconv; injection Hconv as <-; discriminate Hk].
  destruct (convert_baseline_roles whole_prompt _ _ _ _ _ Hconv Hk)
    as (Hhook & Hcta & _).
  exists script, scene. split; [reflexivity|]. split; [exact Hk|].
  split; [apply Hhook; reflexivity|].
  intros H. apply Hcta in H. destruct H as [H _]. apply H. reflexivity.
Defined.


Section Evaluation.

Import Statistics CreativityEvaluator.

Context `{MathSqrtNonneg} {St : Type}.
Variable extract : string -> string * string.
Variable provider : LLMProvider St.



Lemma evaluate_baseline_script_cases (result : BaselineResult) (w : World St) :
  exists result' w',
    evaluate_baseline_script extract provider result w = (Ok result', w') /\
    same_but_assessment result result' /\
    (creativity_assessment result' = None <-> script_parts result = []) /\
    length (log w') = (length (log w) + (if has_parts result then 16 else 0))%nat.
Proof.
  unfold evaluate_baseline_script, has_parts, LLM.bind, LLM.try, LLM.lift, LLM.ret.
  destruct (script_parts result) as [|prompt rest] eqn:Hparts.
  - cbn. eexists. eexists. split; [reflexivity|].
    split; [repeat split; cbn; auto|]. cbn.
    split; [tauto | lia].
  - rewrite convert_ok. cbv zeta.
    destruct (EvaluatorFlow.score_script_explicit provider default
                (existT VideoScriptSchema
                   (VideoScript.mk
                      (VideoMeta.mk (Z.of_nat (length (prompt :: rest)) * 10) tiktok)
                      (scenes_from extract 0 (length (prompt :: rest)) (prompt :: rest)))
                 : GenerationResult.Content)
                (evaluation_context (product_name result) (pain_point result)
                                    (product_description result)) w)
      as (agg & w' & _ & Hscore & Hlog).
    rewrite Hscore. eexists. exists w'. split; [reflexivity|].
    split; [repeat split; cbn; auto|]. cbn [creativity_assessment].
    split; [split; intros Hx; discriminate Hx|].
    rewrite Hlog, !length_app, !length_map. reflexivity.
Qed.

(** X17.  [evaluate_baseline_scripts] never raises and returns one result
    per input, in order, with everything but the assessment as it was.  A
    result is left without assessment exactly when it has no script
    parts: the converter raises on nothing else, and the evaluator
    absorbs every failure of the provider.  The provider is called 16
    times for each result that has script parts, and not at all for the
    others. *)
Theorem evaluate_baseline_scripts_spec (results : list BaselineResult)
  (w : World St) :
  exists results' w',
    evaluate_baseline_scripts extract provider results w = (Ok results', w') /\
    Forall2 (fun r r' =>
               same_but_assessment r r' /\
               (creativity_assessment r' = None <-> script_parts r = []))
            results results' /\
    length (log w')
    = (length (log w) + 16 * length (List.filter has_parts results))%nat.
Proof.
  revert w. induction results as [|result rest IH]; intros w.
  - exists [], w. split; [reflexivity|]. split; [constructor | cbn; lia].
  - destruct (evaluate_baseline_script_cases result w)
      as (result' & w1 & Hstep & Hsame & Hnone & Hlog1).
    destruct (IH w1) as (rest' & w' & Hrest & Hall & Hlog).
    exists (result' :: rest'), w'. split; [|split].
    + cbn [evaluate_baseline_scripts]. unfold LLM.bind at 1. rewrite Hstep.
      unfold LLM.bind at 1. rewrite Hrest. reflexivity.
    + constructor; [split; assumption | exact Hall].
    + rewrite Hlog, Hlog1. cbn [List.filter].
      destruct (has_parts result); cbn [length]; lia.
Qed.

(** X18.  The separate evaluation of a creative result evaluates the
    script the engine drafted: when the result's [script] is the dump of a
    script that meets its field constraints, rebuilding the script from
    the dict gives that script back, and the stored assessment is the one
    [score_script] returns for it; in particular it is never [None]. *)
Theorem evaluate_creative_script_of_dump (result : CreativeResult)
  (drafted : VideoScript.t) (w : World St) :
  script result = Dump.VideoScript_model_dump drafted ->
  Hydrate.VideoScript_constraints drafted = true ->
  exists assessment w',
    score_script provider default
      (existT VideoScriptSchema drafted : GenerationResult.Content)
      (evaluation_context (c_product_name result) (c_pain_point result)
                          (c_product_description result)) w
    = (Ok assessment, w') /\
    evaluate_creative_script provider result w
    = (Ok (mkCreative (c_url result) (c_product_name result)
             (c_product_description result) (c_pain_point result)
             (concept_title result) (quality_score result) (script result)
             (Some assessment)), w').
Proof.
  intros Hscript Hvalid.
  destruct (EvaluatorFlow.score_script_explicit provider default
              (existT VideoScriptSchema drafted : GenerationResult.Content)
              (evaluation_context (c_product_name result) (c_pain_point result)
                                  (c_product_description result)) w)
    as (agg & w' & _ & Hscore & _).
  eexists. exists w'. split; [exact Hscore|].
  unfold evaluate_creative_script, LLM.bind, LLM.try, LLM.lift, LLM.ret.
  rewrite Hscript, (RoundTripSpec.VideoScript_roundtrip drafted Hvalid).
  rewrite Hscore. reflexivity.
Qed.

End Evaluation.




(** A provider that always fails still leaves an assessment on the result
    that has script parts, after its 16 calls. *)
Lemma evaluate_baseline_scripts_spec_witness :
  exists r1 r2 w',
    evaluate_baseline_scripts (Sqrt := Stub.rational_sqrt) whole_prompt
      Stub.failing
      [sample_baseline ["A founder at a messy desk"; "One click, silence"];
       sample_baseline []]
      (Stub.start tt)
    = (Ok [r1; r2], w') /\
    creativity_assessment r1 <> None /\
    creativity_assessment r2 = None /\
    length (log w') = 16%nat.
Proof.
  destruct (evaluate_baseline_scripts_spec
              (H0 := EvaluatorSpec.rational_sqrt_nonneg) whole_prompt Stub.failing
              [sample_baseline ["A founder at a messy desk"; "One click, silence"];
               sample_baseline []]
              (Stub.start tt)) as (results' & w' & Hrun & Hall & Hlog).
  inversion Hall as [|r r1 rest rest' [_ H1] Hall' Ea Eb]; subst.
  inversion Hall' as [|r r2 rest rest'' [_ H2] Hall'' Ea Eb]; subst.
  inversion Hall''; subst.
  exists r1, r2, w'. split; [exact Hrun|]. split; [|split].
  - intros Hnone. apply H1 in Hnone. discriminate Hnone.
  - apply H2. reflexivity.
  - exact Hlog.
Defined.

Lemma evaluate_creative_script_of_dump_witness :
  script sample_creative = Dump.VideoScript_model_dump Stub.sample_script /\
  Hydrate.VideoScript_constraints Stub.sample_script = true /\
  exists assessment w',
    evaluate_creative_script (Sqrt := Stub.rational_sqrt)
      (Stub.scripted (fun _ => true) (fun _ => 2%Q)) sample_creative
      (Stub.start 0%nat)
    = (Ok (mkCreative (c_url sample_creative) (c_product_name sample_creative)
             (c_product_description sample_creative) (c_pain_point sample_creative)
             (concept_title sample_creative) (quality_score sample_creative)
             (script sample_creative) (Some assessment)), w').
Proof.
  split; [reflexivity|]. split; [reflexivity|].
  destruct (evaluate_creative_script_of_dump
              (H0 := EvaluatorSpec.rational_sqrt_nonneg)
              (Stub.scripted (fun _ => true) (fun _ => 2%Q))
              sample_creative Stub.sample_script (Stub.start 0%nat)
              eq_refl eq_refl) as (assessment & w' & _ & Hrun).
  exists assessment, w'. exact Hrun.
Defined.


(** *** The analysis of the comparison report *)

Lemma Qltb_true (x y : Q) : Qltb x y = true <-> (x < y)%Q.
Proof.
  unfold Qltb. rewrite negb_true_iff. split.
  - intros Hle. apply Qnot_le_lt. intros Hyx.
    apply Qle_bool_iff in Hyx. congruence.
  - intros Hlt. destruct (Qle_bool y x) eqn:Hle; [|reflexivity].
    apply Qle_bool_iff in Hle. exfalso. apply (Qlt_not_le _ _ Hlt Hle).
Qed.

Lemma Qltb_false (x y : Q) : Qltb x y = false <-> (y <= x)%Q.
Proof.
  unfold Qltb. rewrite negb_false_iff. apply Qle_bool_iff.
Qed.

(** The improvement is the relative change in percent when the baseline
    is positive, and 0 otherwise: its sign is the sign of the change. *)
Lemma improvement_of_sign (b c : Q) :
  ((0 < improvement_of b c <-> 0 < b /\ b < c) /\
   (improvement_of b c < 0 <-> 0 < b /\ c < b) /\
   (0 < b -> c == b * (1 + improvement_of b c / 100)) /\
   (b <= 0 -> improvement_of b c == 0))%Q.
Proof.
  unfold improvement_of. destruct (Qltb 0 b) eqn:Hb.
  - apply Qltb_true in Hb.
    assert (Hx : ((c - b) / b * 100 * b == (c - b) * 100)%Q).
    { field. intros H0. rewrite H0 in Hb. apply (Qlt_irrefl 0), Hb. }
    set (x := ((c - b) / b * 100)%Q) in *.
    split; [|split; [|split]].
    + split; [intros Hpos; split; [exact Hb|nra] | intros [_ Hlt]; nra].
    + split; [intros Hneg; split; [exact Hb|nra] | intros [_ Hlt]; nra].
    + intros _.
      assert (Hy : (b * (1 + x / 100) == b + x * b * (1 # 100))%Q) by field.
      rewrite Hy, Hx. field.
    + intros Hle. exfalso. apply (Qlt_not_le _ _ Hb Hle).
  - apply Qltb_false in Hb.
    split; [|split; [|split]].
    + split; [intros H0; exfalso; apply (Qlt_irrefl 0), H0 | intros [H0 _]; lra].
    + split; [intros H0; exfalso; apply (Qlt_irrefl 0), H0 | intros [H0 _]; lra].
    + intros H0. lra.
    + intros _. reflexivity.
Qed.


Lemma analysis_some (baseline_results : list BaselineResult)
  (creative_results : list CreativeResult) (an : Analysis) :
  analysis baseline_results creative_results = Some an ->
  let bs := baseline_scores baseline_results in
  let cs := creative_scores creative_results in
  bs <> [] /\ cs <> [] /\
  an = mkAnalysis
         (Py.sum (map overall_mean bs) / Py.len bs)
         (Py.sum (map overall_std bs) / Py.len bs)
         (Py.sum (map overall_mean cs) / Py.len cs)
         (Py.sum (map overall_std cs) / Py.len cs)
         (improvement_of (Py.sum (map overall_mean bs) / Py.len bs)
                         (Py.sum (map overall_mean cs) / Py.len cs))
         (map (compare_product cs) bs).
Proof.
  unfold analysis. cbv zeta.
  destruct (baseline_scores baseline_results) as [|b bs];
    [discriminate|].
  destruct (creative_scores creative_results) as [|c cs]; [discriminate|].
  intros [= <-]. repeat split; discriminate.
Qed.



Lemma truthy_float_false (x : Q) : truthy_float x = false <-> (x == 0)%Q.
Proof. unfold truthy_float. rewrite negb_false_iff. apply Qeq_bool_iff. Qed.

Lemma compare_product_spec (creative : list ScoreEntry) (b : ScoreEntry) :
  let row := compare_product creative b in
  cmp_product row = product b /\
  baseline_score row = overall_mean b /\
  match creative_score row with
  | Some c =>
      (exists e, In e creative /\ product e = product b /\ overall_mean e = c) /\
      (improvement row = None <-> (overall_mean b == 0 \/ c == 0)%Q) /\
      (forall x, improvement row = Some x ->
                 (0 < x <-> 0 < overall_mean b /\ overall_mean b < c)%Q)
  | None =>
      (forall e, In e creative -> product e <> product b) /\
      improvement row = None
  end.
Proof.
  unfold compare_product, first_score_of. cbv zeta.
  cbn [cmp_product baseline_score creative_score improvement].
  split; [reflexivity|]. split; [reflexivity|].
  destruct (List.find (fun c => String.eqb (product c) (product b)) creative)
    as [e|] eqn:Hfind; cbn [option_map].
  - apply find_some in Hfind as [Hin Heq]. apply String.eqb_eq in Heq.
    split; [exists e; auto|].
    destruct (truthy_float (overall_mean b)) eqn:Hb;
      [destruct (truthy_float (overall_mean e)) eqn:He|]; cbn [andb].
    + split.
      * split; [discriminate|]. intros [H0|H0].
        -- apply truthy_float_false in H0. congruence.
        -- apply truthy_float_false in H0. congruence.
      * intros x [= <-]. apply improvement_of_sign.
    + apply truthy_float_false in He.
      split; [split; auto | discriminate].
    + apply truthy_float_false in Hb.
      split; [split; auto | discriminate].
  - split; [|reflexivity]. intros e Hin Heq.
    pose proof (find_none _ _ Hfind e Hin) as Hne. cbn in Hne.
    apply String.eqb_neq in Hne. contradiction.
Qed.

(** X20.  The per-product comparison of the report has one row per
    baseline score, in order, with that entry's product and score.  The
    row's creative score is the score of a creative entry with the same
    product name, and missing only when there is none; the row has an
    improvement unless the creative score is missing or one of the two
    scores is 0, and the improvement is positive exactly when the baseline
    score is positive and the creative score above it. *)
Theorem per_product_comparison_rows (baseline_results : list BaselineResult)
  (creative_results : list CreativeResult) (an : Analysis) :
  analysis baseline_results creative_results = Some an ->
  Forall2
    (fun b row =>
       cmp_product row = product b /\
       baseline_score row = overall_mean b /\
       match creative_score row with
       | Some c =>
           (exists e, In e (creative_scores creative_results) /\
                      product e = product b /\ overall_mean e = c) /\
           (improvement row = None <-> (overall_mean b == 0 \/ c == 0)%Q) /\
           (forall x, improvement row = Some x ->
                      (0 < x <-> 0 < overall_mean b /\ overall_mean b < c)%Q)
       | None =>
           (forall e, In e (creative_scores creative_results) ->
                      product e <> product b) /\
           improvement row = None
       end)
    (baseline_scores baseline_results) (per_product_comparison an).
Proof.
  intros Han. destruct (analysis_some _ _ _ Han) as (_ & _ & ->).
  cbn [per_product_comparison]. clear Han.
  induction (baseline_scores baseline_results) as [|b bs IH]; cbn [map].
  - constructor.
  - constructor; [apply compare_product_spec | exact IH].
Qed.



Lemma per_product_comparison_rows_witness :
  exists an row1 row2 x,
    analysis two_baselines two_creatives = Some an /\
    per_product_comparison an = [row1; row2] /\
    cmp_product row1 = "FocusFlow"%string /\
    creative_score row1 = Some 2%Q /\
    improvement row1 = Some x /\ (0 < x)%Q.
Proof.
  destruct (analysis two_baselines two_creatives) as [an|] eqn:Han;
    [|vm_compute in Han; discriminate Han].
  pose proof (per_product_comparison_rows _ _ _ Han) as Hrows.
  assert (Hlist : per_product_comparison an
                  = [compare_product (creative_scores two_creatives)
                       (entry_of "FocusFlow" (assessment_with 1.5 0.5));
                     compare_product (creative_scores two_creatives)
                       (entry_of "Quiet" (assessment_with 2 0))]).
  { destruct (analysis_some _ _ _ Han) as (_ & _ & ->). reflexivity. }
  rewrite Hlist in Hrows.
  change (baseline_scores two_baselines)
    with [entry_of "FocusFlow" (assessment_with 1.5 0.5);
          entry_of "Quiet" (assessment_with 2 0)] in Hrows.
  apply Forall2_cons_1 in Hrows as [(Hname & _ & Hrow1) _].
  change (creative_score
            (compare_product (creative_scores two_creatives)
               (entry_of "FocusFlow" (assessment_with 1.5 0.5))))
    with (Some 2%Q) in Hrow1.
  destruct Hrow1 as (_ & Hnone & Hsign).
  destruct (improvement
              (compare_product (creative_scores two_creatives)
                 (entry_of "FocusFlow" (assessment_with 1.5 0.5))))
    as [x|] eqn:Himp.
  - eexists an, _, _, x. split; [reflexivity|].
    split; [exact Hlist|]. split; [exact Hname|].
    split; [reflexivity|]. split; [exact Himp|].
    apply (Hsign x eq_refl). split; reflexivity.
  - exfalso. destruct (proj1 Hnone eq_refl) as [H0|H0]; discriminate H0.
Defined.

End BenchmarkSpec.
